(** * Axicov SDK: tool-registry resolution, agents and server

    A shallow embedding of the TypeScript sources

    - [src/registry/index.ts]  ([exportToolsAndSetMetadata], [createTool]),
    - the [Agent] class whose constructor receives the chat model
      (constructor, [initialize], [messageAgent], [orchestrate]),
    - the [Agent] class that builds its chat model from the environment
      keys (constructor, [initialize], [orchestrate], [messageAgent]),
    - the constructor of the [Agent] class that declares [tools: any[]],
    - the express application (the model factory and the six routes),

    together with the properties of the specification that concern them
    and further properties read off the code.

    JavaScript values are modelled as the code uses them: arrays as lists,
    objects used as records as Rocq records, [any]-typed arguments as small
    sums, exceptions and promise settlement by an explicit [Outcome], the
    console and the caller-owned [params] object by explicit state. *)

From Stdlib Require Import String Ascii List ZArith Lia Permutation Bool.
From stdpp Require Import base list strings pretty gmap.

Import ListNotations.
Local Open Scope string_scope.
Local Open Scope list_scope.

(** ** Strings *)

(** The newline of a template literal and the double quote. *)
Definition nl : string := String (ascii_of_nat 10) EmptyString.
Definition dq : string := String (ascii_of_nat 34) EmptyString.

(** [Array.prototype.join]. *)
Definition join (sep : string) (parts : list string) : string :=
  String.concat sep parts.

(** Rendering of a boolean inside a template literal. *)
Definition string_of_bool (b : bool) : string :=
  if b then "true" else "false".

(** ** Errors, completions and the console *)

(** The error objects the code creates or receives; [message] is the
    [.message] property read by the handlers. *)
Inductive JSError : Type :=
| Error (message : string)
| TypeError (message : string)
| SyntaxError (message : string).

Definition message (e : JSError) : string :=
  match e with
  | Error m | TypeError m | SyntaxError m => m
  end.

(** How a call ends.  For an [async] function [Returned] and [Threw] are the
    fulfilment and the rejection of its promise, and [Unsettled] is a promise
    that never settles (an awaited operation that never completes). *)
Inductive Outcome (A : Type) : Type :=
| Returned (v : A)
| Threw (e : JSError)
| Unsettled.

Arguments Returned {A} v.
Arguments Threw {A} e.
Arguments Unsettled {A}.

(** One line written to the console: [console.log(text)] or
    [console.error(text, payload)]. *)
Inductive LogPayload : Type :=
| NoPayload
| ErrorPayload (e : JSError)
| TextPayload (s : string).

Inductive LogEntry : Type :=
| ConsoleLog (text : string)
| ConsoleError (text : string) (payload : LogPayload).

(** ** Types of [src/types/index.ts] *)

(** [toolType]: a LangChain tool.  Only its [name] and [description] are read
    by this code; [func] identifies the implementation closure. *)
Record toolType : Type := mkTool {
  tool_name : string;
  tool_description : string;
  tool_func : nat
}.

(** [ToolSchema]; [requiresApproval] is optional ([None] is [undefined]).
    The [schema] member is a zod schema that this code never inspects. *)
Record ToolSchema : Type := mkToolSchema {
  name : string;
  description : string;
  requiresApproval : option bool
}.

(** [Tools]: an object from keys to [ToolSchema], held as its own properties
    in the order [Object.values] enumerates them. *)
Definition Tools : Type := list (string * ToolSchema).

Definition Object_values {V : Type} (o : list (string * V)) : list V :=
  map snd o.

Definition Object_keys {V : Type} (o : list (string * V)) : list string :=
  map fst o.

(** What a tool factory resolves to: [{ tools, schema }]. *)
Record ToolItem : Type := mkToolItem {
  item_tools : list toolType;
  item_schema : Tools
}.

(** ** The agent object *)

(** The [tools] member.  One [Agent] class declares [tools: any[]] and starts
    from [[]]; the classes with [orchestrate] declare
    [tools: { [key: string]: toolType }] and start from [{}].  An object is
    held as its own properties in insertion order; a property read looks
    them up by key. *)
Inductive ToolsField : Type :=
| ToolsArray (elems : list toolType)
| ToolsObject (props : list (string * toolType)).

(** The caller-owned [params] object: [name], [instruction] and the optional
    [toolKnowledge] array ([None] is [undefined]). *)
Record Params : Type := mkParams {
  params_name : string;
  instruction : string;
  toolKnowledge : option (list string)
}.

(** Objects are held in a store and referred to by address, so that the
    agent and its caller can share one [params] object. *)
Definition addr : Type := nat.

(** A reference of type [any]: [undefined] or the address of an object. *)
Inductive Ref : Type :=
| RefUndefined
| RefObject (a : addr).

(** The checkpoint savers the code can install. *)
Inductive CheckPointSaver : Type :=
| MemorySaver
| MongoDBSaver.

(** The chat model is an external object, known by an identifier. *)
Definition BaseChatModel : Type := nat.

(** The members of an agent that the modelled code reads or writes.
    [mongoClient] records whether a client was stored, [config] the
    [thread_id] it is configured with, and [agent] the string that one class
    stores in the member of that name ([None] is [undefined]). *)
Record Agent : Type := mkAgent {
  tools : ToolsField;
  threadId : string;
  toolMetadata : string;
  model : option BaseChatModel;
  systemPrompt : option string;
  mongoClient : bool;
  checkPointSaver : option CheckPointSaver;
  config : option string;
  agent : option string;
  params : Ref;
  runtimeParams : list (string * string)
}.

(** The state a call runs in: the agent object ([this]), the store of
    [params] objects and the console. *)
Record St : Type := mkSt {
  this : Agent;
  heap : gmap addr Params;
  console : list LogEntry
}.

Definition set_this (f : Agent -> Agent) (st : St) : St :=
  mkSt (f (this st)) (heap st) (console st).

Definition write (entries : list LogEntry) (st : St) : St :=
  mkSt (this st) (heap st) (console st ++ entries).

Definition with_tools (t : ToolsField) (a : Agent) : Agent :=
  mkAgent t (threadId a) (toolMetadata a) (model a) (systemPrompt a)
    (mongoClient a) (checkPointSaver a) (config a) (agent a) (params a) (runtimeParams a).

Definition with_toolMetadata (s : string) (a : Agent) : Agent :=
  mkAgent (tools a) (threadId a) s (model a) (systemPrompt a)
    (mongoClient a) (checkPointSaver a) (config a) (agent a) (params a) (runtimeParams a).

Definition with_systemPrompt (s : string) (a : Agent) : Agent :=
  mkAgent (tools a) (threadId a) (toolMetadata a) (model a) (Some s)
    (mongoClient a) (checkPointSaver a) (config a) (agent a) (params a) (runtimeParams a).

Definition with_mongoClient (a : Agent) : Agent :=
  mkAgent (tools a) (threadId a) (toolMetadata a) (model a) (systemPrompt a)
    true (checkPointSaver a) (config a) (agent a) (params a) (runtimeParams a).

Definition with_checkPointSaver (c : CheckPointSaver) (a : Agent) : Agent :=
  mkAgent (tools a) (threadId a) (toolMetadata a) (model a) (systemPrompt a)
    (mongoClient a) (Some c) (config a) (agent a) (params a) (runtimeParams a).

Definition with_agent (s : string) (a : Agent) : Agent :=
  mkAgent (tools a) (threadId a) (toolMetadata a) (model a) (systemPrompt a)
    (mongoClient a) (checkPointSaver a) (config a) (Some s) (params a)
    (runtimeParams a).

(** The elements of the tool collection, whichever shape it has. *)
Definition tool_list (t : ToolsField) : list toolType :=
  match t with
  | ToolsArray elems => elems
  | ToolsObject props => Object_values props
  end.

(** [agent.tools.push(...items)].  On an array the items are appended.  An
    object has no callable [push] member (a property of that name would hold
    a tool, which is not a function), so the call throws a [TypeError]. *)
Definition push (t : ToolsField) (items : list toolType) : JSError + ToolsField :=
  match t with
  | ToolsArray elems => inr (ToolsArray (elems ++ items))
  | ToolsObject _ => inl (TypeError "agent.tools.push is not a function")
  end.

(** [agent.tools.length === 0].  An object has no numeric [length], so the
    comparison is [false] there. *)
Definition length_is_zero (t : ToolsField) : bool :=
  match t with
  | ToolsArray elems => Nat.eqb (length elems) 0
  | ToolsObject _ => false
  end.

(** A tool factory: [(agent) => Promise<{ tools, schema }>].  It reads the
    agent it is given, and resolves, rejects (or throws) or never settles. *)
Definition Factory : Type := St -> Outcome ToolItem.

(** An argument declared [any] that the code uses as an array of
    factories. *)
Inductive AnyRegistry : Type :=
| NotAnArray
| FactoryArray (items : list Factory).

(** * [src/registry/index.ts] *)

Module Registry.

(** [toolNumbers.includes(idx)]: the index is compared with every entry
    (only integral entries can equal an index). *)
Definition includes (toolNumbers : list Z) (idx : nat) : bool :=
  existsb (Z.eqb (Z.of_nat idx)) toolNumbers.

(** [Array.prototype.filter] with a callback that receives the element and
    its index: the array is walked from index [0] upwards and the elements
    the callback accepts are kept. *)
Fixpoint filter_from {A : Type} (callback : A -> nat -> bool) (idx : nat)
    (arr : list A) : list A :=
  match arr with
  | [] => []
  | x :: rest =>
      if callback x idx
      then x :: filter_from callback (S idx) rest
      else filter_from callback (S idx) rest
  end.

Definition Array_filter {A : Type} (callback : A -> nat -> bool)
    (arr : list A) : list A :=
  filter_from callback 0 arr.

(** [allRegistry.filter((_, idx) => toolNumbers.includes(idx))]. *)
Definition filteredToolBunches {A : Type} (toolNumbers : list Z)
    (allRegistry : list A) : list A :=
  Array_filter (fun _ idx => includes toolNumbers idx) allRegistry.

(** [coreRegistry.concat(filteredToolBunches)]: the factories the call
    invokes. *)
Definition effective_factories {A : Type} (toolNumbers : list Z)
    (coreRegistry allRegistry : list A) : list A :=
  coreRegistry ++ filteredToolBunches toolNumbers allRegistry.

(** The selection as the specification words it: the elements of the
    registry whose index is a member of the index set, by increasing
    index.  Membership is that of the list, decided on its own and not by
    [includes]. *)
Definition selected_by_index {A : Type} (S : list Z) (all : list A) : list A :=
  omap (fun i => all !! i)
       (List.filter (fun i => bool_decide (Z.of_nat i ∈ S)) (seq 0 (length all))).

(** The metadata entry pushed for one schema value:
    [${item?.requiresApproval || false}] renders [true] only when the
    member is present and true. *)
Definition metadata_entry (item : ToolSchema) : string :=
  nl +:+ "  - Tool Name: " +:+ name item +:+
  nl +:+ "  - Tool Description: " +:+ description item +:+
  nl +:+ "  - Requires Approval: " +:+
        string_of_bool (default false (requiresApproval item)) +:+
  nl +:+ "            ".

(** An element of the array [Promise.allSettled] resolves to. *)
Inductive SettledResult : Type :=
| Fulfilled (value : option ToolItem)
| Rejected (reason : JSError).

Definition is_rejected (r : SettledResult) : bool :=
  match r with
  | Rejected _ => true
  | Fulfilled _ => false
  end.

(** The body of the mapped [async] function after [await item(agent)] has
    produced [toolItem]: the tool names are logged, the tools are pushed on
    [agent.tools], one metadata entry per schema value is pushed on the local
    [toolMetadata], and [toolItem] is returned.  An exception (here: of
    [push]) is caught by the inner handler, which logs it and returns
    [null]. *)
Definition load_tool_item (toolItem : ToolItem) (st : St)
    (toolMetadata : list string) : option ToolItem * St * list string :=
  let st1 :=
    write (map (fun tool => ConsoleLog (tool_name tool)) (item_tools toolItem)) st in
  match push (tools (this st1)) (item_tools toolItem) with
  | inl error =>
      (None,
       write [ConsoleError "Error loading tool:" (ErrorPayload error)] st1,
       toolMetadata)
  | inr t =>
      (Some toolItem,
       set_this (with_tools t) st1,
       toolMetadata ++ map metadata_entry (Object_values (item_schema toolItem)))
  end.

(** The calls in flight while [Promise.allSettled] is awaited: one promise
    per factory ([None] while it is pending), the local [toolMetadata] array
    and the state. *)
Record Loading : Type := mkLoading {
  toolPromises : list (option SettledResult);
  pending_metadata : list string;
  loading_st : St
}.

(** The factory of index [i] settles and the mapped function resumes.  A
    rejection of the factory is caught by the inner handler.  Nothing
    happens for a promise that is already settled, for an index outside the
    array, or for a factory that never settles. *)
Definition settle (settlements : list (Outcome ToolItem)) (l : Loading)
    (i : nat) : Loading :=
  match toolPromises l !! i, settlements !! i with
  | Some None, Some (Returned toolItem) =>
      let '(value, st', md) :=
        load_tool_item toolItem (loading_st l) (pending_metadata l) in
      mkLoading (<[i := Some (Fulfilled value)]> (toolPromises l)) md st'
  | Some None, Some (Threw error) =>
      mkLoading (<[i := Some (Fulfilled None)]> (toolPromises l))
        (pending_metadata l)
        (write [ConsoleError "Error loading tool:" (ErrorPayload error)]
           (loading_st l))
  | _, _ => l
  end.

(** [Promise.allSettled]: resolves, with one result per promise in the
    order of the array, once none is pending. *)
Definition Promise_allSettled (promises : list (option SettledResult))
    : option (list SettledResult) :=
  mapM id promises.

(** [`Tool at index ${index} failed to load:`] for every rejected result. *)
Definition rejection_logs (results : list SettledResult) : list LogEntry :=
  omap (fun '(index, result) =>
          match result with
          | Rejected reason =>
              Some (ConsoleError
                      ("Tool at index " +:+ pretty index +:+ " failed to load:")
                      (ErrorPayload reason))
          | Fulfilled _ => None
          end)
       (imap pair results).

(** [failureMessages]: the rejected results, renumbered, rendered and
    joined. *)
Definition failureMessages (failedTools : list SettledResult) : string :=
  join "; "
    (omap (fun '(index, result) =>
             match result with
             | Rejected reason =>
                 Some ("Tool " +:+ pretty index +:+ ": " +:+
                       (if String.eqb (message reason) ""
                        then "Unknown error" else message reason))
             | Fulfilled _ => None
             end)
          (imap pair failedTools)).

(** The statements after [await Promise.allSettled(toolPromises)]. *)
Definition finish (results : list SettledResult) (toolMetadata : list string)
    (st : St) : St :=
  let st1 := write (rejection_logs results) st in
  let st2 := set_this (with_toolMetadata (join (nl +:+ nl) toolMetadata)) st1 in
  let failedTools := List.filter is_rejected results in
  let st3 :=
    if Nat.ltb 0 (length failedTools)
    then write [ConsoleError "Failed to initialize one or more tools"
                  (TextPayload (failureMessages failedTools))] st2
    else st2 in
  if length_is_zero (tools (this st3))
  then write [ConsoleError "No tools were loaded successfully" NoPayload] st3
  else st3.

(** [exportToolsAndSetMetadata(agent, toolNumbers, coreRegistry,
    allRegistry)], run from state [st] (whose [this] is [agent]).

    [order] is the order in which the factories settle.  All factories are
    invoked, in the order of the effective list, while [map] runs, before
    any of them is resumed; each reads the state of that moment.

    An exception in the body (a registry that is not an array) is caught by
    the outer handler, which logs it and returns [[]]. *)
Definition exportToolsAndSetMetadata (toolNumbers : list Z)
    (coreRegistry allRegistry : AnyRegistry) (order : list nat) (st : St)
    : Outcome (list SettledResult) * St :=
  match allRegistry, coreRegistry with
  | FactoryArray all, FactoryArray core =>
      let factories := effective_factories toolNumbers core all in
      let settlements := map (fun item : Factory => item st) factories in
      let started := mkLoading (map (fun _ => None) factories) [] st in
      let l := fold_left (settle settlements) order started in
      match Promise_allSettled (toolPromises l) with
      | Some results =>
          (Returned results, finish results (pending_metadata l) (loading_st l))
      | None => (Unsettled, loading_st l)
      end
  | NotAnArray, _ =>
      (Returned [],
       write [ConsoleError "Error in exportToolsAndSetMetadata:"
                (ErrorPayload (TypeError "allRegistry.filter is not a function"))] st)
  | FactoryArray _, NotAnArray =>
      (Returned [],
       write [ConsoleError "Error in exportToolsAndSetMetadata:"
                (ErrorPayload (TypeError "coreRegistry.concat is not a function"))] st)
  end.

End Registry.

(** * The platform *)

(** A value parsed by [JSON.parse]; a number is carried by its rendering as a
    string. *)
#[warnings="-register-all"] Inductive JSON : Type :=
| JNull
| JBool (b : bool)
| JNumber (repr : string)
| JString (s : string)
| JArray (elems : list JSON)
| JObject (members : list (string * JSON)).

(** [String(v)], which is also the property key [v] stands for in
    [object[v]]: a string is its own key, an array is the join of its
    elements by a comma. *)
Fixpoint ToString (v : JSON) : string :=
  match v with
  | JNull => "null"
  | JBool b => string_of_bool b
  | JNumber repr => repr
  | JString s => s
  | JArray elems =>
      join ","
        (map (fun e => match e with
                       | JNull => ""
                       | _ => ToString e
                       end) elems)
  | JObject _ => "[object Object]"
  end.

(** What a property read on the [tools] member yields: [undefined], a tool,
    or a built-in member of the object (such as [toString]). *)
Inductive JSValue : Type :=
| undefined
| ToolValue (t : toolType)
| BuiltIn (member : string).

(** The argument of [createReactAgent]. *)
Record ReactAgentParams : Type := mkReactAgentParams {
  llm : option BaseChatModel;
  agent_tools : list JSValue;
  agent_checkpointSaver : option CheckPointSaver;
  messageModifier : option string
}.

(** The executor [createReactAgent] returns, an external object. *)
Definition ReactAgent : Type := nat.

(** A chat message handed to the model or to the executor. *)
Inductive Message : Type :=
| SystemMessage (content : option string)
| HumanMessage (content : string).

(** The collaborators outside this repository, as the code calls them. *)
Record Platform : Type := mkPlatform {
  (** [new Date().toISOString()] *)
  Date_toISOString : string;
  (** [new MongoClient(process.env.MONGO_URI!)]: [Some e] when it throws *)
  MongoClient_new : option JSError;
  (** [mongoClient.connect()] *)
  MongoClient_connect : Outcome unit;
  (** [model.invoke([system, human])], followed by [.content.toString()] *)
  model_invoke : BaseChatModel -> list Message -> Outcome string;
  (** [JSON.parse] *)
  JSON_parse : string -> JSError + JSON;
  (** [createReactAgent] *)
  createReactAgent : ReactAgentParams -> JSError + ReactAgent;
  (** [checkPointSaver.get(config)]: whether a checkpoint exists *)
  checkPointSaver_get : CheckPointSaver -> option string -> Outcome bool;
  (** [agent.invoke({ messages }, config)]: the contents of the messages of
      the response *)
  agent_invoke : ReactAgent -> list Message -> Outcome (list string)
}.

(** The variables of [process.env] that select the chat model ([None] is
    [undefined]). *)
Record Env : Type := mkEnv {
  ANTHROPIC_API_KEY : option string;
  GEMINI_API_KEY : option string
}.

(** The fields handed to the constructor of a chat model; a field the
    caller does not set is [None]. *)
Record ChatModelFields : Type := mkChatModelFields {
  field_apiKey : option string;
  field_model : option string;
  field_modelName : option string;
  field_temperature : option string
}.

(** [new ChatAnthropic(fields)] and [new ChatGoogleGenerativeAI(fields)]:
    the model, or the error the constructor throws. *)
Record ModelProviders : Type := mkModelProviders {
  ChatAnthropic_new : ChatModelFields -> JSError + BaseChatModel;
  ChatGoogleGenerativeAI_new : ChatModelFields -> JSError + BaseChatModel
}.

(** Whether a string-valued member is truthy: present and not empty. *)
Definition truthy (s : option string) : bool :=
  match s with
  | Some s => negb (String.eqb s "")
  | None => false
  end.

(** * Statements with state and exceptions *)

Definition M (A : Type) : Type := St -> Outcome A * St.

Definition ret {A : Type} (v : A) : M A :=
  fun st => (Returned v, st).

Definition bind {A B : Type} (m : M A) (k : A -> M B) : M B :=
  fun st =>
    match m st with
    | (Returned v, st') => k v st'
    | (Threw e, st') => (Threw e, st')
    | (Unsettled, st') => (Unsettled, st')
    end.

Definition throw {A : Type} (e : JSError) : M A :=
  fun st => (Threw e, st).

(** [try { body } catch (error) { handler }]: what the body did to the state
    before it threw stays done. *)
Definition try_catch {A : Type} (body : M A) (handler : JSError -> M A) : M A :=
  fun st =>
    match body st with
    | (Threw e, st') => handler e st'
    | r => r
    end.

(** An awaited external operation. *)
Definition await {A : Type} (o : Outcome A) : M A :=
  fun st => (o, st).

Definition console_log (text : string) : M unit :=
  fun st => (Returned tt, write [ConsoleLog text] st).

Definition console_error (text : string) (payload : LogPayload) : M unit :=
  fun st => (Returned tt, write [ConsoleError text payload] st).

Definition assign (f : Agent -> Agent) : M unit :=
  fun st => (Returned tt, set_this f st).

Definition get_this : M Agent :=
  fun st => (Returned (this st), st).

(** A member read through [this.params]: a [TypeError] when [params] is not
    an object. *)
Definition this_params : M Params :=
  fun st =>
    match params (this st) with
    | RefObject a =>
        match heap st !! a with
        | Some p => (Returned p, st)
        | None => (Threw (TypeError "Cannot read properties of undefined"), st)
        end
    | RefUndefined => (Threw (TypeError "Cannot read properties of undefined"), st)
    end.

Declare Scope js_scope.
Delimit Scope js_scope with js.
Notation "x <- m ;; k" := (bind m (fun x => k))
  (at level 100, m at next level, k at level 200, right associativity)
  : js_scope.
Notation "m ;; k" := (bind m (fun _ => k))
  (at level 100, k at level 200, right associativity) : js_scope.
Local Open Scope js_scope.

(** * Parts the two orchestrating classes share *)

(** [${this.params.toolKnowledge && this.params.toolKnowledge.length > 0 &&
    this.params.toolKnowledge.filter((item) => item !== "")
    .map((item) => `- ${item}`).join("\n")}]: the conjunction stops at its
    first falsy operand, which the template renders. *)
Definition render_toolKnowledge (k : option (list string)) : string :=
  match k with
  | None => "undefined"
  | Some [] => "false"
  | Some items =>
      join nl
        (map (fun item => "- " +:+ item)
           (List.filter (fun item => negb (String.eqb item "")) items))
  end.

(** The own property of an object under a key. *)
Fixpoint own_property {V : Type} (props : list (string * V)) (key : string)
    : option V :=
  match props with
  | [] => None
  | (k, v) :: rest =>
      if String.eqb k key then Some v else own_property rest key
  end.

(** The members every object inherits from [Object.prototype]. *)
Definition Object_prototype_members : list string :=
  [ "constructor"; "hasOwnProperty"; "isPrototypeOf"; "propertyIsEnumerable";
    "toLocaleString"; "toString"; "valueOf"; "__proto__";
    "__defineGetter__"; "__defineSetter__";
    "__lookupGetter__"; "__lookupSetter__" ].

(** The named members of an array: [length] and those of
    [Array.prototype]. *)
Definition Array_members : list string :=
  [ "length"; "at"; "concat"; "copyWithin"; "entries"; "every"; "fill";
    "filter"; "find"; "findIndex"; "findLast"; "findLastIndex"; "flat";
    "flatMap"; "forEach"; "includes"; "indexOf"; "join"; "keys";
    "lastIndexOf"; "map"; "pop"; "push"; "reduce"; "reduceRight"; "reverse";
    "shift"; "slice"; "some"; "sort"; "splice"; "toReversed"; "toSorted";
    "toSpliced"; "unshift"; "values"; "with" ].

Definition mem (key : string) (keys : list string) : bool :=
  existsb (String.eqb key) keys.

(** The index an array key stands for. *)
Definition array_index (len : nat) (key : string) : option nat :=
  List.find (fun i => String.eqb (pretty i) key) (seq 0 len).

(** [this.tools[name]]. *)
Definition tools_get (t : ToolsField) (key : string) : JSValue :=
  match t with
  | ToolsObject props =>
      match own_property props key with
      | Some tool => ToolValue tool
      | None =>
          if mem key Object_prototype_members then BuiltIn key else undefined
      end
  | ToolsArray elems =>
      match array_index (length elems) key with
      | Some i =>
          match elems !! i with
          | Some tool => ToolValue tool
          | None => undefined
          end
      | None =>
          if mem key (Array_members ++ Object_prototype_members)
          then BuiltIn key else undefined
      end
  end.

(** [.description] of the value a key of the object leads to. *)
Definition description_of (v : JSValue) : string :=
  match v with
  | ToolValue tool => tool_description tool
  | _ => "undefined"
  end.

(** [Object.keys(this.tools)]. *)
Definition tools_keys (t : ToolsField) : list string :=
  match t with
  | ToolsObject props => Object_keys props
  | ToolsArray elems => map pretty (seq 0 (length elems))
  end.

(** [Object.keys(this.tools).map((toolName) =>
    `${toolName}: ${this.tools[toolName].description}`)]. *)
Definition available_tools (t : ToolsField) : list string :=
  map (fun toolName => toolName +:+ ": " +:+ description_of (tools_get t toolName))
      (tools_keys t).

(** [this.model.invoke(messages)] with the text of the reply. *)
Definition invoke_model (P : Platform) (messages : list Message) : M string :=
  a <- get_this ;;
  match model a with
  | Some m => await (model_invoke P m messages)
  | None => throw (TypeError "Cannot read properties of undefined")
  end.

(** [JSON.parse(text)]. *)
Definition parse (P : Platform) (text : string) : M JSON :=
  match JSON_parse P text with
  | inr v => ret v
  | inl e => throw e
  end.

(** [toolNames.map((name) => this.tools[name])]: a [TypeError] when the
    parsed value is not an array. *)
Definition map_tool_names (toolNames : JSON) : M (list JSValue) :=
  match toolNames with
  | JArray names =>
      a <- get_this ;;
      ret (map (fun name => tools_get (tools a) (ToString name)) names)
  | _ => throw (TypeError "toolNames.map is not a function")
  end.

(** The [checkPointer] member of the argument of [initialize]. *)
Inductive CheckPointer : Type :=
| local
| mongo.

(** The argument of [initialize]; [order] is the order in which the tool
    factories settle during the call. *)
Record InitializeArgs : Type := mkInitializeArgs {
  toolNumbers : list Z;
  clients : AnyRegistry;
  allRegistry : AnyRegistry;
  checkPointer : CheckPointer;
  order : list nat
}.

(** The selection of the checkpoint saver, the same in both classes. *)
Definition select_checkPointSaver (P : Platform) (c : CheckPointer) : M unit :=
  match c with
  | mongo =>
      try_catch
        (match MongoClient_new P with
         | Some e => throw e
         | None => assign with_mongoClient
         end ;;
         await (MongoClient_connect P) ;;
         assign (with_checkPointSaver MongoDBSaver))
        (fun error =>
           console_error "MongoDB connection error:" (ErrorPayload error) ;;
           throw (Error ("MongoDB connection failed: " +:+ message error)))
  | local => assign (with_checkPointSaver MemorySaver)
  end.

(** The loading of the tools, the same in both classes. *)
Definition load_tools (args : InitializeArgs) : M unit :=
  try_catch
    (_ <- Registry.exportToolsAndSetMetadata (toolNumbers args)
            (clients args) (allRegistry args) (order args) ;;
     ret tt)
    (fun error =>
       console_error "Failed to load tools:" (ErrorPayload error) ;;
       throw (Error ("Agent initialization failed: " +:+ message error))).

(** [constructor({ threadId, params })] of the two classes that build their
    model from the environment; they differ in the value [empty] they store
    in [tools].  [params] is stored as it is given.  The Anthropic key is
    looked at first; an error of the [try] block, also the one thrown for a
    missing key, is logged and thrown again under a new message. *)
Definition construct_from_env (empty : ToolsField) (env : Env)
    (providers : ModelProviders) (threadId_ : string) (params_ : Ref)
    (out : list LogEntry) : Outcome Agent * list LogEntry :=
  let '(created, logged) :=
    if truthy (ANTHROPIC_API_KEY env)
    then
      match ChatAnthropic_new providers
              (mkChatModelFields (ANTHROPIC_API_KEY env)
                 (Some "claude-3-haiku-20240307") None None) with
      | inr m => (inr m, [ConsoleLog "Model Initilaized"])
      | inl e => (inl e, [])
      end
    else if truthy (GEMINI_API_KEY env)
    then
      (ChatGoogleGenerativeAI_new providers
         (mkChatModelFields (GEMINI_API_KEY env) None None None), [])
    else (inl (Error "No valid API key found for AI models"), []) in
  match created with
  | inr m =>
      (Returned
         (mkAgent empty threadId_ "" (Some m) None false None (Some threadId_)
            None params_ []),
       out ++ logged)
  | inl error =>
      (Threw (Error ("Failed to initialize model: " +:+ message error)),
       out ++ logged ++
       [ConsoleError "Error initializing model:" (ErrorPayload error)])
  end.

(** * [createTool] of [src/registry/index.ts] *)

(** The [schemaDefinition] argument; its [schema] member is a zod schema
    that this code only passes on. *)
Record SchemaDefinition : Type := mkSchemaDefinition {
  def_name : string;
  def_description : string;
  def_requiresApproval : option bool
}.

(** What a function of the caller can throw, or its promise reject with:
    an error object, [undefined], or any other value ([null] is [JNull]). *)
Inductive Thrown : Type :=
| ThrownError (error : JSError)
| ThrownUndefined
| ThrownValue (value : JSON).

(** How a call of such a function ends: its promise fulfils, rejects (or
    the function throws), or never settles. *)
Inductive Completion (A : Type) : Type :=
| Completed (v : A)
| Raised (thrown : Thrown)
| NeverSettles.

Arguments Completed {A} v.
Arguments Raised {A} thrown.
Arguments NeverSettles {A}.

(** The [implementation] argument, a function value: [closure] identifies
    it and [call] is what calling it with the arguments of the tool does
    (it is given the agent, which is [this] of the state). *)
Record Implementation : Type := mkImplementation {
  closure : nat;
  call : JSON -> St -> Completion JSON * St
}.





(** [schema[key] = value] on the object [{}]: the key [__proto__] sets the
    prototype and creates no property. *)
Definition set_on_empty_object {V : Type} (key : string) (value : V)
    : list (string * V) :=
  if String.eqb key "__proto__" then [] else [(key, value)].

(** The tool [new DynamicStructuredTool({ name, description, schema, func })]
    creates; its [func] is the wrapper around the implementation. *)
Definition created_tool (schemaDefinition : SchemaDefinition)
    (implementation : Implementation) : toolType :=
  mkTool (def_name schemaDefinition) (def_description schemaDefinition)
    (closure implementation).

(** [createTool(schemaDefinition, implementation)]: an [async] function
    without an [await], which resolves to [{ tools, schema }] with the one
    tool and the one schema entry. *)
Definition createTool (schemaDefinition : SchemaDefinition)
    (implementation : Implementation) : Factory :=
  fun _ =>
    let schema : Tools :=
      set_on_empty_object (def_name schemaDefinition)
        (mkToolSchema (def_name schemaDefinition)
           (def_description schemaDefinition)
           (def_requiresApproval schemaDefinition)) in
    let tools := [] ++ [created_tool schemaDefinition implementation] in
    Returned (mkToolItem tools schema).


(** * The [Agent] class whose constructor receives the model *)

Module InjectedModelAgent.

(** [constructor({ threadId, params, model })].  The statement
    [this.params.toolKnowledge = []] writes to the object the caller passed;
    it runs before the model is checked. *)
Definition constructor (threadId_ : string) (params_ : Ref)
    (model_ : option BaseChatModel) (h : gmap addr Params)
    (out : list LogEntry)
    : Outcome Agent * gmap addr Params * list LogEntry :=
  match params_ with
  | RefObject a =>
      match h !! a with
      | Some p =>
          let h' := <[a := mkParams (params_name p) (instruction p) (Some [])]> h in
          match model_ with
          | None =>
              let error := Error "No valid API key found for AI models" in
              (Threw (Error ("Failed to initialize model: " +:+ message error)),
               h',
               out ++ [ConsoleError "Error initializing model:" (ErrorPayload error)])
          | Some m =>
              (Returned
                 (mkAgent (ToolsObject []) threadId_ "" (Some m) None false None
                    (Some threadId_) None params_ []),
               h', out)
          end
      | None =>
          (Threw (TypeError "Cannot set properties of undefined"), h, out)
      end
  | RefUndefined =>
      (Threw (TypeError "Cannot set properties of undefined"), h, out)
  end.

(** The template of [this.systemPrompt]. *)
Definition systemPrompt_text (p : Params) (now toolMetadata : string) : string :=
  nl +:+
  "        Your name is " +:+ params_name p +:+ " (Agent)." +:+ nl +:+
  "        " +:+ nl +:+
  "        INSTRUCTIONS:" +:+ nl +:+
  "        " +:+ instruction p +:+ nl +:+
  "        " +:+ nl +:+
  "        - Behavioral Guidelines:" +:+ nl +:+
  "          1. NEVER be rude to user" +:+ nl +:+
  "          2. NEVER try to be over professional" +:+ nl +:+
  "          3. ALWAYS be friendly to the user" +:+ nl +:+
  "          4. NEVER act over politely" +:+ nl +:+
  "          4. ALWAYS be concise and to the point" +:+ nl +:+
  "        " +:+ nl +:+
  "        Response Formatting:" +:+ nl +:+
  "        - Use proper line breaks between different sections of your response for better readability" +:+ nl +:+
  "        - Utilize markdown features effectively to enhance the structure of your response" +:+ nl +:+
  "        - Keep responses concise and well-organized" +:+ nl +:+
  "        - Use emojis sparingly and only when appropriate for the context" +:+ nl +:+
  "        - Use an abbreviated format for transaction signatures" +:+ nl +:+
  "        " +:+ nl +:+
  "        Realtime knowledge:" +:+ nl +:+
  "        - { approximateCurrentTime: " +:+ now +:+ "}" +:+ nl +:+
  "        " +:+ nl +:+
  "        Your Available Tools:" +:+ nl +:+
  "        " +:+ toolMetadata +:+ nl +:+
  "        " +:+ nl +:+
  "        IMPORTANT POINTS:" +:+ nl +:+
  "        - You are in your developement phase" +:+ nl +:+
  "        - The development team will update you with more features" +:+ nl +:+
  "        - Don't use tools when it is not necessary" +:+ nl +:+
  "        - **Always try to provide short, clear and concise responses**" +:+ nl +:+
  nl +:+
  "        ADDITIONAL KNOWLEDGE FROM TOOLS:" +:+ nl +:+
  "        " +:+ render_toolKnowledge (toolKnowledge p) +:+ nl +:+
  "        ".

(** [initialize({ toolNumbers, clients, allRegistry, checkPointer })].  The
    colour [chalk] gives to the last line is not part of the logged text. *)
Definition initialize (P : Platform) (args : InitializeArgs) : M unit :=
  try_catch
    (load_tools args ;;
     p <- this_params ;;
     a <- get_this ;;
     assign (with_systemPrompt
               (systemPrompt_text p (Date_toISOString P) (toolMetadata a))) ;;
     select_checkPointSaver P (checkPointer args) ;;
     console_log "Agent initialized successfully")
    (fun error =>
       console_error "Agent initialization error:" (ErrorPayload error)).

(** The template of the orchestration prompt. *)
Definition orchestrationPrompt (p : Params) (t : ToolsField) : string :=
  nl +:+
  "      You are Axicov Orchestrator, an AI assistant specialized in blockchain and DeFi operations." +:+ nl +:+
  nl +:+
  "      Your Task:" +:+ nl +:+
  "      Analyze the user's message and return the appropriate tools as a **JSON array of strings**." +:+ nl +:+
  "      If the request can be processed with the knowledge provided to you, then return an **empty JSON array []**" +:+ nl +:+
  nl +:+
  "      Rules:" +:+ nl +:+
  "      - Only return the tools in the format: [" +:+ dq +:+ "tool1" +:+ dq +:+ ", " +:+ dq +:+ "tool2" +:+ dq +:+ ", ...].  " +:+ nl +:+
  "      - Do not add any text, explanations, or comments outside the array." +:+ nl +:+
  "      - Be complete â€” include all necessary tools to handle the request, if you're unsure, it's better to include the tool than to leave it out." +:+ nl +:+
  "      - If the request cannot be completed with the available tools, return an array describing the unknown tools [" +:+ dq +:+ "INVALID_TOOL:${INVALID_TOOL_NAME}" +:+ dq +:+ "]." +:+ nl +:+
  "      - If no tools are required to process the request return an empty array []." +:+ nl +:+
  "      - If the request can be processed with the knowledge provided to you, then return an empty array []" +:+ nl +:+
  nl +:+
  "      Knowledge:" +:+ nl +:+
  "      " +:+ render_toolKnowledge (toolKnowledge p) +:+ nl +:+
  nl +:+
  "      Available Tools:" +:+ nl +:+
  "      " +:+ join nl (available_tools t) +:+ nl +:+
  "      ".

(** [orchestrate(msg)]: the tools the model names for the message.  Every
    exception of the body is caught; the handler logs it and returns
    [[]]. *)
Definition orchestrate (P : Platform) (msg : string) : M (list JSValue) :=
  try_catch
    (p <- this_params ;;
     a <- get_this ;;
     content <- invoke_model P
       [SystemMessage (Some (orchestrationPrompt p (tools a))); HumanMessage msg] ;;
     toolNames <- parse P content ;;
     map_tool_names toolNames)
    (fun err =>
       console_error "Error in orchestration:" (ErrorPayload err) ;;
       ret []).

(** What [messageAgent] returns: the executor, or the error object its
    handler returns. *)
Inductive MessageAgentResult : Type :=
| Executor (agent : ReactAgent)
| ErrorObject (error : JSError).

(** [messageAgent(msg)]. *)
Definition messageAgent (P : Platform) (msg : string) : M MessageAgentResult :=
  try_catch
    (tools_ <- orchestrate P msg ;;
     a <- get_this ;;
     match createReactAgent P
             (mkReactAgentParams (model a) tools_ (checkPointSaver a)
                (systemPrompt a)) with
     | inr agent => ret (Executor agent)
     | inl e => throw e
     end)
    (fun error =>
       console_error "Message agent error:" (ErrorPayload error) ;;
       ret (ErrorObject error)).

End InjectedModelAgent.

(** * The [Agent] class that builds its model from the environment keys *)

Module EnvKeyAgent.

(** [constructor({ threadId, params })]; [tools] starts as the object
    [{}]. *)
Definition constructor : Env -> ModelProviders -> string -> Ref ->
    list LogEntry -> Outcome Agent * list LogEntry :=
  construct_from_env (ToolsObject []).

(** The template of the orchestration prompt. *)
Definition orchestrationPrompt (t : ToolsField) : string :=
  nl +:+
  "      You are Axicov Orchestrator, an AI assistant specialized in Sonic blockchain and DeFi operations." +:+ nl +:+
  nl +:+
  "      Your Task:" +:+ nl +:+
  "      Analyze the user's message and return the appropriate tools as a **JSON array of strings**.  " +:+ nl +:+
  nl +:+
  "      Rules:" +:+ nl +:+
  "      - Only include the askForConfirmation tool if the user's message requires a transaction signature or if they are creating an action." +:+ nl +:+
  "      - Only return the tools in the format: [" +:+ dq +:+ "tool1" +:+ dq +:+ ", " +:+ dq +:+ "tool2" +:+ dq +:+ ", ...].  " +:+ nl +:+
  "      - Do not add any text, explanations, or comments outside the array." +:+ nl +:+
  "      - Be complete â€” include all necessary tools to handle the request, if you're unsure, it's better to include the tool than to leave it out." +:+ nl +:+
  "      - If the request cannot be completed with the available toolsets, return an array describing the unknown tools [" +:+ dq +:+ "INVALID_TOOL:${INVALID_TOOL_NAME}" +:+ dq +:+ "]." +:+ nl +:+
  nl +:+
  "      Available Tools:" +:+ nl +:+
  "      " +:+ join nl (available_tools t) +:+ nl +:+
  "      ".

(** What [orchestrate] returns: the executor, or [false]. *)
Inductive OrchestrateResult : Type :=
| Agent_ (agent : ReactAgent)
| False_.

(** [orchestrate(msg)]: an executor over the tools the model names.  Every
    exception of the body is caught; the handler logs it and returns
    [false]. *)
Definition orchestrate (P : Platform) (msg : string) : M OrchestrateResult :=
  try_catch
    (a <- get_this ;;
     content <- invoke_model P
       [SystemMessage (Some (orchestrationPrompt (tools a))); HumanMessage msg] ;;
     toolNames <- parse P content ;;
     console_log (ToString toolNames) ;;
     tools_ <- map_tool_names toolNames ;;
     a' <- get_this ;;
     match createReactAgent P
             (mkReactAgentParams (model a') tools_ (checkPointSaver a') None) with
     | inr agent => ret (Agent_ agent)
     | inl e => throw e
     end)
    (fun err =>
       console_error "Error in orchestration:" (ErrorPayload err) ;;
       ret False_).

(** [messageAgent(msg)]: the content of the last message of the response,
    or [undefined] ([None]) when the outer handler ran.  The member
    [this.agent] of this class never holds an executor (it is [undefined]
    or the empty string), so invoking it throws.  [response] stays
    [undefined] when the inner handler ran, and reading its messages then
    throws. *)
Definition messageAgent (P : Platform) (msg : string) : M (option string) :=
  try_catch
    (r <- orchestrate P msg ;;
     match r with
     | False_ => throw (Error "Agent failed")
     | Agent_ agent =>
         response <-
           try_catch
             (a <- get_this ;;
              read <- match checkPointSaver a with
                      | Some saver => await (checkPointSaver_get P saver (config a))
                      | None => throw (TypeError "Cannot read properties of undefined")
                      end ;;
              if read
              then throw (TypeError "this.agent.invoke is not a function")
              else
                messages <- await (agent_invoke P agent
                                     [SystemMessage (systemPrompt a); HumanMessage msg]) ;;
                ret (Some messages))
             (fun error =>
                console_error "Error invoking agent:" (ErrorPayload error) ;;
                ret None) ;;
         match response with
         | Some messages =>
             match last messages with
             | Some content => ret (Some content)
             | None => throw (TypeError "Cannot read properties of undefined")
             end
         | None => throw (TypeError "Cannot read properties of undefined")
         end
     end)
    (fun error =>
       console_error "Message agent error:" (ErrorPayload error) ;;
       ret None).

(** The template of [this.systemPrompt]. *)
Definition systemPrompt_text (p : Params) (now toolMetadata : string) : string :=
  nl +:+
  "        Your name is " +:+ params_name p +:+ " (Agent)." +:+ nl +:+
  "        " +:+ nl +:+
  "        INSTRUCTIONS:" +:+ nl +:+
  "        " +:+ instruction p +:+ nl +:+
  "        " +:+ nl +:+
  "        - Behavioral Guidelines:" +:+ nl +:+
  "          1. NEVER be rude to user" +:+ nl +:+
  "          2. NEVER try to be over professional" +:+ nl +:+
  "          3. ALWAYS be friendly to the user" +:+ nl +:+
  "          4. NEVER act over politely" +:+ nl +:+
  "          4. ALWAYS be concise and to the point" +:+ nl +:+
  "        " +:+ nl +:+
  "        Response Formatting:" +:+ nl +:+
  "        - Use proper line breaks between different sections of your response for better readability" +:+ nl +:+
  "        - Utilize markdown features effectively to enhance the structure of your response" +:+ nl +:+
  "        - Keep responses concise and well-organized" +:+ nl +:+
  "        - Use emojis sparingly and only when appropriate for the context" +:+ nl +:+
  "        - Use an abbreviated format for transaction signatures" +:+ nl +:+
  "        " +:+ nl +:+
  "        Common knowledge:" +:+ nl +:+
  "        - Your are hyperoptimized for sonic blockchain" +:+ nl +:+
  "        - Chain currently Operating on: Sonic" +:+ nl +:+
  "        - Short Description about sonic: Sonic is a high-speed, low-fee blockchain built on top of solana." +:+ nl +:+
  "        " +:+ nl +:+
  "        Realtime knowledge:" +:+ nl +:+
  "        - { approximateCurrentTime: " +:+ now +:+ "}" +:+ nl +:+
  "        " +:+ nl +:+
  "        Your Available Tools:" +:+ nl +:+
  "        " +:+ toolMetadata +:+ nl +:+
  "        " +:+ nl +:+
  "        IMPORTANT POINTS:" +:+ nl +:+
  "        - You are in your developement phase" +:+ nl +:+
  "        - The development team will update you with more features" +:+ nl +:+
  "        - Don't use tools when it is not necessary" +:+ nl +:+
  "        - **Always try to provide short, clear and concise responses**" +:+ nl +:+
  nl +:+
  "        ADDITIONAL KNOWLEDGE FROM TOOLS:" +:+ nl +:+
  "        " +:+ render_toolKnowledge (toolKnowledge p) +:+ nl +:+
  "        ".

(** [initialize({ toolNumbers, clients, allRegistry, checkPointer })].  The
    call [this.orchestrate("Fetch price of apples in russia")] is started
    and not awaited: on an agent that has a model, as the constructor
    ensures, it stops at the awaited reply of the model, and what it does to
    the console happens after [initialize] has gone on.  The call is
    therefore returned as a value ([Some]) instead of being run here; [None]
    is returned when the handler ran. *)
Definition initialize (P : Platform) (args : InitializeArgs)
    : M (option (M OrchestrateResult)) :=
  try_catch
    (load_tools args ;;
     p <- this_params ;;
     a <- get_this ;;
     assign (with_systemPrompt
               (systemPrompt_text p (Date_toISOString P) (toolMetadata a))) ;;
     select_checkPointSaver P (checkPointer args) ;;
     assign (with_agent "") ;;
     console_log "Agent initialized successfully" ;;
     ret (Some (orchestrate P "Fetch price of apples in russia")))
    (fun error =>
       console_error "Agent initialization error:" (ErrorPayload error) ;;
       ret None).

End EnvKeyAgent.

(** * The [Agent] class that declares [tools: any[]] *)

Module ArrayToolsAgent.

(** [constructor({ threadId, params })]; [tools] starts as the array
    [[]]. *)
Definition constructor : Env -> ModelProviders -> string -> Ref ->
    list LogEntry -> Outcome Agent * list LogEntry :=
  construct_from_env (ToolsArray []).

End ArrayToolsAgent.

(** The prompt templates are kept folded during simplification. *)
Arguments InjectedModelAgent.orchestrationPrompt : simpl never.
Arguments InjectedModelAgent.systemPrompt_text : simpl never.
Arguments EnvKeyAgent.orchestrationPrompt : simpl never.
Arguments EnvKeyAgent.systemPrompt_text : simpl never.

(** * The HTTP server *)

(** The handlers of the express application.  The [Agent] they create is
    the class whose constructor receives the model.  A request body is
    taken with the types its interface declares, every member optional;
    requests are handled one at a time. *)

Module Server.

(** [ModelConfig]; a member the request leaves out is [None]. *)
Record ModelConfig : Type := mkModelConfig {
  provider : option string;
  modelName : option string;
  apiKey : option string;
  temperature : option string
}.

(** The [params] member of [CreateAgentRequest]. *)
Record RequestParams : Type := mkRequestParams {
  name_ : option string;
  instruction_ : option string;
  toolKnowledge_ : option (list string)
}.

(** [CreateAgentRequest].  The registries arrive as JSON, so their elements
    are JSON values. *)
Record CreateAgentRequest : Type := mkCreateAgentRequest {
  create_threadId : option string;
  modelConfig : option ModelConfig;
  create_params : option RequestParams;
  create_toolNumbers : option (list Z);
  create_clients : option (list JSON);
  create_allRegistry : option (list JSON);
  create_checkPointer : option string;
  mongoUri : option string
}.

(** [SendMessageRequest]. *)
Record SendMessageRequest : Type := mkSendMessageRequest {
  send_threadId : option string;
  message_ : option string
}.

(** The JSON bodies the handlers send. *)
Inductive Body : Type :=
| Failure (error : string)
| AgentCreated (thread agentName : string)
| MessageSent (thread response : string) (toolCalls : option (list string))
| AgentInfo (thread agentName : string) (toolCount : nat) (toolNames : list string)
| AgentList (count : nat) (entries : list (string * string * nat))
| AgentDeleted (thread : string)
| Health (activeAgents : nat) (uptime : string).

Record Response : Type := mkResponse {
  status : nat;
  body : Body
}.

(** The [content] of a streamed message: falsy ([undefined], [null]), a
    string, an array of strings and of objects with an optional [text], or
    an object with an optional [text]. *)
Inductive ContentItem : Type :=
| TextItem (s : string)
| ObjectItem (text : option string).

Inductive Content : Type :=
| NoContent
| StringContent (s : string)
| ArrayContent (items : list ContentItem)
| ObjectContent (text : option string).

Record ChunkMessage : Type := mkChunkMessage {
  content : Content;
  tool_calls : option (list string)
}.

(** A chunk of the stream, seen through [chunk.agent?.messages]: [None]
    when the chunk has no [agent] member or no messages. *)
Definition Chunk : Type := option (list ChunkMessage).

(** What the handlers use besides the agent's own collaborators. *)
Record Externals : Type := mkExternals {
  agent_platform : Platform;
  providers : ModelProviders;
  (** [agentExecutor.stream({ messages }, config)], read to its end *)
  executor_stream : ReactAgent -> string -> option string -> Outcome (list Chunk);
  (** [agent.mongoClient.close()] *)
  mongoClient_close : Outcome unit;
  (** [process.uptime()] *)
  process_uptime : string
}.

(** The state of the process: the [agents] map, in insertion order, the
    [params] objects and the console. *)
Record State : Type := mkState {
  agents : list (string * Agent);
  objects : gmap addr Params;
  stdout : list LogEntry
}.

(** [Map.prototype.get], [has], [set] and [delete]. *)
Fixpoint Map_get {V : Type} (m : list (string * V)) (key : string) : option V :=
  match m with
  | [] => None
  | (k, v) :: rest => if String.eqb k key then Some v else Map_get rest key
  end.

Definition Map_has {V : Type} (m : list (string * V)) (key : string) : bool :=
  match Map_get m key with
  | Some _ => true
  | None => false
  end.

Fixpoint Map_set {V : Type} (m : list (string * V)) (key : string) (value : V)
    : list (string * V) :=
  match m with
  | [] => [(key, value)]
  | (k, v) :: rest =>
      if String.eqb k key then (k, value) :: rest
      else (k, v) :: Map_set rest key value
  end.

Definition Map_delete {V : Type} (m : list (string * V)) (key : string)
    : list (string * V) :=
  List.filter (fun entry => negb (String.eqb entry.1 key)) m.

(** [createModelFromConfig(config)]. *)
Definition createModelFromConfig (E : Externals) (config : ModelConfig)
    : JSError + BaseChatModel :=
  let fields :=
    mkChatModelFields (apiKey config) None (modelName config)
      (temperature config) in
  match provider config with
  | Some p =>
      if String.eqb p "anthropic" then ChatAnthropic_new (providers E) fields
      else if String.eqb p "gemini"
      then ChatGoogleGenerativeAI_new (providers E) fields
      else inl (Error ("Unsupported model provider: " +:+ p))
  | None => inl (Error "Unsupported model provider: undefined")
  end.

(** An element of a registry that came in a request: calling it throws,
    since a JSON value is not a function. *)
Definition not_a_function (item : JSON) : Factory :=
  fun _ => Threw (TypeError "item is not a function").

(** A registry member of the request, [[]] when it is left out. *)
Definition registry_of (items : option (list JSON)) : list Factory :=
  map not_a_function (default [] items).

(** [checkPointer === "mongo"], [local] being the default. *)
Definition checkPointer_of (c : option string) : CheckPointer :=
  match c with
  | Some c => if String.eqb c "mongo" then mongo else local
  | None => local
  end.

(** The handler of a [catch]: the error is logged and a 500 is sent with
    its message, or with [fallback] when the message is empty. *)
Definition failed (text fallback : string) (error : JSError) (s : State)
    : Outcome Response * State :=
  (Returned
     (mkResponse 500
        (Failure (if String.eqb (message error) "" then fallback
                  else message error))),
   mkState (agents s) (objects s)
     (stdout s ++ [ConsoleError text (ErrorPayload error)])).

Definition bad_request (error : string) (s : State) : Outcome Response * State :=
  (Returned (mkResponse 400 (Failure error)), s).

(** The argument of [agent.initialize] in [POST /agent/create], with the
    defaults of the destructuring.  The elements of the registries throw as
    soon as they are called, so the factories settle in the order of the
    effective list. *)
Definition initialize_args (request : CreateAgentRequest) : InitializeArgs :=
  let numbers := default [] (create_toolNumbers request) in
  let core := registry_of (create_clients request) in
  let all := registry_of (create_allRegistry request) in
  mkInitializeArgs numbers (FactoryArray core) (FactoryArray all)
    (checkPointer_of (create_checkPointer request))
    (seq 0 (length (Registry.effective_factories numbers core all))).

(** [POST /agent/create].  The [params] of the request are a new object. *)
Definition create_agent (E : Externals) (request : CreateAgentRequest)
    (s : State) : Outcome Response * State :=
  match create_threadId request with
  | None => bad_request "threadId is required" s
  | Some threadId_ =>
  if String.eqb threadId_ "" then bad_request "threadId is required" s else
  match modelConfig request with
  | None =>
      bad_request "modelConfig with provider, modelName, and apiKey is required" s
  | Some config =>
  if negb (truthy (provider config) && truthy (modelName config)
           && truthy (apiKey config))
  then bad_request "modelConfig with provider, modelName, and apiKey is required" s
  else
  match create_params request with
  | None => bad_request "params with name and instruction are required" s
  | Some params_ =>
  if negb (truthy (name_ params_) && truthy (instruction_ params_))
  then bad_request "params with name and instruction are required" s
  else
  if Map_has (agents s) threadId_
  then
    (Returned
       (mkResponse 409
          (Failure
             "Agent with this threadId already exists. Use DELETE /agent/:threadId first.")),
     s)
  else
    match createModelFromConfig E config with
    | inl error => failed "Error creating agent:" "Failed to create agent" error s
    | inr model_ =>
        let a := fresh (dom (objects s)) in
        let h :=
          <[a := mkParams (default "" (name_ params_))
                   (default "" (instruction_ params_)) (toolKnowledge_ params_)]>
            (objects s) in
        match InjectedModelAgent.constructor threadId_ (RefObject a)
                (Some model_) h (stdout s) with
        | (Returned agent_, h', out) =>
            match InjectedModelAgent.initialize (agent_platform E)
                    (initialize_args request) (mkSt agent_ h' out) with
            | (Returned _, st) =>
                (Returned
                   (mkResponse 201
                      (AgentCreated threadId_ (default "" (name_ params_)))),
                 mkState (Map_set (agents s) threadId_ (this st)) (heap st)
                   (console st))
            | (Threw error, st) =>
                failed "Error creating agent:" "Failed to create agent" error
                  (mkState (agents s) (heap st) (console st))
            | (Unsettled, st) =>
                (Unsettled, mkState (agents s) (heap st) (console st))
            end
        | (Threw error, h', out) =>
            failed "Error creating agent:" "Failed to create agent" error
              (mkState (agents s) h' out)
        | (Unsettled, h', out) => (Unsettled, mkState (agents s) h' out)
        end
    end
  end end end.

(** [agent.params.name]. *)
Definition agent_name (s : State) (agent_ : Agent) : JSError + string :=
  match params agent_ with
  | RefObject a =>
      match objects s !! a with
      | Some p => inr (params_name p)
      | None => inl (TypeError "Cannot read properties of undefined")
      end
  | RefUndefined => inl (TypeError "Cannot read properties of undefined")
  end.

(** [GET /agent/:threadId].  The handler has no [try]: an exception leaves
    it. *)
Definition get_agent (threadId_ : string) (s : State) : Outcome Response :=
  match Map_get (agents s) threadId_ with
  | None => Returned (mkResponse 404 (Failure "Agent not found"))
  | Some agent_ =>
      match agent_name s agent_ with
      | inr agentName =>
          Returned
            (mkResponse 200
               (AgentInfo (threadId agent_) agentName
                  (length (tools_keys (tools agent_))) (tools_keys (tools agent_))))
      | inl error => Threw error
      end
  end.

(** [Array.from(agents.entries()).map(...)] of [GET /agents]. *)
Fixpoint agentList (s : State) (entries : list (string * Agent))
    : JSError + list (string * string * nat) :=
  match entries with
  | [] => inr []
  | (threadId_, agent_) :: rest =>
      match agent_name s agent_ with
      | inl error => inl error
      | inr agentName =>
          match agentList s rest with
          | inl error => inl error
          | inr listed =>
              inr ((threadId_, agentName, length (tools_keys (tools agent_)))
                   :: listed)
          end
      end
  end.

(** [GET /agents]. *)
Definition list_agents (s : State) : Outcome Response :=
  match agentList s (agents s) with
  | inr listed => Returned (mkResponse 200 (AgentList (length listed) listed))
  | inl error => Threw error
  end.

(** [DELETE /agent/:threadId]. *)
Definition delete_agent (E : Externals) (threadId_ : string) (s : State)
    : Outcome Response * State :=
  match Map_get (agents s) threadId_ with
  | None => (Returned (mkResponse 404 (Failure "Agent not found")), s)
  | Some agent_ =>
      let deleted out :=
        (Returned (mkResponse 200 (AgentDeleted threadId_)),
         mkState (Map_delete (agents s) threadId_) (objects s) out) in
      if mongoClient agent_
      then
        match mongoClient_close E with
        | Returned _ => deleted (stdout s)
        | Threw error =>
            deleted (stdout s ++
                     [ConsoleError "Error closing MongoDB connection:"
                        (ErrorPayload error)])
        | Unsettled => (Unsettled, s)
        end
      else deleted (stdout s)
  end.

(** [GET /health]. *)
Definition health (E : Externals) (s : State) : Response :=
  mkResponse 200 (Health (length (agents s)) (process_uptime E)).

(** [typeof item === "string" ? item : item.text || ""]. *)
Definition item_text (item : ContentItem) : string :=
  match item with
  | TextItem s => s
  | ObjectItem text => default "" text
  end.

(** One turn of the [for await] loop over the stream, on the variables
    [finalResponse] and [toolCalls].  A chunk whose [messages] array is
    empty has no last message, and reading its [content] throws. *)
Definition read_chunk (acc : string * list string) (chunk : Chunk)
    : JSError + string * list string :=
  match chunk with
  | None => inr acc
  | Some messages =>
      match last messages with
      | None => inl (TypeError "Cannot read properties of undefined")
      | Some lastMessage =>
          let finalResponse :=
            match content lastMessage with
            | NoContent => acc.1
            | StringContent text => if String.eqb text "" then acc.1 else text
            | ArrayContent items => join "" (map item_text items)
            | ObjectContent text => if truthy text then default "" text else acc.1
            end in
          let toolCalls :=
            match tool_calls lastMessage with
            | Some calls => calls
            | None => acc.2
            end in
          inr (finalResponse, toolCalls)
      end
  end.

Fixpoint read_stream (acc : string * list string) (chunks : list Chunk)
    : JSError + string * list string :=
  match chunks with
  | [] => inr acc
  | chunk :: rest =>
      match read_chunk acc chunk with
      | inr acc' => read_stream acc' rest
      | inl error => inl error
      end
  end.

(** [POST /send].  What [messageAgent] returned is used as an executor; an
    error object has no [stream] method. *)
Definition send_message (E : Externals) (request : SendMessageRequest)
    (s : State) : Outcome Response * State :=
  match send_threadId request with
  | None => bad_request "threadId is required" s
  | Some threadId_ =>
  if String.eqb threadId_ "" then bad_request "threadId is required" s else
  match message_ request with
  | None => bad_request "message is required" s
  | Some msg =>
  if String.eqb msg "" then bad_request "message is required" s else
  match Map_get (agents s) threadId_ with
  | None =>
      (Returned
         (mkResponse 404
            (Failure
               "Agent not found. Please create an agent first using POST /agent/create")),
       s)
  | Some agent_ =>
      let '(answered, st) :=
        InjectedModelAgent.messageAgent (agent_platform E) msg
          (mkSt agent_ (objects s) (stdout s)) in
      let s' :=
        mkState (Map_set (agents s) threadId_ (this st)) (heap st) (console st) in
      let failing error :=
        failed "Error sending message:" "Failed to process message" error s' in
      match answered with
      | Returned (InjectedModelAgent.Executor agentExecutor) =>
          match executor_stream E agentExecutor msg (config (this st)) with
          | Returned chunks =>
              match read_stream ("", []) chunks with
              | inr (finalResponse, toolCalls) =>
                  (Returned
                     (mkResponse 200
                        (MessageSent threadId_ finalResponse
                           (if Nat.ltb 0 (length toolCalls)
                            then Some toolCalls else None))),
                   s')
              | inl error => failing error
              end
          | Threw error => failing error
          | Unsettled => (Unsettled, s')
          end
      | Returned (InjectedModelAgent.ErrorObject _) =>
          failing (TypeError "agentExecutor.stream is not a function")
      | Threw error => failing error
      | Unsettled => (Unsettled, s')
      end
  end end end.

(** The routes of the application. *)
Inductive Request : Type :=
| POST_agent_create (request : CreateAgentRequest)
| POST_send (request : SendMessageRequest)
| GET_agent (threadId_ : string)
| GET_agents
| DELETE_agent (threadId_ : string)
| GET_health.

Definition handle (E : Externals) (request : Request) (s : State)
    : Outcome Response * State :=
  match request with
  | POST_agent_create r => create_agent E r s
  | POST_send r => send_message E r s
  | GET_agent threadId_ => (get_agent threadId_ s, s)
  | GET_agents => (list_agents s, s)
  | DELETE_agent threadId_ => delete_agent E threadId_ s
  | GET_health => (Returned (health E s), s)
  end.

(** The state after a sequence of requests, and the state the process
    starts in. *)
Definition serve (E : Externals) (requests : list Request) (s : State) : State :=
  fold_left (fun s request => (handle E request s).2) requests s.

Definition started : State := mkState [] ∅ [].

End Server.

(** * What a run of the resolver loads *)

(** The value the mapped function returns for a factory that settled with
    [o], on a tool collection [t]: the tool item when the factory returned
    and [push] went through, [null] otherwise. *)
Definition wrapper_value (t : ToolsField) (o : Outcome ToolItem)
    : option ToolItem :=
  match o with
  | Returned toolItem =>
      match push t (item_tools toolItem) with
      | inr _ => Some toolItem
      | inl _ => None
      end
  | _ => None
  end.

(** The tools and the metadata entries a factory adds. *)
Definition loaded_tools (t : ToolsField) (o : Outcome ToolItem) : list toolType :=
  from_option item_tools [] (wrapper_value t o).

Definition loaded_metadata (t : ToolsField) (o : Outcome ToolItem) : list string :=
  from_option
    (fun toolItem => map Registry.metadata_entry (Object_values (item_schema toolItem)))
    [] (wrapper_value t o).

(** [items] added at the end of the collection (an object takes none). *)
Definition append_tools (t : ToolsField) (items : list toolType) : ToolsField :=
  match t with
  | ToolsArray elems => ToolsArray (elems ++ items)
  | ToolsObject props => ToolsObject props
  end.

(** The tools a run of the resolver from state [st] registers: those of
    the factories that returned and whose [push] went through (so none on
    an object-valued collection), in the order in which the factories
    settle.  What the factories returned, registered or not, is
    [contributed_by_run]. *)
Definition loaded_by_run (toolNumbers : list Z) (core all : list Factory)
    (order : list nat) (st : St) : list toolType :=
  let factories := Registry.effective_factories toolNumbers core all in
  flat_map
    (fun i => match factories !! i with
              | Some item => loaded_tools (tools (this st)) (item st)
              | None => []
              end)
    order.

(** The metadata entries of the run, in the same order. *)
Definition metadata_by_run (toolNumbers : list Z) (core all : list Factory)
    (order : list nat) (st : St) : list string :=
  let factories := Registry.effective_factories toolNumbers core all in
  flat_map
    (fun i => match factories !! i with
              | Some item => loaded_metadata (tools (this st)) (item st)
              | None => []
              end)
    order.

(** Every factory of the list settles when called in [st]. *)
Definition all_settle (factories : list Factory) (st : St) : Prop :=
  Forall (fun item : Factory => item st <> Unsettled) factories.

(** The entries of a collection that carry a given name. *)
Definition entries_named (n : string) (t : ToolsField) : list toolType :=
  List.filter (fun tool => String.eqb (tool_name tool) n) (tool_list t).

(** What the console receives when a factory that settled with [o] is
    resumed on a collection [t]. *)
Definition settle_logs (t : ToolsField) (o : Outcome ToolItem) : list LogEntry :=
  match o with
  | Returned toolItem =>
      map (fun tool => ConsoleLog (tool_name tool)) (item_tools toolItem) ++
      match push t (item_tools toolItem) with
      | inl error => [ConsoleError "Error loading tool:" (ErrorPayload error)]
      | inr _ => []
      end
  | Threw error => [ConsoleError "Error loading tool:" (ErrorPayload error)]
  | Unsettled => []
  end.

(** The same by the index of the factory, for the list [settlements] of the
    outcomes of the factories. *)
Definition tools_at (settlements : list (Outcome ToolItem)) (t : ToolsField)
    (i : nat) : list toolType :=
  match settlements !! i with
  | Some o => loaded_tools t o
  | None => []
  end.

Definition metadata_at (settlements : list (Outcome ToolItem)) (t : ToolsField)
    (i : nat) : list string :=
  match settlements !! i with
  | Some o => loaded_metadata t o
  | None => []
  end.

Definition logs_at (settlements : list (Outcome ToolItem)) (t : ToolsField)
    (i : nat) : list LogEntry :=
  match settlements !! i with
  | Some o => settle_logs t o
  | None => []
  end.

Definition result_at (settlements : list (Outcome ToolItem)) (t : ToolsField)
    (i : nat) : option Registry.SettledResult :=
  match settlements !! i with
  | Some o => Some (Registry.Fulfilled (wrapper_value t o))
  | None => None
  end.

(** The console lines of a run, in the order in which the factories
    settle. *)
Definition logs_by_run (toolNumbers : list Z) (core all : list Factory)
    (order : list nat) (st : St) : list LogEntry :=
  let factories := Registry.effective_factories toolNumbers core all in
  flat_map
    (fun i => match factories !! i with
              | Some item => settle_logs (tools (this st)) (item st)
              | None => []
              end)
    order.

(** The outcome list of a run: one entry per factory of the effective
    list, in the order of that list. *)
Definition outcome_list (toolNumbers : list Z) (core all : list Factory)
    (st : St) : list Registry.SettledResult :=
  map (fun item : Factory =>
         Registry.Fulfilled (wrapper_value (tools (this st)) (item st)))
      (Registry.effective_factories toolNumbers core all).

(** The state a run that settles leaves behind. *)
Definition state_after_run (toolNumbers : list Z) (core all : list Factory)
    (order : list nat) (st : St) : St :=
  let t := append_tools (tools (this st))
             (loaded_by_run toolNumbers core all order st) in
  mkSt
    (with_toolMetadata
       (join (nl +:+ nl) (metadata_by_run toolNumbers core all order st))
       (with_tools t (this st)))
    (heap st)
    (console st ++ logs_by_run toolNumbers core all order st ++
     if length_is_zero t
     then [ConsoleError "No tools were loaded successfully" NoPayload]
     else []).

(** A statement that leaves the tool collection as it found it. *)
Definition frames_tools {A : Type} (m : M A) : Prop :=
  forall st, tools (this (m st).2) = tools (this st).

(** What holds of the calls in flight whatever was resumed so far, for a
    run started on the collection [t0]: the collection has only grown at
    its end, and a settled promise is the fulfilled wrapper value of a
    factory that settled. *)
Definition in_flight (settlements : list (Outcome ToolItem)) (t0 : ToolsField)
    (l : Registry.Loading) : Prop :=
  (exists xs, tools (this (Registry.loading_st l)) = append_tools t0 xs)
  /\ forall j r, Registry.toolPromises l !! j = Some (Some r) ->
       exists o, settlements !! j = Some o /\ o <> Unsettled
                 /\ r = Registry.Fulfilled (wrapper_value t0 o).

(** A statement that can only write to the console: it leaves the agent and
    the [params] objects as it found them. *)
Definition only_logs {A : Type} (m : M A) : Prop :=
  forall st,
    this (m st).2 = this st /\ heap (m st).2 = heap st
    /\ exists entries, console (m st).2 = console st ++ entries.

(** The tool item a factory made by [createTool] resolves to. *)
Definition created_item (schemaDefinition : SchemaDefinition)
    (implementation : Implementation) : ToolItem :=
  mkToolItem [created_tool schemaDefinition implementation]
    (set_on_empty_object (def_name schemaDefinition)
       (mkToolSchema (def_name schemaDefinition)
          (def_description schemaDefinition)
          (def_requiresApproval schemaDefinition))).

(** A registry written with [createTool], one call per entry. *)
Definition created_registry (entries : list (SchemaDefinition * Implementation))
    : list Factory :=
  map (fun entry => createTool entry.1 entry.2) entries.

(** The members of the agent that only its constructor assigns, together
    with the [params] objects. *)
Definition identity_of (st : St)
    : string * option BaseChatModel * option string * Ref *
      list (string * string) * gmap addr Params :=
  (threadId (this st), model (this st), config (this st), params (this st),
   runtimeParams (this st), heap st).

Definition keeps_identity {A : Type} (m : M A) : Prop :=
  forall st, identity_of (m st).2 = identity_of st.

(** What holds of the server's state between requests: every thread is
    stored once, under the [threadId] of its agent; every agent has its
    [params] object; and the tool collection of every agent is the empty
    object. *)
Definition well_formed (s : Server.State) : Prop :=
  NoDup (map fst (Server.agents s))
  /\ forall key agent_, In (key, agent_) (Server.agents s) ->
       threadId agent_ = key
       /\ tools agent_ = ToolsObject []
       /\ exists a p, params agent_ = RefObject a /\ Server.objects s !! a = Some p.

(** A request that passes the checks of [POST /agent/create]: it names a
    thread that is not stored, a complete model configuration and complete
    [params]. *)
Definition accepted (request : Server.CreateAgentRequest) (s : Server.State)
    (threadId_ : string) (config : Server.ModelConfig)
    (params_ : Server.RequestParams) : Prop :=
  Server.create_threadId request = Some threadId_
  /\ String.eqb threadId_ "" = false
  /\ Server.modelConfig request = Some config
  /\ truthy (Server.provider config) && truthy (Server.modelName config)
     && truthy (Server.apiKey config) = true
  /\ Server.create_params request = Some params_
  /\ truthy (Server.name_ params_) && truthy (Server.instruction_ params_) = true
  /\ Server.Map_has (Server.agents s) threadId_ = false.

(** The state in which the handler calls [initialize] for an accepted
    request whose model is [m]: the agent the constructor returned, over
    the new [params] object, whose [toolKnowledge] the constructor has
    replaced. *)
Definition constructed_for (s : Server.State) (threadId_ : string)
    (params_ : Server.RequestParams) (m : BaseChatModel) : St :=
  let a := fresh (dom (Server.objects s)) in
  mkSt
    (mkAgent (ToolsObject []) threadId_ "" (Some m) None false None
       (Some threadId_) None (RefObject a) [])
    (<[a := mkParams (default "" (Server.name_ params_))
             (default "" (Server.instruction_ params_)) (Some [])]>
       (Server.objects s))
    (Server.stdout s).

(** The console lines the resolver writes while the factories are resumed:
    the name of a tool, or the line of the inner handler. *)
Definition loading_line (entry : LogEntry) : bool :=
  match entry with
  | ConsoleLog _ => true
  | ConsoleError text _ => String.eqb text "Error loading tool:"
  end.

(** The lines it writes at all: those, the line of the outer handler and
    the line for an empty collection. *)
Definition resolver_line (entry : LogEntry) : bool :=
  match entry with
  | ConsoleLog _ => true
  | ConsoleError text _ =>
      String.eqb text "Error loading tool:"
      || String.eqb text "Error in exportToolsAndSetMetadata:"
      || String.eqb text "No tools were loaded successfully"
  end.

(** The tools the successful factories of a run contribute: the tools of
    every factory of the effective list that returned, in the order in
    which the factories settle, whether or not the resolver managed to
    register them. *)
Definition contributed_by_run (toolNumbers : list Z) (core all : list Factory)
    (order : list nat) (st : St) : list toolType :=
  let factories := Registry.effective_factories toolNumbers core all in
  flat_map
    (fun i => match factories !! i with
              | Some item =>
                  match item st with
                  | Returned toolItem => item_tools toolItem
                  | _ => []
                  end
              | None => []
              end)
    order.

(** * Concrete inputs *)

(** Two tools that share the name [X], the factories that declare them, and
    a factory that throws. *)
Definition tool_X1 : toolType := mkTool "X" "first" 1.
Definition tool_X2 : toolType := mkTool "X" "second" 2.

Definition item_X1 : ToolItem :=
  mkToolItem [tool_X1] [("X", mkToolSchema "X" "first" None)].
Definition item_X2 : ToolItem :=
  mkToolItem [tool_X2] [("X", mkToolSchema "X" "second" (Some true))].

Definition factory_X1 : Factory := fun _ => Returned item_X1.
Definition factory_X2 : Factory := fun _ => Returned item_X2.
Definition factory_throws : Factory := fun _ => Threw (Error "boom").

(** A store with one [params] object, which carries a hint. *)
Definition caller_heap : gmap addr Params :=
  {[ 0 := mkParams "Bot" "Answer briefly" (Some ["prices are in USD"]) ]}.

(** The state right after [new Agent({ threadId, params, model })] of the
    class that receives its model; its [tools] member is the object [{}]. *)
Definition constructed_st : St :=
  match InjectedModelAgent.constructor "thread-1" (RefObject 0) (Some 7)
          caller_heap [] with
  | (Returned a, h, out) => mkSt a h out
  | (_, h, out) =>
      mkSt (mkAgent (ToolsObject []) "" "" None None false None None None
              RefUndefined [])
           h out
  end.

(** The same agent with an array for its [tools] member, as the class that
    declares [tools: any[]] creates it. *)
Definition array_st : St :=
  set_this (with_tools (ToolsArray [])) constructed_st.

(** A reply of the model that names a loaded tool, a sentinel and a tool
    that is not loaded: [["X", "INVALID_TOOL:swap", "Y"]]. *)
Definition naming_reply : string :=
  "[" +:+ dq +:+ "X" +:+ dq +:+ ", " +:+ dq +:+ "INVALID_TOOL:swap" +:+ dq +:+
  ", " +:+ dq +:+ "Y" +:+ dq +:+ "]".

(** A reply that names a member every object inherits: [["toString"]]. *)
Definition inherited_reply : string :=
  "[" +:+ dq +:+ "toString" +:+ dq +:+ "]".

(** [JSON.parse] on the replies used below: [naming_reply] is an array of
    three strings and [inherited_reply] an array of one; any other text,
    such as [not json], is rejected. *)
Definition parse_reply (text : string) : JSError + JSON :=
  if String.eqb text naming_reply
  then inr (JArray [JString "X"; JString "INVALID_TOOL:swap"; JString "Y"])
  else if String.eqb text inherited_reply
  then inr (JArray [JString "toString"])
  else inl (SyntaxError "Unexpected token o in JSON at position 1").

(** A platform whose model answers [reply] and whose MongoDB connection is
    refused. *)
Definition platform_replying (reply : string) : Platform :=
  mkPlatform "2025-01-01T00:00:00.000Z" None
    (Threw (Error "connect ECONNREFUSED 127.0.0.1:27017"))
    (fun _ _ => Returned reply) parse_reply
    (fun _ => inr 1) (fun _ _ => Returned false) (fun _ _ => Returned ["ok"]).

(** The constructed agent with the tool [X] registered under its name. *)
Definition loaded_object_st : St :=
  set_this (with_tools (ToolsObject [("X", tool_X1)])) constructed_st.

(** The collaborators of a server whose Anthropic models can be created,
    whose Gemini models cannot, whose MongoDB refuses connections, and whose
    executors stream one message without an agent part and one answer. *)
Definition externals : Server.Externals :=
  Server.mkExternals (platform_replying "[]")
    (mkModelProviders (fun _ => inr 7) (fun _ => inl (Error "API key not valid")))
    (fun _ _ _ =>
       Returned
         [None;
          Some [Server.mkChunkMessage (Server.StringContent "thinking") None;
                Server.mkChunkMessage (Server.StringContent "It is 42.") None]])
    (Returned tt) "12.5".

(** A create request for the thread [thread-1], with a tool hint, one
    selected registry entry and the [mongo] checkpointer. *)
Definition create_request : Server.CreateAgentRequest :=
  Server.mkCreateAgentRequest (Some "thread-1")
    (Some (Server.mkModelConfig (Some "anthropic") (Some "claude-3-haiku-20240307")
             (Some "key") None))
    (Some (Server.mkRequestParams (Some "Bot") (Some "Answer briefly")
             (Some ["prices are in USD"])))
    (Some [0%Z]) None (Some [JString "swap"]) (Some "mongo") None.

(** The state of the server after that request. *)
Definition serving : Server.State :=
  (Server.create_agent externals create_request Server.started).2.

(** * Properties *)

(** ** Selection of the factories *)

Section Selection.
Context {A : Type}.
Implicit Types (all core : list A) (S : list Z).

Lemma includes_true S idx :
  Registry.includes S idx = true <-> In (Z.of_nat idx) S.
Proof.
  unfold Registry.includes. rewrite existsb_exists. split.
  - intros (z & Hin & Heq). apply Z.eqb_eq in Heq. now subst.
  - intros Hin. exists (Z.of_nat idx). split; [assumption | apply Z.eqb_refl].
Qed.

Lemma includes_ext S S' :
  (forall z, In z S <-> In z S') ->
  forall idx, Registry.includes S idx = Registry.includes S' idx.
Proof.
  intros Hmem idx.
  destruct (Registry.includes S idx) eqn:E, (Registry.includes S' idx) eqn:E';
    try reflexivity.
  - apply includes_true, Hmem, includes_true in E. congruence.
  - apply includes_true, Hmem, includes_true in E'. congruence.
Qed.

Lemma filter_from_ext (f g : A -> nat -> bool) k all :
  (forall x i, f x i = g x i) ->
  Registry.filter_from f k all = Registry.filter_from g k all.
Proof.
  intros Hfg. revert k. induction all as [|x rest IH]; intros k; simpl.
  - reflexivity.
  - rewrite Hfg, !IH. reflexivity.
Qed.

Lemma omap_ext_in {B C : Type} (f g : B -> option C) (l : list B) :
  (forall x, In x l -> f x = g x) -> omap f l = omap g l.
Proof.
  induction l as [|x l IH]; intros Hfg; csimpl.
  - reflexivity.
  - rewrite (Hfg x) by now left.
    rewrite IH by (intros y Hy; apply Hfg; now right). reflexivity.
Qed.

(** The walk with a running index selects the elements whose position
    satisfies the test, by increasing position. *)
Lemma filter_from_positions (p : nat -> bool) k all :
  Registry.filter_from (fun _ idx => p idx) k all =
  omap (fun i => all !! (i - k)) (List.filter p (seq k (length all))).
Proof.
  revert k. induction all as [|x rest IH]; intros k; simpl.
  - reflexivity.
  - rewrite IH.
    assert (Hshift :
      omap (fun i => rest !! (i - S k)) (List.filter p (seq (S k) (length rest))) =
      omap (fun i => (x :: rest) !! (i - k)) (List.filter p (seq (S k) (length rest)))).
    { apply omap_ext_in. intros i Hi.
      apply filter_In in Hi. destruct Hi as [Hi _].
      apply in_seq in Hi.
      replace (i - k) with (S (i - S k)) by lia. reflexivity. }
    destruct (p k); simpl.
    + rewrite Nat.sub_diag. simpl. now rewrite Hshift.
    + now rewrite Hshift.
Qed.

Lemma filter_from_sublist (f : A -> nat -> bool) k all :
  sublist (Registry.filter_from f k all) all.
Proof.
  revert k. induction all as [|x rest IH]; intros k; simpl.
  - constructor.
  - destruct (f x k); [apply sublist_skip | apply sublist_cons]; apply IH.
Qed.

End Selection.

(** C1.  The factories a call invokes are the core list followed by the
    elements of the registry whose index is a member of the index set, taken
    by increasing index: the filtered part is a sublist of the registry, and
    neither the order of the indices in the set nor a repeated index changes
    it. *)
Theorem effective_factories_selection {A : Type} (core all : list A) (S : list Z) :
  Registry.effective_factories S core all =
    core ++ Registry.selected_by_index S all
  /\ sublist (Registry.filteredToolBunches S all) all
  /\ (forall S', (forall z, In z S <-> In z S') ->
        Registry.effective_factories S' core all =
        Registry.effective_factories S core all).
Proof.
  unfold Registry.effective_factories, Registry.filteredToolBunches,
    Registry.Array_filter, Registry.selected_by_index.
  split; [|split].
  - f_equal. rewrite filter_from_positions.
    rewrite (List.filter_ext (fun i => Registry.includes S i)
               (fun i => bool_decide (Z.of_nat i ∈ S))).
    + apply omap_ext_in. intros i _. now rewrite Nat.sub_0_r.
    + intros i. destruct (Registry.includes S i) eqn:E; symmetry.
      * apply bool_decide_eq_true, list_elem_of_In, includes_true, E.
      * apply bool_decide_eq_false. intros Hin.
        apply list_elem_of_In, includes_true in Hin. congruence.
  - apply filter_from_sublist.
  - intros S' Hmem. f_equal. apply filter_from_ext.
    intros _ idx. symmetry. now apply includes_ext.
Qed.

(** ** The tool collection under [push] *)

Lemma with_tools_same (a : Agent) : with_tools (tools a) a = a.
Proof. destruct a; reflexivity. Qed.

Lemma append_tools_nil (t : ToolsField) : append_tools t [] = t.
Proof. destruct t; simpl; [rewrite app_nil_r|]; reflexivity. Qed.

Lemma append_tools_app (t : ToolsField) (xs ys : list toolType) :
  append_tools (append_tools t xs) ys = append_tools t (xs ++ ys).
Proof. destruct t; simpl; [rewrite app_assoc|]; reflexivity. Qed.

Lemma push_array (elems items : list toolType) :
  push (ToolsArray elems) items = inr (ToolsArray (elems ++ items)).
Proof. reflexivity. Qed.

Lemma push_object (props : list (string * toolType)) (items : list toolType) :
  push (ToolsObject props) items =
  inl (TypeError "agent.tools.push is not a function").
Proof. reflexivity. Qed.

Lemma wrapper_value_append (t : ToolsField) (xs : list toolType) o :
  wrapper_value (append_tools t xs) o = wrapper_value t o.
Proof. destruct t, o; reflexivity. Qed.

Lemma wrapper_value_object (props : list (string * toolType)) o :
  wrapper_value (ToolsObject props) o = None.
Proof. destruct o; reflexivity. Qed.

Lemma loaded_tools_append (t : ToolsField) (xs : list toolType) o :
  loaded_tools (append_tools t xs) o = loaded_tools t o.
Proof. unfold loaded_tools. now rewrite wrapper_value_append. Qed.

Lemma loaded_metadata_append (t : ToolsField) (xs : list toolType) o :
  loaded_metadata (append_tools t xs) o = loaded_metadata t o.
Proof. unfold loaded_metadata. now rewrite wrapper_value_append. Qed.

(** ** One settlement *)

Lemma load_tool_item_spec (toolItem : ToolItem) (st : St) (md : list string) :
  let t := tools (this st) in
  let o := Returned toolItem in
  Registry.load_tool_item toolItem st md =
  (wrapper_value t o,
   mkSt (with_tools (append_tools t (loaded_tools t o)) (this st)) (heap st)
        (console st ++ settle_logs t o),
   md ++ loaded_metadata t o).
Proof.
  destruct st as [a h c]. simpl.
  unfold Registry.load_tool_item, loaded_tools, loaded_metadata, wrapper_value.
  simpl. destruct (tools a) as [elems|props] eqn:Ht; simpl.
  - unfold set_this, write. simpl. rewrite app_nil_r. reflexivity.
  - unfold write. simpl.
    rewrite <- app_assoc, app_nil_r, <- Ht, with_tools_same. reflexivity.
Qed.

Section Settlements.

Variable settlements : list (Outcome ToolItem).


Lemma tools_at_append t xs i : tools_at settlements (append_tools t xs) i = tools_at settlements t i.
Proof. unfold tools_at. destruct (settlements !! i); [apply loaded_tools_append|reflexivity]. Qed.

Lemma metadata_at_append t xs i : metadata_at settlements (append_tools t xs) i = metadata_at settlements t i.
Proof. unfold metadata_at. destruct (settlements !! i); [apply loaded_metadata_append|reflexivity]. Qed.

Lemma logs_at_append t xs i : logs_at settlements (append_tools t xs) i = logs_at settlements t i.
Proof.
  unfold logs_at. destruct (settlements !! i) as [[toolItem|e|]|]; try reflexivity.
  destruct t; reflexivity.
Qed.

Lemma result_at_append t xs i : result_at settlements (append_tools t xs) i = result_at settlements t i.
Proof. unfold result_at. destruct (settlements !! i); [now rewrite wrapper_value_append|reflexivity]. Qed.

(** A pending promise whose factory settles is resumed. *)
Lemma settle_pending (l : Registry.Loading) (i : nat) o :
  Registry.toolPromises l !! i = Some None ->
  settlements !! i = Some o ->
  o <> Unsettled ->
  let t := tools (this (Registry.loading_st l)) in
  Registry.settle settlements l i =
  Registry.mkLoading
    (<[i := Some (Registry.Fulfilled (wrapper_value t o))]> (Registry.toolPromises l))
    (Registry.pending_metadata l ++ metadata_at settlements t i)
    (mkSt (with_tools (append_tools t (tools_at settlements t i)) (this (Registry.loading_st l)))
          (heap (Registry.loading_st l))
          (console (Registry.loading_st l) ++ logs_at settlements t i)).
Proof.
  intros Hp Ho Hs t. subst t.
  unfold Registry.settle, tools_at, metadata_at, logs_at.
  rewrite Hp, Ho. destruct o as [toolItem|e|]; [| |congruence].
  - rewrite load_tool_item_spec. reflexivity.
  - simpl. unfold loaded_tools, loaded_metadata. simpl.
    rewrite app_nil_r, append_tools_nil, with_tools_same. reflexivity.
Qed.

End Settlements.

(** ** A whole settlement order *)

Lemma fold_left_ext_in {B C : Type} (f g : B -> C -> B) (l : list C) (b : B) :
  (forall x c, f x c = g x c) -> fold_left f l b = fold_left g l b.
Proof.
  intros Hfg. revert b. induction l as [|c l IH]; intros b; simpl.
  - reflexivity.
  - now rewrite Hfg, IH.
Qed.

(** The array after the slots listed in [idxs] have been assigned. *)
Lemma lookup_fold_insert {B : Type} (f : nat -> B) (idxs : list nat) :
  forall (ps : list B) (j : nat),
    fold_left (fun ps i => <[i := f i]> ps) idxs ps !! j =
    if decide (j ∈ idxs /\ j < length ps) then Some (f j) else ps !! j.
Proof.
  induction idxs as [|i idxs IH]; intros ps j; cbn [fold_left].
  - rewrite decide_False; [reflexivity|]. intros [Hin _]. inversion Hin.
  - rewrite IH, length_insert.
    destruct (decide (j ∈ idxs /\ j < length ps)) as [[Hin Hlt]|Hn].
    + rewrite decide_True by (split; [now right | assumption]). reflexivity.
    + destruct (decide (i = j)) as [->|Hne].
      * destruct (decide (j < length ps)) as [Hlt|Hge].
        -- rewrite list_lookup_insert_eq by assumption.
           rewrite decide_True by (split; [now left | assumption]). reflexivity.
        -- rewrite list_insert_ge by lia.
           rewrite decide_False by (intros [_ ?]; contradiction). reflexivity.
      * rewrite list_lookup_insert_ne by assumption.
        rewrite decide_False; [reflexivity|].
        intros [Hin Hlt]. apply elem_of_cons in Hin as [?|Hin];
          [congruence | apply Hn; now split].
Qed.

Section Order.

Variable settlements : list (Outcome ToolItem).

Lemma fold_settle (idxs : list nat) :
  forall l : Registry.Loading,
    NoDup idxs ->
    (forall i, i ∈ idxs ->
       Registry.toolPromises l !! i = Some None /\
       exists o, settlements !! i = Some o /\ o <> Unsettled) ->
    let t := tools (this (Registry.loading_st l)) in
    fold_left (Registry.settle settlements) idxs l =
    Registry.mkLoading
      (fold_left (fun ps i => <[i := result_at settlements t i]> ps) idxs
         (Registry.toolPromises l))
      (Registry.pending_metadata l ++ flat_map (metadata_at settlements t) idxs)
      (mkSt (with_tools (append_tools t (flat_map (tools_at settlements t) idxs))
               (this (Registry.loading_st l)))
            (heap (Registry.loading_st l))
            (console (Registry.loading_st l) ++ flat_map (logs_at settlements t) idxs)).
Proof.
  induction idxs as [|i idxs IH]; intros l Hnd Hpend t; subst t.
  - simpl. rewrite !app_nil_r, append_tools_nil, with_tools_same.
    destruct l as [ps md [a h c]]; reflexivity.
  - apply NoDup_cons in Hnd as [Hni Hnd].
    destruct (Hpend i (list_elem_of_here i idxs)) as (Hp & o & Ho & Hs).
    cbn [fold_left]. rewrite (settle_pending settlements l i o Hp Ho Hs).
    rewrite IH; clear IH; [|assumption|].
    + cbn [Registry.toolPromises Registry.pending_metadata Registry.loading_st
           this heap console tools with_tools flat_map].
      set (t := tools (this (Registry.loading_st l))).
      rewrite append_tools_app, <- !app_assoc.
      rewrite (flat_map_ext _ _ (tools_at_append settlements t _)).
      rewrite (flat_map_ext _ _ (metadata_at_append settlements t _)).
      rewrite (flat_map_ext _ _ (logs_at_append settlements t _)).
      rewrite (fold_left_ext_in
                 (fun ps i0 => <[i0 := result_at settlements (append_tools t (tools_at settlements t i)) i0]> ps)
                 (fun ps i0 => <[i0 := result_at settlements t i0]> ps))
        by (intros; now rewrite result_at_append).
      replace (result_at settlements t i)
        with (Some (Registry.Fulfilled (wrapper_value t o)))
        by (unfold result_at; now rewrite Ho).
      destruct (this (Registry.loading_st l)); reflexivity.
    + intros j Hj. destruct (Hpend j (list_elem_of_further j i idxs Hj)) as (Hpj & Hoj).
      split; [|assumption].
      cbn [Registry.toolPromises].
      rewrite list_lookup_insert_ne; [assumption|]. intros ->. contradiction.
Qed.

End Order.

(** ** The resolver as a whole *)

Lemma omap_all_None {B C : Type} (f : B -> option C) (l : list B) :
  (forall x, x ∈ l -> f x = None) -> omap f l = [].
Proof.
  induction l as [|x l IH]; intros Hf; csimpl.
  - reflexivity.
  - rewrite (Hf x) by constructor.
    apply IH. intros y Hy. apply Hf. now constructor.
Qed.

Lemma filter_all_false {B : Type} (f : B -> bool) (l : list B) :
  (forall x, In x l -> f x = false) -> List.filter f l = [].
Proof.
  induction l as [|x l IH]; intros Hf; simpl.
  - reflexivity.
  - rewrite (Hf x) by now left. apply IH. intros y Hy. apply Hf. now right.
Qed.

(** With no rejected result the statements after the [await] store the
    metadata and, on an empty array, log that nothing was loaded. *)
Lemma finish_fulfilled (results : list Registry.SettledResult)
    (md : list string) (st : St) :
  (forall r, In r results -> Registry.is_rejected r = false) ->
  Registry.finish results md st =
  mkSt (with_toolMetadata (join (nl +:+ nl) md) (this st)) (heap st)
       (console st ++
        if length_is_zero (tools (this st))
        then [ConsoleError "No tools were loaded successfully" NoPayload]
        else []).
Proof.
  intros Hful. unfold Registry.finish.
  assert (Hlogs : Registry.rejection_logs results = []).
  { unfold Registry.rejection_logs. apply omap_all_None.
    intros [index r] Hin. apply elem_of_lookup_imap in Hin as (i & y & Heq & Hy).
    injection Heq as -> ->.
    apply list_elem_of_lookup_2, list_elem_of_In, Hful in Hy.
    destruct y; [reflexivity | discriminate]. }
  rewrite Hlogs, (filter_all_false _ _ Hful). simpl.
  destruct st as [a h c]. unfold write, set_this. simpl.
  rewrite app_nil_r.
  destruct (length_is_zero (tools a)); simpl; [reflexivity|].
  now rewrite app_nil_r.
Qed.

Lemma mapM_id_Some {B : Type} (l : list B) : mapM id (map Some l) = Some l.
Proof.
  apply mapM_Some_2. induction l; constructor; [reflexivity | assumption].
Qed.

Section Run.

Variables (toolNumbers : list Z) (core all : list Factory).
Variables (order : list nat) (st : St).

Let factories := Registry.effective_factories toolNumbers core all.
Let settlements := map (fun item : Factory => item st) factories.
Let t := tools (this st).

Lemma tools_at_factories i :
  tools_at settlements t i =
  match factories !! i with
  | Some item => loaded_tools t (item st)
  | None => []
  end.
Proof.
  unfold tools_at, settlements. rewrite list_lookup_fmap.
  destruct (factories !! i); reflexivity.
Qed.

Lemma metadata_at_factories i :
  metadata_at settlements t i =
  match factories !! i with
  | Some item => loaded_metadata t (item st)
  | None => []
  end.
Proof.
  unfold metadata_at, settlements. rewrite list_lookup_fmap.
  destruct (factories !! i); reflexivity.
Qed.

Lemma logs_at_factories i :
  logs_at settlements t i =
  match factories !! i with
  | Some item => settle_logs t (item st)
  | None => []
  end.
Proof.
  unfold logs_at, settlements. rewrite list_lookup_fmap.
  destruct (factories !! i); reflexivity.
Qed.

(** When every factory settles, and [order] lists each of them once, the
    call returns the outcome list and leaves [state_after_run]. *)
Lemma exportToolsAndSetMetadata_settles :
  order ≡ₚ seq 0 (length factories) ->
  all_settle factories st ->
  Registry.exportToolsAndSetMetadata toolNumbers (FactoryArray core)
    (FactoryArray all) order st =
  (Returned (outcome_list toolNumbers core all st),
   state_after_run toolNumbers core all order st).
Proof.
  intros Hperm Hsettle.
  unfold Registry.exportToolsAndSetMetadata.
  fold factories. fold settlements.
  assert (Hnd : NoDup order).
  { rewrite Hperm. apply NoDup_seq. }
  assert (Hrange : forall i, i ∈ order <-> i < length factories).
  { intros i. rewrite Hperm, elem_of_seq. lia. }
  rewrite (fold_settle settlements order); [|assumption|].
  2:{ intros i Hi. apply Hrange in Hi.
      cbn [Registry.toolPromises]. split.
      - rewrite list_lookup_fmap.
        destruct (lookup_lt_is_Some_2 factories i Hi) as [item Hitem].
        now rewrite Hitem.
      - destruct (lookup_lt_is_Some_2 factories i Hi) as [item Hitem].
        exists (item st). split.
        + unfold settlements. rewrite list_lookup_fmap, Hitem. reflexivity.
        + unfold all_settle in Hsettle. rewrite Forall_forall in Hsettle.
          apply Hsettle. eapply list_elem_of_lookup_2; eassumption. }
  cbn [Registry.toolPromises Registry.pending_metadata Registry.loading_st
       this heap console app].
  fold t.
  assert (Hps :
    fold_left (fun ps i => <[i := result_at settlements t i]> ps) order
      (map (fun _ : Factory => None) factories) =
    map Some (outcome_list toolNumbers core all st)).
  { apply list_eq. intros j. rewrite lookup_fold_insert, length_map.
    unfold outcome_list. fold factories. fold t.
    rewrite !list_lookup_fmap.
    destruct (decide (j ∈ order /\ j < length factories)) as [[_ Hlt]|Hn].
    - unfold result_at, settlements. rewrite list_lookup_fmap.
      destruct (lookup_lt_is_Some_2 factories j Hlt) as [item Hitem].
      rewrite Hitem. reflexivity.
    - rewrite (lookup_ge_None_2 factories j); [reflexivity|].
      destruct (decide (j < length factories)) as [Hlt|]; [|lia].
      exfalso. apply Hn. split; [now apply Hrange | assumption]. }
  rewrite Hps. unfold Registry.Promise_allSettled. rewrite mapM_id_Some.
  rewrite finish_fulfilled.
  2:{ intros r Hr. unfold outcome_list in Hr. apply in_map_iff in Hr as (item & <- & _).
      reflexivity. }
  unfold state_after_run, loaded_by_run, metadata_by_run, logs_by_run.
  fold factories. fold t.
  rewrite <- (flat_map_ext _ _ tools_at_factories).
  rewrite <- (flat_map_ext _ _ metadata_at_factories).
  rewrite <- (flat_map_ext _ _ logs_at_factories).
  cbn [this heap console tools with_tools].
  rewrite <- app_assoc. reflexivity.
Qed.

End Run.

(** Whatever it is given, the call does not throw: the handler of the
    mapped function and the outer handler catch every exception. *)
Lemma export_never_throws (toolNumbers : list Z) (coreRegistry allRegistry : AnyRegistry)
    (order : list nat) (st : St) (e : JSError) :
  (Registry.exportToolsAndSetMetadata toolNumbers coreRegistry allRegistry order st).1
  <> Threw e.
Proof.
  unfold Registry.exportToolsAndSetMetadata.
  destruct allRegistry as [|all], coreRegistry as [|core]; cbn; try discriminate.
  destruct (Registry.Promise_allSettled _); cbn; discriminate.
Qed.

(** ** Consequences for the two shapes of the tool collection *)

Lemma loaded_tools_array (elems : list toolType) (o : Outcome ToolItem) :
  loaded_tools (ToolsArray elems) o =
  match o with
  | Returned toolItem => item_tools toolItem
  | _ => []
  end.
Proof. destruct o; reflexivity. Qed.

Lemma loaded_tools_object (props : list (string * toolType)) (o : Outcome ToolItem) :
  loaded_tools (ToolsObject props) o = [].
Proof. unfold loaded_tools. now rewrite wrapper_value_object. Qed.

Lemma flat_map_nil {B C : Type} (f : B -> list C) (l : list B) :
  (forall x, f x = []) -> flat_map f l = [].
Proof.
  intros Hf. induction l as [|x l IH]; simpl; [reflexivity|].
  now rewrite Hf, IH.
Qed.

Lemma filter_flat_map {B C : Type} (p : C -> bool) (f : B -> list C) (l : list B) :
  List.filter p (flat_map f l) = flat_map (fun x => List.filter p (f x)) l.
Proof.
  induction l as [|x l IH]; simpl; [reflexivity|].
  now rewrite List.filter_app, IH.
Qed.

(** On an object-valued [tools] member no factory loads anything: the
    collection is left as it was and every entry of the outcome list is
    [null]. *)
Lemma export_on_object (toolNumbers : list Z) (core all : list Factory)
    (order : list nat) (st : St) props :
  tools (this st) = ToolsObject props ->
  order ≡ₚ seq 0 (length (Registry.effective_factories toolNumbers core all)) ->
  all_settle (Registry.effective_factories toolNumbers core all) st ->
  let r := Registry.exportToolsAndSetMetadata toolNumbers (FactoryArray core)
             (FactoryArray all) order st in
  r.1 = Returned (map (fun _ => Registry.Fulfilled None)
                    (Registry.effective_factories toolNumbers core all))
  /\ tools (this r.2) = ToolsObject props
  /\ toolMetadata (this r.2) = "".
Proof.
  intros Ht Hperm Hsettle r. subst r.
  rewrite exportToolsAndSetMetadata_settles by assumption.
  cbn [fst snd]. unfold outcome_list, state_after_run,
    loaded_by_run, metadata_by_run. rewrite Ht.
  cbn [this tools toolMetadata with_toolMetadata with_tools append_tools].
  split; [|split].
  - f_equal. apply map_ext. intros item. now rewrite wrapper_value_object.
  - reflexivity.
  - rewrite flat_map_nil; [reflexivity|].
    intros i. destruct (_ !! i); [|reflexivity].
    unfold loaded_metadata. now rewrite wrapper_value_object.
Qed.

(** On an array-valued [tools] member the tools of every factory that
    returns are in the collection afterwards, while a factory that throws
    has a [null] outcome and adds neither a tool nor a metadata entry
    ([loaded_tools] and [loaded_metadata] are empty for it); the call itself
    returns. *)
Lemma export_on_array (toolNumbers : list Z) (core all : list Factory)
    (order : list nat) (st : St) elems :
  tools (this st) = ToolsArray elems ->
  order ≡ₚ seq 0 (length (Registry.effective_factories toolNumbers core all)) ->
  all_settle (Registry.effective_factories toolNumbers core all) st ->
  let factories := Registry.effective_factories toolNumbers core all in
  let r := Registry.exportToolsAndSetMetadata toolNumbers (FactoryArray core)
             (FactoryArray all) order st in
  (exists results, r.1 = Returned results /\ length results = length factories /\
     forall i (item : Factory), factories !! i = Some item ->
       match item st with
       | Returned toolItem => results !! i = Some (Registry.Fulfilled (Some toolItem))
       | _ => results !! i = Some (Registry.Fulfilled None)
       end)
  /\ tool_list (tools (this r.2)) =
       elems ++ loaded_by_run toolNumbers core all order st
  /\ toolMetadata (this r.2) =
       join (nl +:+ nl) (metadata_by_run toolNumbers core all order st)
  /\ (forall i (item : Factory) toolItem tool,
        factories !! i = Some item -> item st = Returned toolItem ->
        In tool (item_tools toolItem) -> In tool (tool_list (tools (this r.2)))).
Proof.
  intros Ht Hperm Hsettle factories r. subst r factories.
  rewrite exportToolsAndSetMetadata_settles by assumption.
  cbn [fst snd]. split; [|split; [|split]].
  - exists (outcome_list toolNumbers core all st). split; [reflexivity|].
    unfold outcome_list. rewrite length_map. split; [reflexivity|].
    intros i item Hi. rewrite list_lookup_fmap, Hi, Ht. cbn.
    destruct (item st); reflexivity.
  - unfold state_after_run. rewrite Ht. reflexivity.
  - reflexivity.
  - intros i item toolItem tool Hi Hret Hin.
    unfold state_after_run. rewrite Ht. cbn. apply in_or_app. right.
    unfold loaded_by_run. apply in_flat_map. exists i. split.
    + apply list_elem_of_In. rewrite Hperm. apply elem_of_seq.
      apply lookup_lt_Some in Hi. lia.
    + cbv beta. unfold Factory in *. rewrite Hi, Ht, Hret. exact Hin.
Qed.

(** C2.  The agent the constructor of the model-receiving class creates is
    given the registry of the scenario: no core factory, a factory that
    returns the tool [X] and a factory that throws, both selected.  The
    first factory does not throw; the call returns; yet the tool collection
    is empty afterwards and the metadata mentions nothing, because [push]
    does not exist on the object the constructor stored in [tools]. *)
Theorem export_on_constructed_agent_loads_nothing :
  let r := Registry.exportToolsAndSetMetadata [0%Z; 1%Z] (FactoryArray [])
             (FactoryArray [factory_X1; factory_throws]) [0; 1] constructed_st in
  tools (this constructed_st) = ToolsObject []
  /\ factory_X1 constructed_st = Returned item_X1
  /\ r.1 = Returned [Registry.Fulfilled None; Registry.Fulfilled None]
  /\ tool_list (tools (this r.2)) = []
  /\ toolMetadata (this r.2) = ""
  /\ In (ConsoleError "Error loading tool:"
           (ErrorPayload (TypeError "agent.tools.push is not a function")))
        (console r.2).
Proof.
  vm_compute. repeat split; try reflexivity. right. left. reflexivity.
Qed.

(** C3.  When every factory of the effective list throws, the call returns
    its outcome list, with one [null] entry per factory, and the tool
    collection is left as it was. *)
Theorem export_returns_when_all_fail (toolNumbers : list Z)
    (core all : list Factory) (order : list nat) (st : St) :
  order ≡ₚ seq 0 (length (Registry.effective_factories toolNumbers core all)) ->
  (forall item : Factory,
     In item (Registry.effective_factories toolNumbers core all) ->
     exists e, item st = Threw e) ->
  let r := Registry.exportToolsAndSetMetadata toolNumbers (FactoryArray core)
             (FactoryArray all) order st in
  r.1 = Returned (map (fun _ => Registry.Fulfilled None)
                    (Registry.effective_factories toolNumbers core all))
  /\ tools (this r.2) = tools (this st).
Proof.
  intros Hperm Hfail r. subst r.
  rewrite exportToolsAndSetMetadata_settles; [|assumption|].
  2:{ apply Forall_forall. intros item Hin. apply list_elem_of_In, Hfail in Hin.
      destruct Hin as [e ->]. discriminate. }
  cbn [fst snd]. split.
  - unfold outcome_list. f_equal. apply map_ext_in. intros item Hin.
    destruct (Hfail item Hin) as [e ->]. reflexivity.
  - unfold state_after_run, loaded_by_run. cbn [this tools with_toolMetadata with_tools].
    rewrite flat_map_nil; [apply append_tools_nil|].
    intros i. destruct (_ !! i) as [item|] eqn:Hi; [|reflexivity].
    apply list_elem_of_lookup_2, list_elem_of_In, Hfail in Hi.
    destruct Hi as [e ->]. reflexivity.
Qed.

Lemma export_returns_when_all_fail_witness :
  let r := Registry.exportToolsAndSetMetadata [0%Z] (FactoryArray [factory_throws])
             (FactoryArray [factory_throws; factory_X1]) [1; 0] array_st in
  r.1 = Returned [Registry.Fulfilled None; Registry.Fulfilled None]
  /\ tools (this r.2) = ToolsArray [].
Proof.
  apply (export_returns_when_all_fail [0%Z] [factory_throws]
           [factory_throws; factory_X1] [1; 0] array_st).
  - vm_compute. apply perm_swap.
  - vm_compute. intros item [<-|[<-|[]]]; eexists; reflexivity.
Defined.

(** Two factories declare a tool named [X] and neither throws.  On an
    array-valued collection both succeed and both tools are in the
    collection afterwards, in the order in which the factories settled; on
    the object the constructor creates neither tool is registered.  In
    neither case does the collection hold exactly one entry named [X]. *)
Lemma same_name_keeps_both_entries :
  let r := Registry.exportToolsAndSetMetadata [0%Z; 1%Z] (FactoryArray [])
             (FactoryArray [factory_X1; factory_X2]) [0; 1] array_st in
  let r' := Registry.exportToolsAndSetMetadata [0%Z; 1%Z] (FactoryArray [])
              (FactoryArray [factory_X1; factory_X2]) [0; 1] constructed_st in
  r.1 = Returned [Registry.Fulfilled (Some item_X1); Registry.Fulfilled (Some item_X2)]
  /\ entries_named "X" (tools (this r.2)) = [tool_X1; tool_X2]
  /\ length (entries_named "X" (tools (this r.2))) <> 1
  /\ entries_named "X" (tools (this r'.2)) = []
  /\ length (entries_named "X" (tools (this r'.2))) <> 1.
Proof.
  vm_compute. repeat split; try reflexivity; discriminate.
Qed.

(** On an array-valued collection the tools are appended in the order in
    which the factories settle, whatever their names: the entries that
    carry a name after the call are those present before, followed by those
    of every factory that returned.  Nothing is overwritten. *)
Lemma same_name_entries_accumulate (toolNumbers : list Z)
    (core all : list Factory) (order : list nat) (st : St)
    (elems : list toolType) (n : string) :
  tools (this st) = ToolsArray elems ->
  order ≡ₚ seq 0 (length (Registry.effective_factories toolNumbers core all)) ->
  all_settle (Registry.effective_factories toolNumbers core all) st ->
  let r := Registry.exportToolsAndSetMetadata toolNumbers (FactoryArray core)
             (FactoryArray all) order st in
  entries_named n (tools (this r.2)) =
  entries_named n (ToolsArray elems) ++
  flat_map
    (fun i =>
       match Registry.effective_factories toolNumbers core all !! i with
       | Some item =>
           match item st with
           | Returned toolItem =>
               List.filter (fun tool => String.eqb (tool_name tool) n)
                 (item_tools toolItem)
           | _ => []
           end
       | None => []
       end)
    order.
Proof.
  intros Ht Hperm Hsettle r. subst r.
  rewrite exportToolsAndSetMetadata_settles by assumption.
  cbn [snd]. unfold state_after_run, entries_named. rewrite Ht.
  cbn [this tools with_toolMetadata with_tools append_tools tool_list].
  rewrite List.filter_app. f_equal.
  unfold loaded_by_run. rewrite filter_flat_map.
  apply flat_map_ext. intros i. rewrite Ht.
  destruct (_ !! i) as [item|]; [|reflexivity].
  rewrite loaded_tools_array. destruct (item st); reflexivity.
Qed.

Lemma same_name_entries_accumulate_witness :
  let r := Registry.exportToolsAndSetMetadata [0%Z; 1%Z] (FactoryArray [])
             (FactoryArray [factory_X1; factory_X2]) [1; 0] array_st in
  entries_named "X" (tools (this r.2)) = [tool_X2; tool_X1].
Proof.
  apply (same_name_entries_accumulate [0%Z; 1%Z] [] [factory_X1; factory_X2]
           [1; 0] array_st [] "X").
  - reflexivity.
  - vm_compute. apply perm_swap.
  - vm_compute. repeat constructor; discriminate.
Defined.

(** ** Statements that do not touch the tool collection *)

Create HintDb frame.

Lemma frames_ret {A : Type} (v : A) : frames_tools (ret v).
Proof. intros st. reflexivity. Qed.

Lemma frames_throw {A : Type} (e : JSError) : frames_tools (@throw A e).
Proof. intros st. reflexivity. Qed.

Lemma frames_await {A : Type} (o : Outcome A) : frames_tools (await o).
Proof. intros st. reflexivity. Qed.

Lemma frames_console_log (text : string) : frames_tools (console_log text).
Proof. intros st. reflexivity. Qed.

Lemma frames_console_error (text : string) (payload : LogPayload) :
  frames_tools (console_error text payload).
Proof. intros st. reflexivity. Qed.

Lemma frames_get_this : frames_tools get_this.
Proof. intros st. reflexivity. Qed.

Lemma frames_this_params : frames_tools this_params.
Proof.
  intros st. unfold this_params.
  destruct (params (this st)); [reflexivity|].
  destruct (heap st !! a); reflexivity.
Qed.

Lemma frames_assign (f : Agent -> Agent) :
  (forall a, tools (f a) = tools a) -> frames_tools (assign f).
Proof. intros Hf st. apply Hf. Qed.

Lemma bind_tools {A B : Type} (m : M A) (k : A -> M B) (st : St) :
  (forall v, frames_tools (k v)) ->
  tools (this (bind m k st).2) = tools (this (m st).2).
Proof.
  intros Hk. unfold bind. destruct (m st) as [[v|e|] st']; cbn [snd];
    [apply Hk | reflexivity | reflexivity].
Qed.

Lemma try_catch_tools {A : Type} (m : M A) (h : JSError -> M A) (st : St) :
  (forall e, frames_tools (h e)) ->
  tools (this (try_catch m h st).2) = tools (this (m st).2).
Proof.
  intros Hh. unfold try_catch. destruct (m st) as [[v|e|] st']; cbn [snd];
    [reflexivity | apply Hh | reflexivity].
Qed.

Lemma frames_bind {A B : Type} (m : M A) (k : A -> M B) :
  frames_tools m -> (forall v, frames_tools (k v)) -> frames_tools (bind m k).
Proof. intros Hm Hk st. rewrite bind_tools by assumption. apply Hm. Qed.

Lemma frames_try_catch {A : Type} (m : M A) (h : JSError -> M A) :
  frames_tools m -> (forall e, frames_tools (h e)) -> frames_tools (try_catch m h).
Proof. intros Hm Hh st. rewrite try_catch_tools by assumption. apply Hm. Qed.

#[local] Hint Resolve frames_ret frames_throw frames_await frames_console_log
  frames_console_error frames_get_this frames_this_params frames_bind
  frames_try_catch : frame.

(** ** [initialize] *)

Lemma frames_select_checkPointSaver (P : Platform) (c : CheckPointer) :
  frames_tools (select_checkPointSaver P c).
Proof.
  destruct c; cbn [select_checkPointSaver]; [apply frames_assign; reflexivity|].
  apply frames_try_catch; [|auto with frame].
  apply frames_bind.
  - destruct (MongoClient_new P); [auto with frame | apply frames_assign; reflexivity].
  - intros _. apply frames_bind; [auto with frame|].
    intros _. apply frames_assign. reflexivity.
Qed.

Lemma load_tools_tools (args : InitializeArgs) (st : St) :
  tools (this (load_tools args st).2) =
  tools (this (Registry.exportToolsAndSetMetadata (toolNumbers args)
                 (clients args) (allRegistry args) (order args) st).2).
Proof.
  unfold load_tools.
  rewrite try_catch_tools by auto with frame.
  rewrite bind_tools by auto with frame. reflexivity.
Qed.

#[local] Hint Resolve frames_select_checkPointSaver : frame.

Section Initialize.

Variable P : Platform.

(** The outer handler of [initialize] catches every exception: the call
    never throws. *)
Lemma initialize_never_throws (args : InitializeArgs) (st : St) (e : JSError) :
  (InjectedModelAgent.initialize P args st).1 <> Threw e.
Proof.
  unfold InjectedModelAgent.initialize, try_catch at 1.
  match goal with
  | |- context [match ?b st with _ => _ end] => destruct (b st) as [[v|e'|] st']
  end; cbn; discriminate.
Qed.

Lemma env_initialize_never_throws (args : InitializeArgs) (st : St) (e : JSError) :
  (EnvKeyAgent.initialize P args st).1 <> Threw e.
Proof.
  unfold EnvKeyAgent.initialize, try_catch at 1.
  match goal with
  | |- context [match ?b st with _ => _ end] => destruct (b st) as [[v|e'|] st']
  end; cbn; discriminate.
Qed.

(** [initialize] changes the tool collection only through the resolver. *)
Lemma initialize_tools (args : InitializeArgs) (st : St) :
  tools (this (InjectedModelAgent.initialize P args st).2) =
  tools (this (Registry.exportToolsAndSetMetadata (toolNumbers args)
                 (clients args) (allRegistry args) (order args) st).2).
Proof.
  unfold InjectedModelAgent.initialize.
  rewrite try_catch_tools by auto with frame.
  rewrite bind_tools; [apply load_tools_tools|].
  intros _. apply frames_bind; [auto with frame|]. intros p.
  apply frames_bind; [auto with frame|]. intros a.
  apply frames_bind; [apply frames_assign; reflexivity|]. intros _.
  auto with frame.
Qed.

End Initialize.

Section InitializeRuns.

Variable P : Platform.

Lemma tool_list_append_loaded (numbers : list Z) (core all : list Factory)
    (settling : list nat) (st : St) :
  tool_list (append_tools (tools (this st))
               (loaded_by_run numbers core all settling st)) =
  tool_list (tools (this st)) ++ loaded_by_run numbers core all settling st.
Proof.
  destruct (tools (this st)) as [elems|props] eqn:Ht; [reflexivity|].
  unfold loaded_by_run. rewrite Ht, flat_map_nil.
  - cbn. now rewrite app_nil_r.
  - intros i. destruct (_ !! i); [apply loaded_tools_object | reflexivity].
Qed.

(** The tool collection after one [initialize] whose factories settle. *)
Lemma initialize_loads (numbers : list Z) (core all : list Factory)
    (cp : CheckPointer) (settling : list nat) (st : St) :
  settling ≡ₚ seq 0 (length (Registry.effective_factories numbers core all)) ->
  all_settle (Registry.effective_factories numbers core all) st ->
  tool_list (tools (this (InjectedModelAgent.initialize P
     (mkInitializeArgs numbers (FactoryArray core) (FactoryArray all) cp settling)
     st).2)) =
  tool_list (tools (this st)) ++ loaded_by_run numbers core all settling st.
Proof.
  intros Hperm Hsettle. rewrite initialize_tools.
  cbn [toolNumbers clients allRegistry order].
  rewrite exportToolsAndSetMetadata_settles by assumption.
  cbn [snd]. unfold state_after_run. cbn [this tools with_toolMetadata with_tools].
  apply tool_list_append_loaded.
Qed.

(** [initialize] called twice on one agent does not throw, and the tool
    collection after the second call is the collection before the first,
    followed by the tools the first run registered, followed by the tools
    the second run registered: the second call adds to what the first left
    and resets nothing.  On an array-valued collection the registered tools
    are the contributed ones; on an object-valued one there are none. *)
Lemma initialize_twice_accumulates
    (numbers1 : list Z) (core1 all1 : list Factory) (cp1 : CheckPointer)
    (settling1 : list nat)
    (numbers2 : list Z) (core2 all2 : list Factory) (cp2 : CheckPointer)
    (settling2 : list nat) (st : St) :
  let args1 := mkInitializeArgs numbers1 (FactoryArray core1)
                 (FactoryArray all1) cp1 settling1 in
  let args2 := mkInitializeArgs numbers2 (FactoryArray core2)
                 (FactoryArray all2) cp2 settling2 in
  let st1 := (InjectedModelAgent.initialize P args1 st).2 in
  let st2 := (InjectedModelAgent.initialize P args2 st1).2 in
  settling1 ≡ₚ seq 0 (length (Registry.effective_factories numbers1 core1 all1)) ->
  all_settle (Registry.effective_factories numbers1 core1 all1) st ->
  settling2 ≡ₚ seq 0 (length (Registry.effective_factories numbers2 core2 all2)) ->
  all_settle (Registry.effective_factories numbers2 core2 all2) st1 ->
  (forall e, (InjectedModelAgent.initialize P args1 st).1 <> Threw e)
  /\ (forall e, (InjectedModelAgent.initialize P args2 st1).1 <> Threw e)
  /\ tool_list (tools (this st2)) =
       tool_list (tools (this st)) ++
       loaded_by_run numbers1 core1 all1 settling1 st ++
       loaded_by_run numbers2 core2 all2 settling2 st1.
Proof.
  intros args1 args2 st1 st2 Hperm1 Hsettle1 Hperm2 Hsettle2.
  split; [|split].
  - intros e. apply initialize_never_throws.
  - intros e. apply initialize_never_throws.
  - subst st2 args2. rewrite initialize_loads by assumption.
    subst st1 args1. rewrite initialize_loads by assumption.
    now rewrite app_assoc.
Qed.

(** C8.  What [initialize] does, in either class, when [checkPointer] is
    [mongo], the tool factories settle, and the connection attempt fails
    with [e] (the client cannot be created, or [mongoClient.connect()]
    rejects): the inner handler logs the error and throws [MongoDB
    connection failed], the outer handler logs what was thrown, and the
    call returns; nothing reaches the caller and no checkpoint saver is
    installed. *)
Theorem initialize_swallows_mongo_failure
    (numbers : list Z) (core all : list Factory) (settling : list nat)
    (st : St) (a : addr) (p : Params) (e : JSError) :
  settling ≡ₚ seq 0 (length (Registry.effective_factories numbers core all)) ->
  all_settle (Registry.effective_factories numbers core all) st ->
  params (this st) = RefObject a ->
  heap st !! a = Some p ->
  MongoClient_new P = Some e \/
    (MongoClient_new P = None /\ MongoClient_connect P = Threw e) ->
  let args := mkInitializeArgs numbers (FactoryArray core) (FactoryArray all)
                mongo settling in
  let logged :=
    console (state_after_run numbers core all settling st) ++
    [ ConsoleError "MongoDB connection error:" (ErrorPayload e);
      ConsoleError "Agent initialization error:"
        (ErrorPayload (Error ("MongoDB connection failed: " +:+ message e))) ] in
  ((InjectedModelAgent.initialize P args st).1 = Returned tt
   /\ checkPointSaver (this (InjectedModelAgent.initialize P args st).2) =
        checkPointSaver (this st)
   /\ console (InjectedModelAgent.initialize P args st).2 = logged)
  /\ ((EnvKeyAgent.initialize P args st).1 = Returned None
      /\ checkPointSaver (this (EnvKeyAgent.initialize P args st).2) =
           checkPointSaver (this st)
      /\ console (EnvKeyAgent.initialize P args st).2 = logged).
Proof.
  intros Hperm Hsettle Hparams Hheap Hfail args logged.
  subst args logged.
  unfold InjectedModelAgent.initialize, EnvKeyAgent.initialize, load_tools,
    select_checkPointSaver, try_catch, bind, ret.
  cbn [toolNumbers clients allRegistry order checkPointer].
  rewrite exportToolsAndSetMetadata_settles by assumption.
  unfold this_params, state_after_run. cbn [this heap params with_toolMetadata with_tools].
  rewrite Hparams, Hheap. cbn.
  destruct Hfail as [Hnew|[Hnew Hconnect]]; rewrite Hnew; cbn;
    [|rewrite Hconnect; cbn]; rewrite <- !app_assoc; repeat split.
Qed.

End InitializeRuns.

Lemma initialize_twice_accumulates_witness :
  let P := platform_replying "not json" in
  tool_list
    (tools (this
       (InjectedModelAgent.initialize P
          (mkInitializeArgs [1%Z] (FactoryArray [factory_throws])
             (FactoryArray [factory_X1; factory_X2]) mongo [1; 0])
          (InjectedModelAgent.initialize P
             (mkInitializeArgs [0%Z] (FactoryArray [])
                (FactoryArray [factory_X1; factory_X2]) local [0])
             array_st).2).2)) = [tool_X1; tool_X2].
Proof.
  intros P.
  refine (proj2 (proj2 (initialize_twice_accumulates P
           [0%Z] [] [factory_X1; factory_X2] local [0]
           [1%Z] [factory_throws] [factory_X1; factory_X2] mongo [1; 0]
           array_st _ _ _ _))).
  - vm_compute. reflexivity.
  - vm_compute. repeat constructor; discriminate.
  - vm_compute. apply perm_swap.
  - vm_compute. repeat constructor; discriminate.
Defined.

Lemma initialize_swallows_mongo_failure_witness :
  let P := platform_replying "not json" in
  let args := mkInitializeArgs [] (FactoryArray []) (FactoryArray []) mongo [] in
  MongoClient_connect P = Threw (Error "connect ECONNREFUSED 127.0.0.1:27017")
  /\ (InjectedModelAgent.initialize P args constructed_st).1 = Returned tt
  /\ checkPointSaver (this (InjectedModelAgent.initialize P args constructed_st).2) = None
  /\ (EnvKeyAgent.initialize P args constructed_st).1 = Returned None.
Proof.
  intros P args.
  destruct (initialize_swallows_mongo_failure P [] [] [] [] constructed_st 0
              (mkParams "Bot" "Answer briefly" (Some []))
              (Error "connect ECONNREFUSED 127.0.0.1:27017"))
    as ((Hr & Hc & _) & (Hr' & _)).
  - vm_compute. reflexivity.
  - constructor.
  - reflexivity.
  - vm_compute. reflexivity.
  - right. split; reflexivity.
  - split; [reflexivity|]. split; [exact Hr|]. split; [exact Hc | exact Hr'].
Defined.

(** ** The constructor *)

(** C10.  The constructor of the model-receiving class stores [[]] in
    [toolKnowledge] of the object the caller passed, whatever it held and
    whether or not a model was supplied; the other members and the other
    objects are left alone, and the agent refers to that same object. *)
Theorem constructor_clears_toolKnowledge (threadId_ : string) (a : addr)
    (p : Params) (model_ : option BaseChatModel) (h : gmap addr Params)
    (out : list LogEntry) :
  h !! a = Some p ->
  let r := InjectedModelAgent.constructor threadId_ (RefObject a) model_ h out in
  r.1.2 !! a = Some (mkParams (params_name p) (instruction p) (Some []))
  /\ (forall b, b <> a -> r.1.2 !! b = h !! b)
  /\ (forall agent, r.1.1 = Returned agent ->
        params agent = RefObject a /\ tools agent = ToolsObject []).
Proof.
  intros Hp r. subst r. unfold InjectedModelAgent.constructor. rewrite Hp.
  destruct model_ as [m|]; cbn [fst snd]; (split; [|split]).
  - apply lookup_insert_eq.
  - intros b Hb. now apply lookup_insert_ne.
  - intros agent [= <-]. split; reflexivity.
  - apply lookup_insert_eq.
  - intros b Hb. now apply lookup_insert_ne.
  - intros agent [=].
Qed.

Lemma constructor_clears_toolKnowledge_witness :
  caller_heap !! 0 =
    Some (mkParams "Bot" "Answer briefly" (Some ["prices are in USD"]))
  /\ (InjectedModelAgent.constructor "thread-1" (RefObject 0) (Some 7)
        caller_heap []).1.2 !! 0 =
      Some (mkParams "Bot" "Answer briefly" (Some [])).
Proof.
  split; [reflexivity|].
  exact (proj1 (constructor_clears_toolKnowledge "thread-1" 0
                  (mkParams "Bot" "Answer briefly" (Some ["prices are in USD"]))
                  (Some 7) caller_heap [] eq_refl)).
Defined.

(** ** [orchestrate] *)

Lemma prefix_append (s t : string) : String.prefix s (s +:+ t) = true.
Proof.
  induction s as [|c s IH]; simpl.
  - now destruct t.
  - destruct (ascii_dec c c); [exact IH | contradiction].
Qed.

Lemma own_property_None {V : Type} (props : list (string * V)) (key : string) :
  ~ In key (Object_keys props) -> own_property props key = None.
Proof.
  induction props as [|[k v] props IH]; intros Hnot; simpl.
  - reflexivity.
  - destruct (String.eqb k key) eqn:E.
    + apply String.eqb_eq in E. exfalso. apply Hnot. now left.
    + apply IH. intros Hin. apply Hnot. now right.
Qed.

Lemma sentinel_not_inherited (suffix : string) :
  mem ("INVALID_TOOL:" +:+ suffix) Object_prototype_members = false.
Proof. reflexivity. Qed.

Section Orchestrate.

Variable P : Platform.
Variables (msg : string) (st : St) (m : BaseChatModel) (a : addr) (p : Params).

Hypothesis Hmodel : model (this st) = Some m.
Hypothesis Hparams : params (this st) = RefObject a.
Hypothesis Hheap : heap st !! a = Some p.

(** When the reply of the model parses to an array, [orchestrate] of the
    model-receiving class returns one looked-up value per element. *)
Lemma orchestrate_names (content : string) (names : list JSON) :
  model_invoke P m
    [SystemMessage (Some (InjectedModelAgent.orchestrationPrompt p (tools (this st))));
     HumanMessage msg] = Returned content ->
  JSON_parse P content = inr (JArray names) ->
  InjectedModelAgent.orchestrate P msg st =
  (Returned (map (fun name => tools_get (tools (this st)) (ToString name)) names), st).
Proof.
  intros Hreply Hparse.
  unfold InjectedModelAgent.orchestrate, try_catch, bind, this_params, get_this,
    invoke_model, parse, map_tool_names, await, ret.
  rewrite Hparams, Hheap. cbn. rewrite Hmodel. cbn. rewrite Hreply, Hparse.
  reflexivity.
Qed.

(** When the reply does not parse, the handler logs the error and returns
    [[]]. *)
Lemma orchestrate_unparseable (content : string) (e : JSError) :
  model_invoke P m
    [SystemMessage (Some (InjectedModelAgent.orchestrationPrompt p (tools (this st))));
     HumanMessage msg] = Returned content ->
  JSON_parse P content = inl e ->
  InjectedModelAgent.orchestrate P msg st =
  (Returned [], write [ConsoleError "Error in orchestration:" (ErrorPayload e)] st).
Proof.
  intros Hreply Hparse.
  unfold InjectedModelAgent.orchestrate, try_catch, bind, this_params, get_this,
    invoke_model, parse, await, ret, throw, console_error.
  rewrite Hparams, Hheap. cbn. rewrite Hmodel. cbn. rewrite Hreply, Hparse.
  reflexivity.
Qed.

(** [messageAgent] hands the list [orchestrate] returned to
    [createReactAgent] as it is. *)
Lemma messageAgent_passes_tools (result : list JSValue) (st' : St) :
  InjectedModelAgent.orchestrate P msg st = (Returned result, st') ->
  (InjectedModelAgent.messageAgent P msg st).1 =
  match createReactAgent P
          (mkReactAgentParams (model (this st')) result (checkPointSaver (this st'))
             (systemPrompt (this st'))) with
  | inr agent => Returned (InjectedModelAgent.Executor agent)
  | inl e => Returned (InjectedModelAgent.ErrorObject e)
  end.
Proof.
  intros Horch.
  unfold InjectedModelAgent.messageAgent, try_catch, bind, get_this.
  rewrite Horch. destruct (createReactAgent P _); reflexivity.
Qed.

End Orchestrate.

(** The handler of [orchestrate] catches every exception. *)
Lemma orchestrate_never_throws (P : Platform) (msg : string) (st : St) (e : JSError) :
  (InjectedModelAgent.orchestrate P msg st).1 <> Threw e.
Proof.
  unfold InjectedModelAgent.orchestrate, try_catch.
  match goal with
  | |- context [match ?b st with _ => _ end] => destruct (b st) as [[v|e'|] st']
  end; cbn; discriminate.
Qed.

Section EnvKeyOrchestrate.

Variable P : Platform.
Variables (msg : string) (st : St) (m : BaseChatModel).

Hypothesis Hmodel : model (this st) = Some m.

(** In the class that builds its model from the environment keys the
    handler of [orchestrate] logs the error and returns [false]. *)
Lemma env_orchestrate_unparseable (content : string) (e : JSError) :
  model_invoke P m
    [SystemMessage (Some (EnvKeyAgent.orchestrationPrompt (tools (this st))));
     HumanMessage msg] = Returned content ->
  JSON_parse P content = inl e ->
  EnvKeyAgent.orchestrate P msg st =
  (Returned EnvKeyAgent.False_,
   write [ConsoleError "Error in orchestration:" (ErrorPayload e)] st).
Proof.
  intros Hreply Hparse.
  unfold EnvKeyAgent.orchestrate, try_catch, bind, get_this, invoke_model, parse,
    await, ret, throw, console_error.
  cbn. rewrite Hmodel. cbn. rewrite Hreply, Hparse. reflexivity.
Qed.

(** [messageAgent] of that class then throws [Agent failed] into its own
    handler, which logs it; the call returns [undefined] and no executor was
    created. *)
Lemma env_messageAgent_without_agent (st' : St) :
  EnvKeyAgent.orchestrate P msg st = (Returned EnvKeyAgent.False_, st') ->
  EnvKeyAgent.messageAgent P msg st =
  (Returned None,
   write [ConsoleError "Message agent error:" (ErrorPayload (Error "Agent failed"))] st').
Proof.
  intros Horch.
  unfold EnvKeyAgent.messageAgent, try_catch, bind.
  rewrite Horch. reflexivity.
Qed.

End EnvKeyOrchestrate.

(** A closed run of the class that builds its model from the environment
    keys: the model answers [not json], which [JSON.parse] rejects;
    [orchestrate] returns [false], not a list of tools, and [messageAgent]
    returns [undefined] without an executor. *)
Lemma env_orchestrate_returns_false :
  let P := platform_replying "not json" in
  model_invoke P 7
    [SystemMessage (Some (EnvKeyAgent.orchestrationPrompt (tools (this constructed_st))));
     HumanMessage "hello"] = Returned "not json"
  /\ JSON_parse P "not json" =
       inl (SyntaxError "Unexpected token o in JSON at position 1")
  /\ (EnvKeyAgent.orchestrate P "hello" constructed_st).1 =
       Returned EnvKeyAgent.False_
  /\ (forall agent, (EnvKeyAgent.orchestrate P "hello" constructed_st).1 <>
                    Returned (EnvKeyAgent.Agent_ agent))
  /\ (EnvKeyAgent.messageAgent P "hello" constructed_st).1 = Returned None.
Proof.
  vm_compute. repeat split; try reflexivity. intros agent. discriminate.
Qed.

(** C5 (as amended).  When the reply of the model is not parseable, the
    error does not leave [orchestrate] in either class.  In the class that
    receives its model the handler logs the error and returns an empty list,
    and [messageAgent] creates the executor over that empty list.  In the
    class that builds its model from the environment keys the handler logs
    the error and returns [false], and [messageAgent] logs [Agent failed]
    and returns [undefined]. *)
Theorem unparseable_reply_is_caught (P : Platform) (msg : string) (st : St)
    (m : BaseChatModel) (a : addr) (p : Params) (content : string) (e : JSError) :
  model (this st) = Some m ->
  params (this st) = RefObject a ->
  heap st !! a = Some p ->
  model_invoke P m
    [SystemMessage (Some (InjectedModelAgent.orchestrationPrompt p (tools (this st))));
     HumanMessage msg] = Returned content ->
  model_invoke P m
    [SystemMessage (Some (EnvKeyAgent.orchestrationPrompt (tools (this st))));
     HumanMessage msg] = Returned content ->
  JSON_parse P content = inl e ->
  let logged := write [ConsoleError "Error in orchestration:" (ErrorPayload e)] st in
  InjectedModelAgent.orchestrate P msg st = (Returned [], logged)
  /\ (InjectedModelAgent.messageAgent P msg st).1 =
       match createReactAgent P
               (mkReactAgentParams (model (this st)) [] (checkPointSaver (this st))
                  (systemPrompt (this st))) with
       | inr agent => Returned (InjectedModelAgent.Executor agent)
       | inl e' => Returned (InjectedModelAgent.ErrorObject e')
       end
  /\ EnvKeyAgent.orchestrate P msg st = (Returned EnvKeyAgent.False_, logged)
  /\ EnvKeyAgent.messageAgent P msg st =
       (Returned None,
        write [ConsoleError "Message agent error:"
                 (ErrorPayload (Error "Agent failed"))] logged).
Proof.
  intros Hmodel Hparams Hheap Hreply Hreply' Hparse logged. subst logged.
  pose proof (orchestrate_unparseable P msg st m a p Hmodel Hparams Hheap
                content e Hreply Hparse) as Horch.
  pose proof (env_orchestrate_unparseable P msg st m Hmodel content e
                Hreply' Hparse) as Henv.
  split; [exact Horch|]. split; [|split].
  - rewrite (messageAgent_passes_tools P msg st _ _ Horch). reflexivity.
  - exact Henv.
  - apply (env_messageAgent_without_agent P msg st _ Henv).
Qed.

Lemma unparseable_reply_is_caught_witness :
  let P := platform_replying "not json" in
  (InjectedModelAgent.orchestrate P "hello" constructed_st).1 = Returned []
  /\ (InjectedModelAgent.messageAgent P "hello" constructed_st).1 =
       Returned (InjectedModelAgent.Executor 1)
  /\ (EnvKeyAgent.orchestrate P "hello" constructed_st).1 = Returned EnvKeyAgent.False_
  /\ (EnvKeyAgent.messageAgent P "hello" constructed_st).1 = Returned None.
Proof.
  intros P.
  destruct (unparseable_reply_is_caught P "hello" constructed_st 7 0
              (mkParams "Bot" "Answer briefly" (Some [])) "not json"
              (SyntaxError "Unexpected token o in JSON at position 1"))
    as (H1 & H2 & H3 & H4).
  - reflexivity.
  - reflexivity.
  - vm_compute. reflexivity.
  - reflexivity.
  - reflexivity.
  - reflexivity.
  - rewrite H1, H2, H3, H4. repeat split; reflexivity.
Defined.

(** C6.  A name of the form [INVALID_TOOL:<name>] never resolves to a tool
    when no key of the tools object begins with [INVALID_TOOL:]: the lookup
    yields [undefined], and so does the entry of the list [orchestrate]
    returns at every position where the model named such a sentinel. *)
Theorem sentinel_is_not_a_tool (P : Platform) (msg : string) (st : St)
    (m : BaseChatModel) (a : addr) (p : Params) (content : string)
    (names : list JSON) (props : list (string * toolType)) :
  tools (this st) = ToolsObject props ->
  (forall key, In key (Object_keys props) ->
     String.prefix "INVALID_TOOL:" key = false) ->
  model (this st) = Some m ->
  params (this st) = RefObject a ->
  heap st !! a = Some p ->
  model_invoke P m
    [SystemMessage (Some (InjectedModelAgent.orchestrationPrompt p (tools (this st))));
     HumanMessage msg] = Returned content ->
  JSON_parse P content = inr (JArray names) ->
  (forall suffix, tools_get (tools (this st)) ("INVALID_TOOL:" +:+ suffix) = undefined)
  /\ exists result,
       (InjectedModelAgent.orchestrate P msg st).1 = Returned result
       /\ forall i suffix,
            names !! i = Some (JString ("INVALID_TOOL:" +:+ suffix)) ->
            result !! i = Some undefined.
Proof.
  intros Ht Hkeys Hmodel Hparams Hheap Hreply Hparse.
  assert (Hget : forall suffix,
            tools_get (tools (this st)) ("INVALID_TOOL:" +:+ suffix) = undefined).
  { intros suffix. rewrite Ht. unfold tools_get.
    rewrite own_property_None.
    - now rewrite sentinel_not_inherited.
    - intros Hin. apply Hkeys in Hin.
      rewrite prefix_append in Hin. discriminate. }
  split; [exact Hget|].
  rewrite (orchestrate_names P msg st m a p Hmodel Hparams Hheap content names
             Hreply Hparse).
  eexists. split; [reflexivity|].
  intros i suffix Hi. rewrite list_lookup_fmap, Hi. cbn [fmap option_fmap option_map ToString].
  now rewrite Hget.
Qed.

Lemma sentinel_is_not_a_tool_witness :
  tools_get (tools (this loaded_object_st)) "INVALID_TOOL:swap" = undefined
  /\ exists result,
       (InjectedModelAgent.orchestrate (platform_replying naming_reply) "swap my coins"
          loaded_object_st).1 = Returned result
       /\ result !! 1 = Some undefined.
Proof.
  destruct (sentinel_is_not_a_tool (platform_replying naming_reply) "swap my coins"
              loaded_object_st 7 0 (mkParams "Bot" "Answer briefly" (Some []))
              naming_reply
              [JString "X"; JString "INVALID_TOOL:swap"; JString "Y"]
              [("X", tool_X1)])
    as (Hget & result & Hres & Hpos).
  - reflexivity.
  - intros key [<-|[]]. reflexivity.
  - reflexivity.
  - reflexivity.
  - vm_compute. reflexivity.
  - reflexivity.
  - vm_compute. reflexivity.
  - split; [exact (Hget "swap")|].
    exists result. split; [exact Hres|].
    apply (Hpos 1 "swap"). reflexivity.
Defined.

(** A closed run: the model names [toString], for which no tool is
    registered; the entry of the returned list is the function every object
    inherits under that name, not [undefined]. *)
Lemma inherited_name_is_not_undefined :
  let P := platform_replying inherited_reply in
  own_property [("X", tool_X1)] "toString" = None
  /\ tools_get (tools (this loaded_object_st)) "toString" = BuiltIn "toString"
  /\ (InjectedModelAgent.orchestrate P "print it" loaded_object_st).1 =
       Returned [BuiltIn "toString"]
  /\ (InjectedModelAgent.orchestrate P "print it" loaded_object_st).1 <>
       Returned [undefined].
Proof.
  vm_compute. repeat split; try reflexivity. discriminate.
Qed.

(** C7 (as amended).  When the reply of the model parses to an array of
    names, [orchestrate] of the model-receiving class returns a list with
    exactly one entry per name, in the order of the names, and nothing is
    filtered out.  The entry of a name without an own key in the tools
    object is [undefined], unless the name is that of a member inherited
    from [Object.prototype], in which case it is that built-in member; the
    entry of an own key is its tool.  [messageAgent] hands that very list to
    [createReactAgent]. *)
Theorem orchestrate_keeps_unmatched_names (P : Platform) (msg : string) (st : St)
    (m : BaseChatModel) (a : addr) (p : Params) (content : string)
    (names : list JSON) (props : list (string * toolType)) :
  tools (this st) = ToolsObject props ->
  model (this st) = Some m ->
  params (this st) = RefObject a ->
  heap st !! a = Some p ->
  model_invoke P m
    [SystemMessage (Some (InjectedModelAgent.orchestrationPrompt p (tools (this st))));
     HumanMessage msg] = Returned content ->
  JSON_parse P content = inr (JArray names) ->
  exists result,
    (InjectedModelAgent.orchestrate P msg st).1 = Returned result
    /\ length result = length names
    /\ (forall i name,
          names !! i = Some (JString name) ->
          own_property props name = None ->
          result !! i =
          Some (if mem name Object_prototype_members then BuiltIn name else undefined))
    /\ (forall i name tool,
          names !! i = Some (JString name) ->
          own_property props name = Some tool ->
          result !! i = Some (ToolValue tool))
    /\ (InjectedModelAgent.messageAgent P msg st).1 =
         match createReactAgent P
                 (mkReactAgentParams (model (this st)) result
                    (checkPointSaver (this st)) (systemPrompt (this st))) with
         | inr agent => Returned (InjectedModelAgent.Executor agent)
         | inl e => Returned (InjectedModelAgent.ErrorObject e)
         end.
Proof.
  intros Ht Hmodel Hparams Hheap Hreply Hparse.
  pose proof (orchestrate_names P msg st m a p Hmodel Hparams Hheap content names
                Hreply Hparse) as Horch.
  eexists. rewrite Horch. split; [reflexivity|].
  split; [apply length_map|]. split; [|split].
  - intros i name Hi Hown.
    rewrite list_lookup_fmap, Hi, Ht. cbn [fmap option_fmap option_map ToString tools_get].
    now rewrite Hown.
  - intros i name tool Hi Hown.
    rewrite list_lookup_fmap, Hi, Ht. cbn [fmap option_fmap option_map ToString tools_get].
    now rewrite Hown.
  - apply (messageAgent_passes_tools P msg st _ _ Horch).
Qed.

Lemma orchestrate_keeps_unmatched_names_witness :
  (InjectedModelAgent.orchestrate (platform_replying naming_reply) "swap my coins"
     loaded_object_st).1 = Returned [ToolValue tool_X1; undefined; undefined].
Proof.
  destruct (orchestrate_keeps_unmatched_names (platform_replying naming_reply)
              "swap my coins" loaded_object_st 7 0
              (mkParams "Bot" "Answer briefly" (Some [])) naming_reply
              [JString "X"; JString "INVALID_TOOL:swap"; JString "Y"]
              [("X", tool_X1)])
    as (result & Hres & Hlen & Hundef & Htool & _).
  - reflexivity.
  - reflexivity.
  - reflexivity.
  - vm_compute. reflexivity.
  - reflexivity.
  - vm_compute. reflexivity.
  - rewrite Hres. f_equal.
    destruct result as [|r0 [|r1 [|r2 [|r3 rest]]]]; try discriminate Hlen.
    pose proof (Htool 0 "X" tool_X1 eq_refl eq_refl) as H0.
    pose proof (Hundef 1 "INVALID_TOOL:swap" eq_refl eq_refl) as H1.
    pose proof (Hundef 2 "Y" eq_refl eq_refl) as H2.
    cbn in H0, H1, H2. congruence.
Defined.

(** * Further properties of the resolver *)

(** ** Bounds of the selection *)

Lemma filter_from_none {A : Type} (f : A -> nat -> bool) (k : nat) (all : list A) :
  (forall x i, k <= i < k + length all -> f x i = false) ->
  Registry.filter_from f k all = [].
Proof.
  revert k. induction all as [|x rest IH]; intros k Hf; simpl.
  - reflexivity.
  - rewrite Hf by (simpl; lia). apply IH.
    intros y i Hi. apply Hf. simpl. lia.
Qed.

Lemma filter_from_all {A : Type} (f : A -> nat -> bool) (k : nat) (all : list A) :
  (forall x i, k <= i < k + length all -> f x i = true) ->
  Registry.filter_from f k all = all.
Proof.
  revert k. induction all as [|x rest IH]; intros k Hf; simpl.
  - reflexivity.
  - rewrite Hf by (simpl; lia). f_equal. apply IH.
    intros y i Hi. apply Hf. simpl. lia.
Qed.

(** X1.  Indices that are negative or not below the length of the registry
    select nothing: when every entry of [toolNumbers] lies outside the
    registry (in particular when [toolNumbers] is empty) the factories the
    call invokes are the core list alone. *)
Theorem indices_outside_registry_select_nothing {A : Type}
    (core all : list A) (S : list Z) :
  (forall z, In z S -> (z < 0 \/ Z.of_nat (length all) <= z)%Z) ->
  Registry.effective_factories S core all = core.
Proof.
  intros Hout.
  unfold Registry.effective_factories, Registry.filteredToolBunches,
    Registry.Array_filter.
  rewrite filter_from_none; [apply app_nil_r|].
  intros _ i Hi.
  destruct (Registry.includes S i) eqn:E; [|reflexivity].
  apply includes_true, Hout in E. lia.
Qed.

Lemma indices_outside_registry_select_nothing_witness :
  Registry.effective_factories [(-1)%Z; 2%Z; 7%Z] [10; 11] [20; 21] = [10; 11].
Proof.
  apply indices_outside_registry_select_nothing.
  intros z [<-|[<-|[<-|[]]]]; simpl; lia.
Defined.

(** X2.  When [toolNumbers] holds every index of the registry, whatever
    else it holds and in whatever order, the factories the call invokes are
    the core list followed by the whole registry. *)
Theorem every_index_selects_whole_registry {A : Type}
    (core all : list A) (S : list Z) :
  (forall i, i < length all -> In (Z.of_nat i) S) ->
  Registry.effective_factories S core all = core ++ all.
Proof.
  intros Hin.
  unfold Registry.effective_factories, Registry.filteredToolBunches,
    Registry.Array_filter.
  rewrite filter_from_all; [reflexivity|].
  intros _ i Hi. apply includes_true, Hin. lia.
Qed.

Lemma every_index_selects_whole_registry_witness :
  Registry.effective_factories [1%Z; 5%Z; 0%Z; 1%Z] [10] [20; 21] = [10; 20; 21].
Proof.
  apply (every_index_selects_whole_registry [10] [20; 21]).
  intros i Hi. simpl in Hi.
  destruct i as [|[|i]]; simpl; [tauto | tauto | lia].
Defined.

(** ** Any schedule of settlements *)

Section Schedule.

Variable settlements : list (Outcome ToolItem).
Variable t0 : ToolsField.

Lemma settle_in_flight (l : Registry.Loading) (i : nat) :
  in_flight settlements t0 l -> in_flight settlements t0 (Registry.settle settlements l i).
Proof.
  intros [[xs Hxs] Hslots].
  destruct (Registry.toolPromises l !! i) as [[r|]|] eqn:Hp;
    [unfold Registry.settle; rewrite Hp; now split; [exists xs|] | |
     unfold Registry.settle; rewrite Hp; now split; [exists xs|]].
  destruct (settlements !! i) as [o|] eqn:Ho;
    [|unfold Registry.settle; rewrite Hp, Ho; now split; [exists xs|]].
  assert (Hs : o = Unsettled \/ o <> Unsettled)
    by (destruct o; [right | right | left]; congruence).
  destruct Hs as [->|Hs];
    [unfold Registry.settle; rewrite Hp, Ho; now split; [exists xs|]|].
  rewrite (settle_pending settlements l i o Hp Ho Hs). unfold in_flight.
  cbn [Registry.toolPromises Registry.loading_st this tools with_tools].
  split.
  - exists (xs ++ tools_at settlements (tools (this (Registry.loading_st l))) i).
    now rewrite Hxs, append_tools_app.
  - intros j r Hj.
    destruct (decide (i = j)) as [<-|Hne].
    + rewrite list_lookup_insert_eq in Hj by (eapply lookup_lt_Some; eassumption).
      injection Hj as <-. exists o. split; [assumption|]. split; [assumption|].
      now rewrite Hxs, wrapper_value_append.
    + rewrite list_lookup_insert_ne in Hj by assumption. now apply Hslots.
Qed.

Lemma settle_length (l : Registry.Loading) (i : nat) :
  length (Registry.toolPromises (Registry.settle settlements l i)) =
  length (Registry.toolPromises l).
Proof.
  unfold Registry.settle.
  destruct (Registry.toolPromises l !! i) as [[r|]|]; try reflexivity.
  destruct (settlements !! i) as [[toolItem|e|]|]; try reflexivity.
  - destruct (Registry.load_tool_item _ _ _) as [[value st'] md].
    cbn [Registry.toolPromises]. apply length_insert.
  - cbn [Registry.toolPromises]. apply length_insert.
Qed.

(** A promise that becomes settled was resumed. *)
Lemma settle_settles_only (l : Registry.Loading) (i j : nat) r :
  Registry.toolPromises (Registry.settle settlements l i) !! j = Some (Some r) ->
  Registry.toolPromises l !! j = Some (Some r) \/ j = i.
Proof.
  destruct (decide (j = i)) as [->|Hne]; [intros _; now right|].
  intros Hj. left. revert Hj. unfold Registry.settle.
  destruct (Registry.toolPromises l !! i) as [[r'|]|] eqn:Hp; try tauto.
  destruct (settlements !! i) as [[toolItem|e|]|]; try tauto.
  - destruct (Registry.load_tool_item _ _ _) as [[value st'] md].
    cbn [Registry.toolPromises]. now rewrite list_lookup_insert_ne by congruence.
  - cbn [Registry.toolPromises]. now rewrite list_lookup_insert_ne by congruence.
Qed.

Lemma fold_settle_in_flight (idxs : list nat) (l : Registry.Loading) :
  in_flight settlements t0 l ->
  in_flight settlements t0 (fold_left (Registry.settle settlements) idxs l).
Proof.
  revert l. induction idxs as [|i idxs IH]; intros l Hl; cbn [fold_left].
  - assumption.
  - apply IH, settle_in_flight, Hl.
Qed.

Lemma fold_settle_length (idxs : list nat) (l : Registry.Loading) :
  length (Registry.toolPromises (fold_left (Registry.settle settlements) idxs l)) =
  length (Registry.toolPromises l).
Proof.
  revert l. induction idxs as [|i idxs IH]; intros l; cbn [fold_left].
  - reflexivity.
  - now rewrite IH, settle_length.
Qed.

Lemma fold_settle_settles_only (idxs : list nat) (l : Registry.Loading) j r :
  Registry.toolPromises (fold_left (Registry.settle settlements) idxs l) !! j =
    Some (Some r) ->
  (exists r', Registry.toolPromises l !! j = Some (Some r')) \/ In j idxs.
Proof.
  revert l. induction idxs as [|i idxs IH]; intros l; cbn [fold_left].
  - intros Hj. left. now exists r.
  - intros Hj. apply IH in Hj as [[r' Hj]|Hj]; [|right; now right].
    apply settle_settles_only in Hj as [Hj| ->]; [left; now exists r' | right; now left].
Qed.

End Schedule.

Section AnySchedule.

Variables (numbers : list Z) (core all : list Factory).
Variables (settling : list nat) (st : St).

Let factories := Registry.effective_factories numbers core all.
Let settlements := map (fun item : Factory => item st) factories.
Let started := Registry.mkLoading (map (fun _ : Factory => None) factories) [] st.
Let resumed := fold_left (Registry.settle settlements) settling started.

Lemma started_in_flight : in_flight settlements (tools (this st)) started.
Proof.
  split.
  - exists []. cbn. now rewrite append_tools_nil.
  - intros j r Hj. cbn in Hj. rewrite list_lookup_fmap in Hj.
    destruct (factories !! j); discriminate.
Qed.

(** What the call returns is read off the promises after the schedule. *)
Lemma export_returned_promises (results : list Registry.SettledResult) :
  (Registry.exportToolsAndSetMetadata numbers (FactoryArray core)
     (FactoryArray all) settling st).1 = Returned results ->
  Registry.toolPromises resumed = map Some results.
Proof.
  unfold Registry.exportToolsAndSetMetadata.
  fold factories. fold settlements. fold started. fold resumed.
  unfold Registry.Promise_allSettled.
  destruct (mapM id (Registry.toolPromises resumed)) as [rs|] eqn:Hm;
    cbn [fst]; [|discriminate].
  intros [= <-]. apply mapM_Some_1 in Hm.
  induction Hm as [|x y l k Hxy _ IH]; [reflexivity|].
  cbn in Hxy. subst x. cbn. now rewrite IH.
Qed.

Lemma export_returned_results (results : list Registry.SettledResult) :
  (Registry.exportToolsAndSetMetadata numbers (FactoryArray core)
     (FactoryArray all) settling st).1 = Returned results ->
  results = outcome_list numbers core all st
  /\ all_settle factories st
  /\ (forall i, i < length factories -> In i settling).
Proof.
  intros Hret. apply export_returned_promises in Hret.
  pose proof (fold_settle_in_flight settlements (tools (this st)) settling started
                started_in_flight) as [_ Hslots].
  fold resumed in Hslots. rewrite Hret in Hslots.
  assert (Hlen : length results = length factories).
  { apply (f_equal length) in Hret. unfold resumed in Hret.
    rewrite fold_settle_length in Hret. cbn in Hret.
    rewrite !length_map in Hret. congruence. }
  assert (Hslot : forall j (item : Factory), factories !! j = Some item ->
            item st <> Unsettled /\
            results !! j =
              Some (Registry.Fulfilled (wrapper_value (tools (this st)) (item st)))).
  { intros j item Hitem.
    destruct (lookup_lt_is_Some_2 results j) as [r Hr];
      [rewrite Hlen; eapply lookup_lt_Some; eassumption|].
    destruct (Hslots j r) as (o & Ho & Hs & ->);
      [now rewrite list_lookup_fmap, Hr|].
    unfold settlements in Ho. rewrite list_lookup_fmap in Ho.
    unfold Factory in *. rewrite Hitem in Ho. injection Ho as <-.
    split; [assumption | exact Hr]. }
  split; [|split].
  - apply list_eq. intros j. unfold outcome_list. fold factories.
    rewrite list_lookup_fmap.
    destruct (factories !! j) as [item|] eqn:Hitem.
    + now destruct (Hslot j item Hitem) as [_ ->].
    + apply lookup_ge_None_2. rewrite Hlen. now apply lookup_ge_None_1.
  - apply Forall_forall. intros item Hin.
    apply list_elem_of_lookup_1 in Hin as [j Hj].
    now destruct (Hslot j item Hj).
  - intros i Hi.
    destruct (lookup_lt_is_Some_2 results i) as [r Hr]; [now rewrite Hlen|].
    assert (Hset : Registry.toolPromises resumed !! i = Some (Some r))
      by now rewrite Hret, list_lookup_fmap, Hr.
    apply fold_settle_settles_only in Hset as [[r' Hset]|Hin]; [|assumption].
    cbn in Hset. rewrite list_lookup_fmap in Hset.
    destruct (factories !! i); discriminate.
Qed.

End AnySchedule.

(** X3.  Whenever [exportToolsAndSetMetadata], given two arrays, returns,
    under any schedule of settlements, every factory of the effective list
    has settled and been resumed, and the array returned has one fulfilled
    entry per factory, in the order of the effective list: the tool item of
    a factory that returned and whose tools were pushed, [null] otherwise.
    No entry is ever a rejection, and the returned array does not depend on
    the order in which the factories settled. *)
Theorem export_returns_one_entry_per_factory
    (numbers : list Z) (core all : list Factory) (settling : list nat) (st : St)
    (results : list Registry.SettledResult) :
  (Registry.exportToolsAndSetMetadata numbers (FactoryArray core)
     (FactoryArray all) settling st).1 = Returned results ->
  let factories := Registry.effective_factories numbers core all in
  results =
    map (fun item : Factory =>
           Registry.Fulfilled (wrapper_value (tools (this st)) (item st)))
        factories
  /\ (forall r, In r results -> Registry.is_rejected r = false)
  /\ all_settle factories st
  /\ (forall i, i < length factories -> In i settling).
Proof.
  intros Hret factories.
  destruct (export_returned_results numbers core all settling st results Hret)
    as (Hres & Hsettle & Hcover).
  split; [exact Hres|]. split; [|split; assumption].
  intros r Hr. rewrite Hres in Hr. unfold outcome_list in Hr.
  apply in_map_iff in Hr as (item & <- & _). reflexivity.
Qed.

Lemma export_returns_one_entry_per_factory_witness :
  (Registry.exportToolsAndSetMetadata [1%Z] (FactoryArray [factory_throws])
     (FactoryArray [factory_X1; factory_X2]) [1; 1; 5; 0] array_st).1 =
    Returned [Registry.Fulfilled None; Registry.Fulfilled (Some item_X2)]
  /\ all_settle [factory_throws; factory_X2] array_st.
Proof.
  split; [vm_compute; reflexivity|].
  apply (export_returns_one_entry_per_factory [1%Z] [factory_throws]
           [factory_X1; factory_X2] [1; 1; 5; 0] array_st
           [Registry.Fulfilled None; Registry.Fulfilled (Some item_X2)]).
  vm_compute. reflexivity.
Defined.

(** X4.  A selected factory whose promise never settles keeps
    [Promise.allSettled] pending for ever: under every schedule the call
    neither returns nor throws, and so does [initialize] of either class,
    which awaits it. *)
Theorem unsettled_factory_blocks_initialize (P : Platform)
    (numbers : list Z) (core all : list Factory) (cp : CheckPointer)
    (settling : list nat) (st : St) (item : Factory) :
  In item (Registry.effective_factories numbers core all) ->
  item st = Unsettled ->
  let args := mkInitializeArgs numbers (FactoryArray core) (FactoryArray all)
                cp settling in
  (Registry.exportToolsAndSetMetadata numbers (FactoryArray core)
     (FactoryArray all) settling st).1 = Unsettled
  /\ (InjectedModelAgent.initialize P args st).1 = Unsettled
  /\ (EnvKeyAgent.initialize P args st).1 = Unsettled.
Proof.
  intros Hin Hitem args.
  assert (Hexp : (Registry.exportToolsAndSetMetadata numbers (FactoryArray core)
                    (FactoryArray all) settling st).1 = Unsettled).
  { destruct (Registry.exportToolsAndSetMetadata numbers (FactoryArray core)
                (FactoryArray all) settling st).1 as [results|e|] eqn:Hr.
    - apply export_returned_results in Hr as (_ & Hsettle & _).
      unfold all_settle in Hsettle. rewrite Forall_forall in Hsettle.
      apply list_elem_of_In in Hin. now apply Hsettle in Hin.
    - now apply export_never_throws in Hr.
    - reflexivity. }
  split; [exact Hexp|].
  subst args.
  unfold InjectedModelAgent.initialize, EnvKeyAgent.initialize, load_tools,
    try_catch, bind.
  cbn [toolNumbers clients allRegistry order checkPointer].
  destruct (Registry.exportToolsAndSetMetadata numbers (FactoryArray core)
              (FactoryArray all) settling st) as [o st'].
  cbn [fst] in Hexp. subst o. split; reflexivity.
Qed.

Lemma unsettled_factory_blocks_initialize_witness :
  (InjectedModelAgent.initialize (platform_replying "[]")
     (mkInitializeArgs [] (FactoryArray [factory_X1; fun _ => Unsettled])
        (FactoryArray []) local [0; 1]) array_st).1 = Unsettled.
Proof.
  refine (proj1 (proj2 (unsettled_factory_blocks_initialize (platform_replying "[]")
            [] [factory_X1; fun _ => Unsettled] [] local [0; 1] array_st
            (fun _ => Unsettled) _ _))).
  - simpl. right. left. reflexivity.
  - reflexivity.
Defined.

(** X5.  The order in which the factories settle changes neither what the
    call returns nor which tools are registered: for two schedules that
    resume every factory once, the returned arrays are equal and the tool
    collections hold the same elements, in an order that follows the
    schedule. *)
Theorem settlement_order_permutes_tools
    (numbers : list Z) (core all : list Factory) (order1 order2 : list nat)
    (st : St) :
  let factories := Registry.effective_factories numbers core all in
  order1 ≡ₚ seq 0 (length factories) ->
  order2 ≡ₚ seq 0 (length factories) ->
  all_settle factories st ->
  let r1 := Registry.exportToolsAndSetMetadata numbers (FactoryArray core)
              (FactoryArray all) order1 st in
  let r2 := Registry.exportToolsAndSetMetadata numbers (FactoryArray core)
              (FactoryArray all) order2 st in
  r1.1 = r2.1
  /\ tool_list (tools (this r1.2)) ≡ₚ tool_list (tools (this r2.2))
  /\ heap r1.2 = heap r2.2.
Proof.
  intros factories H1 H2 Hsettle r1 r2. subst r1 r2 factories.
  rewrite !exportToolsAndSetMetadata_settles by assumption.
  cbn [fst snd]. split; [reflexivity|]. split; [|reflexivity].
  unfold state_after_run. cbn [this tools with_toolMetadata with_tools].
  rewrite !tool_list_append_loaded.
  apply Permutation_app_head. unfold loaded_by_run.
  apply Permutation_flat_map. now rewrite H1, H2.
Qed.

Lemma settlement_order_permutes_tools_witness :
  tool_list (tools (this
    (Registry.exportToolsAndSetMetadata [0%Z; 1%Z] (FactoryArray [])
       (FactoryArray [factory_X1; factory_X2]) [0; 1] array_st).2)) ≡ₚ
  tool_list (tools (this
    (Registry.exportToolsAndSetMetadata [0%Z; 1%Z] (FactoryArray [])
       (FactoryArray [factory_X1; factory_X2]) [1; 0] array_st).2)).
Proof.
  refine (proj1 (proj2 (settlement_order_permutes_tools [0%Z; 1%Z] []
            [factory_X1; factory_X2] [0; 1] [1; 0] array_st _ _ _))).
  - vm_compute. reflexivity.
  - vm_compute. apply perm_swap.
  - vm_compute. repeat constructor; discriminate.
Defined.

Lemma fold_settle_no_promise (settlements : list (Outcome ToolItem))
    (idxs : list nat) (md : list string) (st : St) :
  fold_left (Registry.settle settlements) idxs (Registry.mkLoading [] md st) =
  Registry.mkLoading [] md st.
Proof.
  induction idxs as [|i idxs IH]; cbn [fold_left]; [reflexivity|].
  exact IH.
Qed.

(** X6.  With nothing to load (no core factory and no selected registry
    entry) the call returns the empty array under every schedule, stores
    the empty string in [toolMetadata] whatever it held, leaves the tool
    collection and the [params] objects alone, and logs that no tool was
    loaded exactly when the collection is an empty array. *)
Theorem export_with_nothing_to_load
    (numbers : list Z) (core all : list Factory) (settling : list nat) (st : St) :
  Registry.effective_factories numbers core all = [] ->
  Registry.exportToolsAndSetMetadata numbers (FactoryArray core)
    (FactoryArray all) settling st =
  (Returned [],
   mkSt (with_toolMetadata "" (this st)) (heap st)
     (console st ++
      if length_is_zero (tools (this st))
      then [ConsoleError "No tools were loaded successfully" NoPayload]
      else [])).
Proof.
  intros Hnone. unfold Registry.exportToolsAndSetMetadata. rewrite Hnone.
  cbv zeta. cbn [map]. rewrite fold_settle_no_promise.
  cbn [Registry.toolPromises Registry.pending_metadata Registry.loading_st].
  change (Registry.Promise_allSettled [])
    with (Some (@nil Registry.SettledResult)).
  cbv beta iota. rewrite finish_fulfilled by (intros r []). reflexivity.
Qed.

Lemma export_with_nothing_to_load_witness :
  Registry.exportToolsAndSetMetadata [5%Z] (FactoryArray [])
    (FactoryArray [factory_X1]) [0; 3]
    (set_this (with_toolMetadata "stale") loaded_object_st) =
  (Returned [],
   mkSt (with_toolMetadata "" (this loaded_object_st)) (heap loaded_object_st)
     (console loaded_object_st)).
Proof.
  rewrite (export_with_nothing_to_load [5%Z] [] [factory_X1] [0; 3]
             (set_this (with_toolMetadata "stale") loaded_object_st) eq_refl).
  vm_compute. reflexivity.
Defined.

(** * Further properties of the agents *)

(** ** Statements that only log *)

Lemma only_logs_ret {A : Type} (v : A) : only_logs (ret v).
Proof. intros st. cbn. repeat split. exists []. now rewrite app_nil_r. Qed.

Lemma only_logs_throw {A : Type} (e : JSError) : only_logs (@throw A e).
Proof. intros st. cbn. repeat split. exists []. now rewrite app_nil_r. Qed.

Lemma only_logs_await {A : Type} (o : Outcome A) : only_logs (await o).
Proof. intros st. cbn. repeat split. exists []. now rewrite app_nil_r. Qed.

Lemma only_logs_console_log (text : string) : only_logs (console_log text).
Proof. intros st. cbn. repeat split. now eexists. Qed.

Lemma only_logs_console_error (text : string) (payload : LogPayload) :
  only_logs (console_error text payload).
Proof. intros st. cbn. repeat split. now eexists. Qed.

Lemma only_logs_get_this : only_logs get_this.
Proof. intros st. cbn. repeat split. exists []. now rewrite app_nil_r. Qed.

Lemma only_logs_this_params : only_logs this_params.
Proof.
  intros st. unfold this_params.
  destruct (params (this st)); [|destruct (heap st !! a)];
    cbn; repeat split; exists []; now rewrite app_nil_r.
Qed.

Lemma only_logs_bind {A B : Type} (m : M A) (k : A -> M B) :
  only_logs m -> (forall v, only_logs (k v)) -> only_logs (bind m k).
Proof.
  intros Hm Hk st. unfold bind.
  destruct (Hm st) as (Ht & Hh & entries & Hc).
  destruct (m st) as [[v|e|] st']; cbn [snd] in *.
  - destruct (Hk v st') as (Ht' & Hh' & entries' & Hc').
    split; [congruence|]. split; [congruence|].
    exists (entries ++ entries'). rewrite Hc', Hc. now rewrite app_assoc.
  - split; [assumption|]. split; [assumption|]. now exists entries.
  - split; [assumption|]. split; [assumption|]. now exists entries.
Qed.

Lemma only_logs_try_catch {A : Type} (m : M A) (h : JSError -> M A) :
  only_logs m -> (forall e, only_logs (h e)) -> only_logs (try_catch m h).
Proof.
  intros Hm Hh st. unfold try_catch.
  destruct (Hm st) as (Ht & Hh' & entries & Hc).
  destruct (m st) as [[v|e|] st']; cbn [snd] in *.
  - split; [assumption|]. split; [assumption|]. now exists entries.
  - destruct (Hh e st') as (Ht' & Hh'' & entries' & Hc').
    split; [congruence|]. split; [congruence|].
    exists (entries ++ entries'). rewrite Hc', Hc. now rewrite app_assoc.
  - split; [assumption|]. split; [assumption|]. now exists entries.
Qed.

Create HintDb logs.

#[local] Hint Resolve only_logs_ret only_logs_throw only_logs_await
  only_logs_console_log only_logs_console_error only_logs_get_this
  only_logs_this_params only_logs_bind only_logs_try_catch : logs.

Lemma only_logs_invoke_model (P : Platform) (messages : list Message) :
  only_logs (invoke_model P messages).
Proof.
  unfold invoke_model. apply only_logs_bind; [auto with logs|].
  intros a. destruct (model a); auto with logs.
Qed.

Lemma only_logs_parse (P : Platform) (text : string) : only_logs (parse P text).
Proof. unfold parse. destruct (JSON_parse P text); auto with logs. Qed.

Lemma only_logs_map_tool_names (toolNames : JSON) :
  only_logs (map_tool_names toolNames).
Proof. destruct toolNames; cbn [map_tool_names]; auto with logs. Qed.

#[local] Hint Resolve only_logs_invoke_model only_logs_parse
  only_logs_map_tool_names : logs.

Lemma only_logs_orchestrate (P : Platform) (msg : string) :
  only_logs (InjectedModelAgent.orchestrate P msg).
Proof. unfold InjectedModelAgent.orchestrate. auto 10 with logs. Qed.

Lemma only_logs_env_orchestrate (P : Platform) (msg : string) :
  only_logs (EnvKeyAgent.orchestrate P msg).
Proof.
  unfold EnvKeyAgent.orchestrate.
  apply only_logs_try_catch; [|auto with logs].
  do 5 (apply only_logs_bind; [auto with logs|]; intros ?).
  apply only_logs_bind; [auto with logs|]. intros a'.
  destruct (createReactAgent P _); auto with logs.
Qed.

Lemma only_logs_messageAgent (P : Platform) (msg : string) :
  only_logs (InjectedModelAgent.messageAgent P msg).
Proof.
  unfold InjectedModelAgent.messageAgent.
  apply only_logs_try_catch; [|auto with logs].
  apply only_logs_bind; [apply only_logs_orchestrate|]. intros tools_.
  apply only_logs_bind; [auto with logs|]. intros a.
  destruct (createReactAgent P _); auto with logs.
Qed.

Lemma only_logs_env_messageAgent (P : Platform) (msg : string) :
  only_logs (EnvKeyAgent.messageAgent P msg).
Proof.
  unfold EnvKeyAgent.messageAgent.
  apply only_logs_try_catch; [|auto with logs].
  apply only_logs_bind; [apply only_logs_env_orchestrate|]. intros [ex|];
    [|auto with logs].
  apply only_logs_bind.
  - apply only_logs_try_catch; [|auto with logs].
    apply only_logs_bind; [auto with logs|]. intros a.
    apply only_logs_bind; [destruct (checkPointSaver a); auto with logs|].
    intros [|]; auto with logs.
  - intros [messages|]; [|auto with logs].
    destruct (last messages); auto with logs.
Qed.

(** X7.  Answering a message never changes the agent or the [params]
    objects: in both classes [orchestrate] and [messageAgent] leave every
    member of the agent (its tool collection, prompt, saver, model) and
    every [params] object as they were, whatever the model, the parser and
    the executor do; the only trace they leave is on the console. *)
Theorem answering_only_logs (P : Platform) (msg : string) :
  only_logs (InjectedModelAgent.orchestrate P msg)
  /\ only_logs (InjectedModelAgent.messageAgent P msg)
  /\ only_logs (EnvKeyAgent.orchestrate P msg)
  /\ only_logs (EnvKeyAgent.messageAgent P msg).
Proof.
  split; [apply only_logs_orchestrate|].
  split; [apply only_logs_messageAgent|].
  split; [apply only_logs_env_orchestrate | apply only_logs_env_messageAgent].
Qed.

(** ** What [orchestrate] and [messageAgent] can return *)

(** X8.  [orchestrate] of the model-receiving class returns a non-empty
    list only when the agent has a model and a [params] object, the model
    replied, and the reply parsed as a JSON array; the list is then the
    element-wise lookup of that array in the tool collection.  In every
    other case that returns (no model, no [params], a rejected model call,
    an unparseable reply, a reply that is not an array) the result is
    [[]]. *)
Theorem orchestrate_returns_only_named_tools (P : Platform) (msg : string)
    (st : St) (result : list JSValue) :
  (InjectedModelAgent.orchestrate P msg st).1 = Returned result ->
  result <> [] ->
  exists m a p content names,
    model (this st) = Some m
    /\ params (this st) = RefObject a
    /\ heap st !! a = Some p
    /\ model_invoke P m
         [SystemMessage
            (Some (InjectedModelAgent.orchestrationPrompt p (tools (this st))));
          HumanMessage msg] = Returned content
    /\ JSON_parse P content = inr (JArray names)
    /\ result = map (fun name => tools_get (tools (this st)) (ToString name)) names.
Proof.
  unfold InjectedModelAgent.orchestrate, try_catch, bind, this_params, get_this,
    invoke_model, parse, map_tool_names, await, throw, ret, console_error.
  destruct (params (this st)) as [|a] eqn:Hparams; cbn;
    [intros [= <-] Hne; now contradiction Hne|].
  destruct (heap st !! a) as [p|] eqn:Hheap; cbn;
    [|intros [= <-] Hne; now contradiction Hne].
  destruct (model (this st)) as [m|] eqn:Hmodel; cbn;
    [|intros [= <-] Hne; now contradiction Hne].
  destruct (model_invoke P m _) as [content|e|] eqn:Hreply; cbn;
    [|intros [= <-] Hne; now contradiction Hne|discriminate].
  destruct (JSON_parse P content) as [e|v] eqn:Hparse; cbn;
    [intros [= <-] Hne; now contradiction Hne|].
  destruct v as [|b|repr|s|names|members]; cbn;
    try (intros [= <-] Hne; now contradiction Hne).
  intros [= <-] _. exists m, a, p, content, names. repeat split; assumption.
Qed.

Lemma orchestrate_returns_only_named_tools_witness :
  exists names,
    JSON_parse (platform_replying naming_reply) naming_reply = inr (JArray names)
    /\ length names = 3.
Proof.
  destruct (orchestrate_returns_only_named_tools (platform_replying naming_reply)
              "swap my coins" loaded_object_st
              [ToolValue tool_X1; undefined; undefined])
    as (m & a & p & content & names & _ & _ & _ & Hreply & Hparse & Hres).
  - vm_compute. reflexivity.
  - discriminate.
  - injection Hreply as <-. exists names. split; [exact Hparse|].
    apply (f_equal (@length _)) in Hres. rewrite length_map in Hres.
    symmetry. exact Hres.
Defined.

(** X9.  [messageAgent] of the model-receiving class never throws.  It
    returns an executor that [createReactAgent] built from the model, the
    checkpoint saver and the system prompt the agent holds, or else, as
    its return value, the error [createReactAgent] threw; no other error
    can come back, because [orchestrate] has caught its own. *)
Theorem messageAgent_returns_executor_or_error (P : Platform) (msg : string)
    (st : St) :
  let r := (InjectedModelAgent.messageAgent P msg st).1 in
  let built tools_ :=
    createReactAgent P
      (mkReactAgentParams (model (this st)) tools_ (checkPointSaver (this st))
         (systemPrompt (this st))) in
  (forall e, r <> Threw e)
  /\ (forall e, r = Returned (InjectedModelAgent.ErrorObject e) ->
        exists tools_, built tools_ = inl e)
  /\ (forall ex, r = Returned (InjectedModelAgent.Executor ex) ->
        exists tools_, built tools_ = inr ex).
Proof.
  intros r built. subst r built.
  unfold InjectedModelAgent.messageAgent, try_catch, bind, get_this, ret, throw,
    console_error.
  pose proof (orchestrate_never_throws P msg st) as Hnever.
  destruct (only_logs_orchestrate P msg st) as (Hthis & _).
  destruct (InjectedModelAgent.orchestrate P msg st) as [[tools_|e|] st'];
    cbn [fst snd] in *.
  - rewrite Hthis.
    destruct (createReactAgent P _) as [e|ex] eqn:Hbuilt; cbn;
      (split; [discriminate|]); split; intros x [= <-]; now exists tools_.
  - now contradiction (Hnever e).
  - split; [discriminate|]. split; discriminate.
Qed.

(** X10.  [messageAgent] of the class configured from the environment
    returns a text only on a thread without a checkpoint: the agent holds a
    checkpoint saver, the saver reports no checkpoint for the configured
    thread, and the executor [orchestrate] built, invoked with the system
    prompt and the message, produced the messages whose last content is
    returned.  Once a checkpoint exists, or without a saver, the call
    returns no text. *)
Theorem env_messageAgent_answers_only_fresh_threads (P : Platform)
    (msg : string) (st : St) (content : string) :
  (EnvKeyAgent.messageAgent P msg st).1 = Returned (Some content) ->
  exists ex saver messages,
    (EnvKeyAgent.orchestrate P msg st).1 = Returned (EnvKeyAgent.Agent_ ex)
    /\ checkPointSaver (this st) = Some saver
    /\ checkPointSaver_get P saver (config (this st)) = Returned false
    /\ agent_invoke P ex [SystemMessage (systemPrompt (this st)); HumanMessage msg]
       = Returned messages
    /\ last messages = Some content.
Proof.
  unfold EnvKeyAgent.messageAgent, try_catch, bind, get_this, ret, throw,
    console_error, await.
  destruct (only_logs_env_orchestrate P msg st) as (Hthis & _).
  destruct (EnvKeyAgent.orchestrate P msg st) as [[[ex|]|e|] st'];
    cbn [fst snd] in *; try discriminate.
  rewrite Hthis.
  destruct (checkPointSaver (this st)) as [saver|]; cbn; [|discriminate].
  destruct (checkPointSaver_get P saver (config (this st))) as [[|]|e|] eqn:Hget;
    cbn; try discriminate.
  destruct (agent_invoke P ex _) as [messages|e|] eqn:Hinvoke; cbn;
    try discriminate.
  destruct (last messages) as [c|] eqn:Hlast; cbn; [|discriminate].
  intros [= <-]. exists ex, saver, messages. repeat split; assumption.
Qed.

Lemma env_messageAgent_answers_only_fresh_threads_witness :
  checkPointSaver_get (platform_replying naming_reply) MemorySaver (Some "thread-1")
    = Returned false.
Proof.
  destruct (env_messageAgent_answers_only_fresh_threads
              (platform_replying naming_reply) "swap my coins"
              (set_this (with_checkPointSaver MemorySaver) loaded_object_st) "ok")
    as (ex & saver & messages & _ & Hsaver & Hget & _).
  - vm_compute. reflexivity.
  - injection Hsaver as <-. exact Hget.
Defined.

(** ** [initialize] when nothing fails *)

Section InitializeSucceeds.

Variable P : Platform.
Variables (numbers : list Z) (core all : list Factory) (cp : CheckPointer).
Variables (settling : list nat) (st : St) (a : addr) (p : Params).

Let args := mkInitializeArgs numbers (FactoryArray core) (FactoryArray all)
              cp settling.
Let loaded := state_after_run numbers core all settling st.

Hypothesis Hperm :
  settling ≡ₚ seq 0 (length (Registry.effective_factories numbers core all)).
Hypothesis Hsettle :
  all_settle (Registry.effective_factories numbers core all) st.
Hypothesis Hparams : params (this st) = RefObject a.
Hypothesis Hheap : heap st !! a = Some p.
Hypothesis Hmongo :
  cp = mongo -> MongoClient_new P = None /\ MongoClient_connect P = Returned tt.

Let saver := match cp with local => MemorySaver | mongo => MongoDBSaver end.
Let client := match cp with local => mongoClient (this st) | mongo => true end.

Lemma initialize_succeeds :
  InjectedModelAgent.initialize P args st =
  (Returned tt,
   mkSt
     (mkAgent (tools (this loaded)) (threadId (this st))
        (toolMetadata (this loaded)) (model (this st))
        (Some (InjectedModelAgent.systemPrompt_text p (Date_toISOString P)
                 (toolMetadata (this loaded))))
        client (Some saver) (config (this st)) (agent (this st))
        (params (this st)) (runtimeParams (this st)))
     (heap st)
     (console loaded ++ [ConsoleLog "Agent initialized successfully"])).
Proof.
  subst args loaded saver client.
  unfold InjectedModelAgent.initialize, load_tools, select_checkPointSaver,
    try_catch, bind, ret.
  cbn [toolNumbers clients allRegistry order checkPointer].
  rewrite exportToolsAndSetMetadata_settles by assumption.
  unfold this_params, state_after_run.
  cbn [this heap params with_toolMetadata with_tools].
  rewrite Hparams, Hheap. cbn.
  destruct cp; cbn; [rewrite <- Hparams; reflexivity|].
  destruct Hmongo as [Hnew Hconnect]; [reflexivity|].
  rewrite Hnew. cbn. rewrite Hconnect. cbn. rewrite <- Hparams. reflexivity.
Qed.

Lemma env_initialize_succeeds :
  EnvKeyAgent.initialize P args st =
  (Returned (Some (EnvKeyAgent.orchestrate P "Fetch price of apples in russia")),
   mkSt
     (mkAgent (tools (this loaded)) (threadId (this st))
        (toolMetadata (this loaded)) (model (this st))
        (Some (EnvKeyAgent.systemPrompt_text p (Date_toISOString P)
                 (toolMetadata (this loaded))))
        client (Some saver) (config (this st)) (Some "")
        (params (this st)) (runtimeParams (this st)))
     (heap st)
     (console loaded ++ [ConsoleLog "Agent initialized successfully"])).
Proof.
  subst args loaded saver client.
  unfold EnvKeyAgent.initialize, load_tools, select_checkPointSaver,
    try_catch, bind, ret.
  cbn [toolNumbers clients allRegistry order checkPointer].
  rewrite exportToolsAndSetMetadata_settles by assumption.
  unfold this_params, state_after_run.
  cbn [this heap params with_toolMetadata with_tools].
  rewrite Hparams, Hheap. cbn.
  destruct cp; cbn; [rewrite <- Hparams; reflexivity|].
  destruct Hmongo as [Hnew Hconnect]; [reflexivity|].
  rewrite Hnew. cbn. rewrite Hconnect. cbn. rewrite <- Hparams. reflexivity.
Qed.

End InitializeSucceeds.

(** X11.  When every factory settles, the agent has its [params] object
    and, for the [mongo] checkpointer, the connection succeeds, [initialize]
    of either class returns with exactly these effects: the tools and the
    metadata of the run are stored, the system prompt is built from the
    [params] of that moment and the metadata just stored, the checkpoint
    saver is the one asked for (a client is recorded only for [mongo]),
    the [params] objects are untouched and the last console line reports
    success.  The model, the thread and the configuration are unchanged.
    The environment-configured class also stores the empty string in
    [agent] and starts one orchestration that it does not await. *)
Theorem initialize_postcondition (P : Platform)
    (numbers : list Z) (core all : list Factory) (cp : CheckPointer)
    (settling : list nat) (st : St) (a : addr) (p : Params) :
  settling ≡ₚ seq 0 (length (Registry.effective_factories numbers core all)) ->
  all_settle (Registry.effective_factories numbers core all) st ->
  params (this st) = RefObject a ->
  heap st !! a = Some p ->
  (cp = mongo ->
   MongoClient_new P = None /\ MongoClient_connect P = Returned tt) ->
  let args := mkInitializeArgs numbers (FactoryArray core) (FactoryArray all)
                cp settling in
  let loaded := state_after_run numbers core all settling st in
  let after (prompt : string) (agent_ : option string) :=
    mkSt
      (mkAgent (tools (this loaded)) (threadId (this st))
         (toolMetadata (this loaded)) (model (this st)) (Some prompt)
         (match cp with local => mongoClient (this st) | mongo => true end)
         (Some (match cp with local => MemorySaver | mongo => MongoDBSaver end))
         (config (this st)) agent_ (params (this st)) (runtimeParams (this st)))
      (heap st)
      (console loaded ++ [ConsoleLog "Agent initialized successfully"]) in
  InjectedModelAgent.initialize P args st =
    (Returned tt,
     after (InjectedModelAgent.systemPrompt_text p (Date_toISOString P)
              (toolMetadata (this loaded)))
           (agent (this st)))
  /\ EnvKeyAgent.initialize P args st =
       (Returned
          (Some (EnvKeyAgent.orchestrate P "Fetch price of apples in russia")),
        after (EnvKeyAgent.systemPrompt_text p (Date_toISOString P)
                 (toolMetadata (this loaded)))
              (Some "")).
Proof.
  intros Hperm Hsettle Hparams Hheap Hmongo args loaded after.
  split.
  - exact (initialize_succeeds P numbers core all cp settling st a p
             Hperm Hsettle Hparams Hheap Hmongo).
  - exact (env_initialize_succeeds P numbers core all cp settling st a p
             Hperm Hsettle Hparams Hheap Hmongo).
Qed.

Lemma initialize_postcondition_witness :
  let P := platform_replying "[]" in
  let r := InjectedModelAgent.initialize P
             (mkInitializeArgs [0%Z] (FactoryArray []) (FactoryArray [factory_X1])
                local [0]) array_st in
  r.1 = Returned tt
  /\ checkPointSaver (this r.2) = Some MemorySaver
  /\ tools (this r.2) = ToolsArray [tool_X1].
Proof.
  intros P r. subst r.
  rewrite (proj1 (initialize_postcondition P [0%Z] [] [factory_X1] local [0]
                    array_st 0 (mkParams "Bot" "Answer briefly" (Some []))
                    ltac:(vm_compute; reflexivity)
                    ltac:(vm_compute; repeat constructor; discriminate)
                    eq_refl
                    ltac:(vm_compute; reflexivity)
                    ltac:(discriminate))).
  cbn [fst snd this checkPointSaver tools]. repeat split.
Defined.

(** * Properties of [createTool] *)

Lemma filter_from_map {A B : Type} (f : A -> B) (p : nat -> bool) (k : nat)
    (l : list A) :
  Registry.filter_from (fun _ idx => p idx) k (map f l) =
  map f (Registry.filter_from (fun _ idx => p idx) k l).
Proof.
  revert k. induction l as [|x l IH]; intros k; simpl; [reflexivity|].
  destruct (p k); simpl; now rewrite IH.
Qed.

Lemma effective_factories_map {A B : Type} (f : A -> B) (S : list Z)
    (core all : list A) :
  Registry.effective_factories S (map f core) (map f all) =
  map f (Registry.effective_factories S core all).
Proof.
  unfold Registry.effective_factories, Registry.filteredToolBunches,
    Registry.Array_filter.
  now rewrite filter_from_map, map_app.
Qed.

Lemma flat_map_ext_seq {C : Type} (f g : nat -> list C) (k n : nat) :
  (forall i, k <= i < k + n -> f i = g i) ->
  flat_map f (seq k n) = flat_map g (seq k n).
Proof.
  revert k. induction n as [|n IH]; intros k Hfg; simpl; [reflexivity|].
  rewrite Hfg by lia. f_equal. apply IH. intros i Hi. apply Hfg. lia.
Qed.

(** Walking a list by its indices is walking the list. *)
Lemma flat_map_lookup_seq {B C : Type} (f : B -> list C) (l : list B) :
  flat_map (fun i => match l !! i with
                     | Some x => f x
                     | None => []
                     end) (seq 0 (length l)) =
  flat_map f l.
Proof.
  induction l as [|x l IH] using rev_ind; [reflexivity|].
  rewrite length_app, Nat.add_comm. cbn [length Nat.add].
  rewrite seq_S, !flat_map_app. cbn [flat_map Nat.add].
  rewrite list_lookup_middle by reflexivity. f_equal.
  rewrite <- IH. apply flat_map_ext_seq. intros i Hi.
  now rewrite lookup_app_l by lia.
Qed.

Section CreatedRegistry.

Variables (numbers : list Z).
Variables (core all : list (SchemaDefinition * Implementation)).
Variable st : St.

Let selected := Registry.effective_factories numbers core all.
Let run :=
  Registry.exportToolsAndSetMetadata numbers
    (FactoryArray (created_registry core)) (FactoryArray (created_registry all))
    (seq 0 (length selected)) st.

Lemma created_registry_effective :
  Registry.effective_factories numbers (created_registry core)
    (created_registry all) = created_registry selected.
Proof. apply effective_factories_map. Qed.

Lemma created_registry_settles :
  run =
  (Returned (outcome_list numbers (created_registry core) (created_registry all) st),
   state_after_run numbers (created_registry core) (created_registry all)
     (seq 0 (length selected)) st).
Proof.
  subst run. apply exportToolsAndSetMetadata_settles.
  - rewrite created_registry_effective. unfold created_registry.
    now rewrite length_map.
  - rewrite created_registry_effective. unfold all_settle, created_registry.
    apply Forall_forall. intros item Hin.
    apply list_elem_of_fmap in Hin as (entry & -> & _). discriminate.
Qed.

(** The run over a created registry, entry by entry. *)
Lemma created_registry_by_entry {C : Type}
    (f : ToolsField -> Outcome ToolItem -> list C) :
  flat_map
    (fun i =>
       match Registry.effective_factories numbers (created_registry core)
               (created_registry all) !! i with
       | Some item => f (tools (this st)) (item st)
       | None => []
       end) (seq 0 (length selected)) =
  flat_map
    (fun entry => f (tools (this st)) (Returned (created_item entry.1 entry.2)))
    selected.
Proof.
  rewrite created_registry_effective.
  transitivity
    (flat_map (fun item : Factory => f (tools (this st)) (item st))
       (created_registry selected)).
  - rewrite <- (flat_map_lookup_seq
                  (fun item : Factory => f (tools (this st)) (item st))
                  (created_registry selected)).
    unfold created_registry at 3. now rewrite length_map.
  - unfold created_registry. induction selected as [|entry l IH];
      [reflexivity|]. cbn [map flat_map]. now rewrite IH.
Qed.

Lemma created_registry_on_array (elems : list toolType) :
  tools (this st) = ToolsArray elems ->
  run.1 = Returned (map (fun entry =>
                           Registry.Fulfilled (Some (created_item entry.1 entry.2)))
                      selected)
  /\ tools (this run.2) =
       ToolsArray (elems ++ map (fun entry => created_tool entry.1 entry.2) selected)
  /\ toolMetadata (this run.2) =
       join (nl +:+ nl)
         (flat_map (fun entry =>
                      map Registry.metadata_entry
                        (Object_values (item_schema (created_item entry.1 entry.2))))
            selected).
Proof.
  intros Ht. rewrite created_registry_settles. cbn [fst snd].
  split; [|split].
  - unfold outcome_list. rewrite created_registry_effective.
    unfold created_registry. rewrite map_map, Ht. reflexivity.
  - unfold state_after_run, loaded_by_run.
    cbn [this tools with_toolMetadata with_tools].
    rewrite (created_registry_by_entry loaded_tools), Ht.
    cbn [append_tools]. do 2 f_equal.
  - unfold state_after_run, metadata_by_run.
    cbn [this toolMetadata with_toolMetadata].
    rewrite (created_registry_by_entry loaded_metadata), Ht. reflexivity.
Qed.

Lemma created_registry_on_object (props : list (string * toolType)) :
  tools (this st) = ToolsObject props ->
  run.1 = Returned (map (fun _ => Registry.Fulfilled None) selected)
  /\ tools (this run.2) = ToolsObject props
  /\ toolMetadata (this run.2) = "".
Proof.
  intros Ht. rewrite created_registry_settles. cbn [fst snd].
  split; [|split].
  - unfold outcome_list. rewrite created_registry_effective.
    unfold created_registry. rewrite map_map, Ht. reflexivity.
  - unfold state_after_run. cbn [this tools with_toolMetadata with_tools].
    now rewrite Ht.
  - unfold state_after_run, metadata_by_run.
    cbn [this toolMetadata with_toolMetadata].
    rewrite (created_registry_by_entry loaded_metadata), Ht.
    rewrite flat_map_nil; [reflexivity|]. intros entry.
    unfold loaded_metadata. now rewrite wrapper_value_object.
Qed.

End CreatedRegistry.

Lemma construct_from_env_returns (empty : ToolsField) (env : Env)
    (providers : ModelProviders) (threadId_ : string) (params_ : Ref)
    (out out' : list LogEntry) (agent_ : Agent) :
  construct_from_env empty env providers threadId_ params_ out =
    (Returned agent_, out') ->
  exists m,
    agent_ = mkAgent empty threadId_ "" (Some m) None false None (Some threadId_)
               None params_ [].
Proof.
  unfold construct_from_env.
  destruct (truthy (ANTHROPIC_API_KEY env)).
  - destruct (ChatAnthropic_new providers _) as [e|m]; [discriminate|].
    intros [= <- _]. now exists m.
  - destruct (truthy (GEMINI_API_KEY env)); [|discriminate].
    destruct (ChatGoogleGenerativeAI_new providers _) as [e|m]; [discriminate|].
    intros [= <- _]. now exists m.
Qed.

(** X12.  A registry written with [createTool] and given to
    [exportToolsAndSetMetadata] right after construction.  On an agent of
    the class that declares [tools: any[]] every selected entry is loaded:
    the outcome list holds its tool item, the collection holds the created
    tools in the order of the effective list, and the metadata has their
    schema entries.  On an agent of the environment-configured class with
    [orchestrate], whose collection is the object [{}], the same registry
    loads nothing: every outcome is [null], the collection is still [{}]
    and the metadata is the empty string. *)
Theorem created_registry_on_new_agents (env : Env) (providers : ModelProviders)
    (threadId_ : string) (params_ : Ref) (out out' : list LogEntry)
    (h : gmap addr Params) (numbers : list Z)
    (core all : list (SchemaDefinition * Implementation)) :
  let selected := Registry.effective_factories numbers core all in
  let run agent_ :=
    Registry.exportToolsAndSetMetadata numbers
      (FactoryArray (created_registry core)) (FactoryArray (created_registry all))
      (seq 0 (length selected)) (mkSt agent_ h out') in
  (forall agent_,
     ArrayToolsAgent.constructor env providers threadId_ params_ out =
       (Returned agent_, out') ->
     (run agent_).1 =
       Returned (map (fun entry =>
                        Registry.Fulfilled (Some (created_item entry.1 entry.2)))
                   selected)
     /\ tools (this (run agent_).2) =
          ToolsArray (map (fun entry => created_tool entry.1 entry.2) selected)
     /\ toolMetadata (this (run agent_).2) =
          join (nl +:+ nl)
            (flat_map (fun entry =>
                         map Registry.metadata_entry
                           (Object_values
                              (item_schema (created_item entry.1 entry.2))))
               selected))
  /\ (forall agent_,
        EnvKeyAgent.constructor env providers threadId_ params_ out =
          (Returned agent_, out') ->
        (run agent_).1 = Returned (map (fun _ => Registry.Fulfilled None) selected)
        /\ tools (this (run agent_).2) = ToolsObject []
        /\ toolMetadata (this (run agent_).2) = "").
Proof.
  intros selected run. split; intros agent_ Hnew;
    apply construct_from_env_returns in Hnew as [m ->]; subst run selected.
  - apply (created_registry_on_array numbers core all _ []). reflexivity.
  - apply (created_registry_on_object numbers core all _ []). reflexivity.
Qed.

Lemma created_registry_on_new_agents_witness :
  let entry :=
    (mkSchemaDefinition "getPrice" "Fetches a price" None,
     mkImplementation 1 (fun _ st => (Completed (JString "42"), st))) in
  tools (this
    (Registry.exportToolsAndSetMetadata [] (FactoryArray (created_registry [entry]))
       (FactoryArray (created_registry [])) [0]
       (mkSt (mkAgent (ToolsArray []) "thread-1" "" (Some 7) None false None
                (Some "thread-1") None RefUndefined [])
             ∅ [ConsoleLog "Model Initilaized"])).2) =
  ToolsArray [mkTool "getPrice" "Fetches a price" 1].
Proof.
  intros entry.
  exact (proj1 (proj2 (proj1
    (created_registry_on_new_agents
       (mkEnv (Some "key") None)
       (mkModelProviders (fun _ => inr 7) (fun _ => inl (Error "unused")))
       "thread-1" RefUndefined [] [ConsoleLog "Model Initilaized"] ∅ []
       [entry] [])
    _ eq_refl))).
Defined.



(** * Further properties of [initialize] and of the constructors *)

Lemma env_messageAgent_some (P : Platform) (msg : string) (st : St)
    (content : string) :
  (EnvKeyAgent.messageAgent P msg st).1 = Returned (Some content) ->
  exists saver, checkPointSaver (this st) = Some saver.
Proof.
  unfold EnvKeyAgent.messageAgent, try_catch, bind, get_this, ret, throw,
    console_error, await.
  destruct (only_logs_env_orchestrate P msg st) as (Hthis & _).
  destruct (EnvKeyAgent.orchestrate P msg st) as [[[ex|]|e|] st'];
    cbn [fst snd] in *; try discriminate.
  rewrite Hthis.
  destruct (checkPointSaver (this st)) as [saver|]; cbn; [|discriminate].
  intros _. now exists saver.
Qed.

(** X14.  [initialize] with a registry argument that is not an array (one
    of [clients] and [allRegistry], or both) still reports success: the
    resolver logs the [TypeError] and returns, and [initialize] goes on to
    build the prompt from the metadata the agent already had, to install
    the saver and to log the success line.  The tool collection and
    [toolMetadata] are left as they were. *)
Theorem initialize_accepts_invalid_registry (P : Platform)
    (numbers : list Z) (clients_ allRegistry_ : AnyRegistry)
    (settling : list nat) (st : St) (a : addr) (p : Params) :
  clients_ = NotAnArray \/ allRegistry_ = NotAnArray ->
  params (this st) = RefObject a ->
  heap st !! a = Some p ->
  let args := mkInitializeArgs numbers clients_ allRegistry_ local settling in
  exists text,
    InjectedModelAgent.initialize P args st =
    (Returned tt,
     mkSt
       (with_checkPointSaver MemorySaver
          (with_systemPrompt
             (InjectedModelAgent.systemPrompt_text p (Date_toISOString P)
                (toolMetadata (this st)))
             (this st)))
       (heap st)
       (console st ++
        [ConsoleError "Error in exportToolsAndSetMetadata:"
           (ErrorPayload (TypeError text));
         ConsoleLog "Agent initialized successfully"])).
Proof.
  intros Hinvalid Hparams Hheap args. subst args.
  unfold InjectedModelAgent.initialize, load_tools, select_checkPointSaver,
    try_catch, bind, ret.
  cbn [toolNumbers clients allRegistry order checkPointer].
  assert (Hexp : exists text,
            Registry.exportToolsAndSetMetadata numbers clients_ allRegistry_
              settling st =
            (Returned [],
             write [ConsoleError "Error in exportToolsAndSetMetadata:"
                      (ErrorPayload (TypeError text))] st)).
  { destruct allRegistry_ as [|all]; [destruct clients_; now eexists|].
    destruct Hinvalid as [->|[=]]. now eexists. }
  destruct Hexp as [text ->]. exists text.
  unfold this_params. cbn [this heap params write].
  rewrite Hparams, Hheap. cbn.
  unfold write, set_this. cbn. now rewrite <- app_assoc.
Qed.

Lemma initialize_accepts_invalid_registry_witness :
  (InjectedModelAgent.initialize (platform_replying "[]")
     (mkInitializeArgs [0%Z] NotAnArray (FactoryArray [factory_X1]) local [0])
     array_st).1 = Returned tt.
Proof.
  destruct (initialize_accepts_invalid_registry (platform_replying "[]") [0%Z]
              NotAnArray (FactoryArray [factory_X1]) [0] array_st 0
              (mkParams "Bot" "Answer briefly" (Some [])))
    as [text ->].
  - left. reflexivity.
  - reflexivity.
  - vm_compute. reflexivity.
  - reflexivity.
Defined.

(** X15.  The constructor of the environment-configured class stores
    [params] unchecked, so an agent can be built without any.  On such an
    agent [initialize] loads the tools, then fails on the first read of
    [params]: its handler logs the [TypeError] and the call returns with no
    system prompt and no checkpoint saver installed.  No later
    [messageAgent] on that agent returns a text. *)
Theorem env_agent_without_params_never_answers (P : Platform) (env : Env)
    (providers : ModelProviders) (threadId_ : string) (out out' : list LogEntry)
    (agent_ : Agent) (h : gmap addr Params)
    (numbers : list Z) (core all : list Factory) (cp : CheckPointer)
    (settling : list nat) :
  EnvKeyAgent.constructor env providers threadId_ RefUndefined out =
    (Returned agent_, out') ->
  settling ≡ₚ seq 0 (length (Registry.effective_factories numbers core all)) ->
  all_settle (Registry.effective_factories numbers core all) (mkSt agent_ h out') ->
  let r := EnvKeyAgent.initialize P
             (mkInitializeArgs numbers (FactoryArray core) (FactoryArray all)
                cp settling)
             (mkSt agent_ h out') in
  r.1 = Returned None
  /\ systemPrompt (this r.2) = None
  /\ checkPointSaver (this r.2) = None
  /\ last (console r.2) =
       Some (ConsoleError "Agent initialization error:"
               (ErrorPayload (TypeError "Cannot read properties of undefined")))
  /\ forall msg content,
       (EnvKeyAgent.messageAgent P msg r.2).1 <> Returned (Some content).
Proof.
  intros Hnew Hperm Hsettle r.
  apply construct_from_env_returns in Hnew as [m ->].
  assert (Hr : r =
    (Returned None,
     write [ConsoleError "Agent initialization error:"
              (ErrorPayload (TypeError "Cannot read properties of undefined"))]
       (state_after_run numbers core all settling
          (mkSt (mkAgent (ToolsObject []) threadId_ "" (Some m) None false None
                   (Some threadId_) None RefUndefined []) h out')))).
  { subst r.
    unfold EnvKeyAgent.initialize, load_tools, try_catch, bind, ret.
    cbn [toolNumbers clients allRegistry order checkPointer].
    rewrite exportToolsAndSetMetadata_settles by assumption.
    reflexivity. }
  rewrite Hr. cbn [fst snd].
  split; [reflexivity|]. split; [reflexivity|]. split; [reflexivity|].
  split; [cbn [write console]; apply last_snoc|].
  intros msg content Hsome.
  apply env_messageAgent_some in Hsome as [saver Hsaver]. discriminate Hsaver.
Qed.

Lemma env_agent_without_params_never_answers_witness :
  let P := platform_replying "[]" in
  let agent_ := mkAgent (ToolsObject []) "thread-1" "" (Some 7) None false None
                  (Some "thread-1") None RefUndefined [] in
  (EnvKeyAgent.initialize P
     (mkInitializeArgs [] (FactoryArray []) (FactoryArray []) local [])
     (mkSt agent_ ∅ [ConsoleLog "Model Initilaized"])).1 = Returned None.
Proof.
  intros P agent_.
  refine (proj1 (env_agent_without_params_never_answers P
            (mkEnv (Some "key") None)
            (mkModelProviders (fun _ => inr 7) (fun _ => inr 8))
            "thread-1" [] [ConsoleLog "Model Initilaized"] agent_ ∅
            [] [] [] local [] _ _ _)).
  - reflexivity.
  - vm_compute. reflexivity.
  - constructor.
Defined.

(** ** What [initialize] never assigns *)

Lemma identity_write (entries : list LogEntry) (st : St) :
  identity_of (write entries st) = identity_of st.
Proof. reflexivity. Qed.

Lemma keeps_identity_ret {A : Type} (v : A) : keeps_identity (ret v).
Proof. intros st. reflexivity. Qed.

Lemma keeps_identity_throw {A : Type} (e : JSError) : keeps_identity (@throw A e).
Proof. intros st. reflexivity. Qed.

Lemma keeps_identity_await {A : Type} (o : Outcome A) : keeps_identity (await o).
Proof. intros st. reflexivity. Qed.

Lemma keeps_identity_console_log (text : string) :
  keeps_identity (console_log text).
Proof. intros st. reflexivity. Qed.

Lemma keeps_identity_console_error (text : string) (payload : LogPayload) :
  keeps_identity (console_error text payload).
Proof. intros st. reflexivity. Qed.

Lemma keeps_identity_get_this : keeps_identity get_this.
Proof. intros st. reflexivity. Qed.

Lemma keeps_identity_this_params : keeps_identity this_params.
Proof.
  intros st. unfold this_params.
  destruct (params (this st)); [reflexivity|].
  destruct (heap st !! a); reflexivity.
Qed.

Lemma keeps_identity_bind {A B : Type} (m : M A) (k : A -> M B) :
  keeps_identity m -> (forall v, keeps_identity (k v)) -> keeps_identity (bind m k).
Proof.
  intros Hm Hk st. unfold bind. specialize (Hm st).
  destruct (m st) as [[v|e|] st']; cbn [snd] in *;
    [now rewrite Hk | assumption | assumption].
Qed.

Lemma keeps_identity_try_catch {A : Type} (m : M A) (h : JSError -> M A) :
  keeps_identity m -> (forall e, keeps_identity (h e)) ->
  keeps_identity (try_catch m h).
Proof.
  intros Hm Hh st. unfold try_catch. specialize (Hm st).
  destruct (m st) as [[v|e|] st']; cbn [snd] in *;
    [assumption | now rewrite Hh | assumption].
Qed.

Create HintDb identity.

#[local] Hint Resolve keeps_identity_ret keeps_identity_throw
  keeps_identity_await keeps_identity_console_log keeps_identity_console_error
  keeps_identity_get_this keeps_identity_this_params keeps_identity_bind
  keeps_identity_try_catch : identity.

Lemma keeps_identity_select_checkPointSaver (P : Platform) (c : CheckPointer) :
  keeps_identity (select_checkPointSaver P c).
Proof.
  destruct c; cbn [select_checkPointSaver]; [intros st; reflexivity|].
  apply keeps_identity_try_catch; [|auto with identity].
  apply keeps_identity_bind.
  - destruct (MongoClient_new P); [auto with identity | intros st; reflexivity].
  - intros _. apply keeps_identity_bind; [auto with identity|].
    intros _ st. reflexivity.
Qed.

Lemma settle_identity (settlements : list (Outcome ToolItem))
    (l : Registry.Loading) (i : nat) :
  identity_of (Registry.loading_st (Registry.settle settlements l i)) =
  identity_of (Registry.loading_st l).
Proof.
  unfold Registry.settle.
  destruct (Registry.toolPromises l !! i) as [[r|]|]; try reflexivity.
  destruct (settlements !! i) as [[toolItem|e|]|]; try reflexivity.
  unfold Registry.load_tool_item.
  destruct (push _ _); reflexivity.
Qed.

Lemma fold_settle_identity (settlements : list (Outcome ToolItem))
    (idxs : list nat) (l : Registry.Loading) :
  identity_of (Registry.loading_st (fold_left (Registry.settle settlements) idxs l)) =
  identity_of (Registry.loading_st l).
Proof.
  revert l. induction idxs as [|i idxs IH]; intros l; cbn [fold_left];
    [reflexivity|].
  now rewrite IH, settle_identity.
Qed.

Lemma finish_identity (results : list Registry.SettledResult)
    (md : list string) (st : St) :
  identity_of (Registry.finish results md st) = identity_of st.
Proof.
  unfold Registry.finish.
  destruct (Nat.ltb 0 _); destruct (length_is_zero _); reflexivity.
Qed.

Lemma finish_tools (results : list Registry.SettledResult)
    (md : list string) (st : St) :
  tools (this (Registry.finish results md st)) = tools (this st).
Proof.
  unfold Registry.finish.
  destruct (Nat.ltb 0 _); destruct (length_is_zero _); reflexivity.
Qed.

Lemma keeps_identity_export (numbers : list Z) (coreRegistry allRegistry : AnyRegistry)
    (settling : list nat) :
  keeps_identity
    (Registry.exportToolsAndSetMetadata numbers coreRegistry allRegistry settling).
Proof.
  intros st. unfold Registry.exportToolsAndSetMetadata.
  destruct allRegistry as [|all], coreRegistry as [|core]; try reflexivity.
  cbv zeta.
  destruct (Registry.Promise_allSettled _); cbn [snd];
    [rewrite finish_identity|]; now rewrite fold_settle_identity.
Qed.

#[local] Hint Resolve keeps_identity_select_checkPointSaver
  keeps_identity_export : identity.

Lemma keeps_identity_initialize (P : Platform) (args : InitializeArgs) :
  keeps_identity (InjectedModelAgent.initialize P args).
Proof.
  unfold InjectedModelAgent.initialize, load_tools.
  apply keeps_identity_try_catch; [|auto with identity].
  apply keeps_identity_bind; [auto 6 with identity|]. intros _.
  apply keeps_identity_bind; [auto with identity|]. intros p.
  apply keeps_identity_bind; [auto with identity|]. intros a.
  apply keeps_identity_bind; [intros st; reflexivity|]. intros _.
  auto with identity.
Qed.

Lemma keeps_identity_env_initialize (P : Platform) (args : InitializeArgs) :
  keeps_identity (EnvKeyAgent.initialize P args).
Proof.
  unfold EnvKeyAgent.initialize, load_tools.
  apply keeps_identity_try_catch; [|auto with identity].
  apply keeps_identity_bind; [auto 6 with identity|]. intros _.
  apply keeps_identity_bind; [auto with identity|]. intros p.
  apply keeps_identity_bind; [auto with identity|]. intros a.
  apply keeps_identity_bind; [intros st; reflexivity|]. intros _.
  apply keeps_identity_bind; [auto with identity|]. intros _.
  apply keeps_identity_bind; [intros st; reflexivity|]. intros _.
  auto with identity.
Qed.

(** X16.  [initialize], in either class and whatever it is given, assigns
    none of [threadId], [model], [config], [params] and [runtimeParams],
    and writes to no [params] object: they are the same after the call as
    before, whether the call ran to its end, stopped in its handler or
    never settled. *)
Theorem initialize_keeps_identity (P : Platform) (args : InitializeArgs) :
  keeps_identity (InjectedModelAgent.initialize P args)
  /\ keeps_identity (EnvKeyAgent.initialize P args).
Proof.
  split; [apply keeps_identity_initialize | apply keeps_identity_env_initialize].
Qed.

(** ** An object-valued tool collection *)

Lemma export_object_tools (numbers : list Z) (coreRegistry allRegistry : AnyRegistry)
    (settling : list nat) (st : St) (props : list (string * toolType)) :
  tools (this st) = ToolsObject props ->
  tools (this (Registry.exportToolsAndSetMetadata numbers coreRegistry
                 allRegistry settling st).2) = ToolsObject props.
Proof.
  intros Ht. unfold Registry.exportToolsAndSetMetadata.
  destruct allRegistry as [|all], coreRegistry as [|core]; try exact Ht.
  cbv zeta.
  match goal with
  | |- context [fold_left (Registry.settle ?S) settling ?l] =>
      pose proof (fold_settle_in_flight S (tools (this st)) settling l
                    (started_in_flight numbers core all st)) as [[xs Hxs] _]
  end.
  rewrite Ht in Hxs. cbn [append_tools] in Hxs.
  destruct (Registry.Promise_allSettled _); cbn [snd];
    [rewrite finish_tools|]; exact Hxs.
Qed.

Lemma initialize_object_tools (P : Platform) (args : InitializeArgs) (st : St)
    (props : list (string * toolType)) :
  tools (this st) = ToolsObject props ->
  tools (this (InjectedModelAgent.initialize P args st).2) = ToolsObject props.
Proof. intros Ht. rewrite initialize_tools. now apply export_object_tools. Qed.

Lemma env_initialize_tools (P : Platform) (args : InitializeArgs) (st : St) :
  tools (this (EnvKeyAgent.initialize P args st).2) =
  tools (this (Registry.exportToolsAndSetMetadata (toolNumbers args)
                 (clients args) (allRegistry args) (order args) st).2).
Proof.
  unfold EnvKeyAgent.initialize.
  rewrite try_catch_tools by auto with frame.
  rewrite bind_tools; [apply load_tools_tools|].
  intros _. apply frames_bind; [auto with frame|]. intros p.
  apply frames_bind; [auto with frame|]. intros a.
  apply frames_bind; [apply frames_assign; reflexivity|]. intros _.
  apply frames_bind; [auto with frame|]. intros _.
  apply frames_bind; [apply frames_assign; reflexivity|]. intros _.
  auto with frame.
Qed.

(** X17.  An agent whose tool collection is an object never gets a tool
    from the resolver: for every index set, every pair of registry
    arguments and every schedule of settlements,
    [exportToolsAndSetMetadata] and [initialize] of the two classes with
    [orchestrate] leave the collection exactly as it was, and every entry
    of the array the resolver returns is [null]. *)
Theorem object_collection_never_loads (P : Platform) (args : InitializeArgs)
    (st : St) (props : list (string * toolType)) :
  tools (this st) = ToolsObject props ->
  let r := Registry.exportToolsAndSetMetadata (toolNumbers args) (clients args)
             (allRegistry args) (order args) st in
  tools (this r.2) = ToolsObject props
  /\ (forall results, r.1 = Returned results ->
        forall entry, In entry results -> entry = Registry.Fulfilled None)
  /\ tools (this (InjectedModelAgent.initialize P args st).2) = ToolsObject props
  /\ tools (this (EnvKeyAgent.initialize P args st).2) = ToolsObject props.
Proof.
  intros Ht r. subst r. split; [now apply export_object_tools|].
  split; [|split].
  - intros results Hret entry Hin.
    destruct (clients args) as [|core], (allRegistry args) as [|all];
      try (injection Hret as <-; contradiction).
    apply export_returned_results in Hret as (-> & _).
    unfold outcome_list in Hin. apply in_map_iff in Hin as (item & <- & _).
    now rewrite Ht, wrapper_value_object.
  - now apply initialize_object_tools.
  - rewrite env_initialize_tools. now apply export_object_tools.
Qed.

Lemma object_collection_never_loads_witness :
  tools (this
    (InjectedModelAgent.initialize (platform_replying "[]")
       (mkInitializeArgs [0%Z; 1%Z] (FactoryArray [factory_X2])
          (FactoryArray [factory_X1; factory_throws]) local [2; 0; 1])
       constructed_st).2) = ToolsObject [].
Proof.
  exact (proj1 (proj2 (proj2
    (object_collection_never_loads (platform_replying "[]")
       (mkInitializeArgs [0%Z; 1%Z] (FactoryArray [factory_X2])
          (FactoryArray [factory_X1; factory_throws]) local [2; 0; 1])
       constructed_st [] eq_refl)))).
Defined.

(** * Properties of the server *)

(** ** The [agents] map *)

Section MapLemmas.

Context {V : Type}.
Implicit Types (m : list (string * V)) (k : string) (v : V).

Lemma Map_get_Some_In m k v : Server.Map_get m k = Some v -> In (k, v) m.
Proof.
  induction m as [|[k0 v0] m IH]; cbn; [discriminate|].
  destruct (String.eqb k0 k) eqn:E.
  - apply String.eqb_eq in E. intros [= ->]. left. now subst.
  - intros H. right. now apply IH.
Qed.

Lemma Map_get_None m k : Server.Map_get m k = None <-> k ∉ map fst m.
Proof.
  induction m as [|[k0 v0] m IH]; cbn.
  - split; [intros _ H; inversion H | reflexivity].
  - destruct (String.eqb k0 k) eqn:E.
    + apply String.eqb_eq in E. subst. split; [discriminate|].
      intros H. exfalso. apply H. constructor.
    + apply String.eqb_neq in E. rewrite IH, not_elem_of_cons.
      split; [intros H; split; [congruence | assumption] | tauto].
Qed.

Lemma Map_get_In m k v :
  NoDup (map fst m) -> In (k, v) m -> Server.Map_get m k = Some v.
Proof.
  induction m as [|[k0 v0] m IH]; cbn; [tauto|].
  intros Hnd [[= -> ->]|Hin].
  - now rewrite String.eqb_refl.
  - apply NoDup_cons in Hnd as [Hnotin Hnd].
    destruct (String.eqb k0 k) eqn:E; [|now apply IH].
    apply String.eqb_eq in E. subst. exfalso. apply Hnotin.
    apply list_elem_of_In, in_map_iff. now exists (k, v).
Qed.

Lemma Map_set_absent m k v :
  Server.Map_get m k = None -> Server.Map_set m k v = m ++ [(k, v)].
Proof.
  induction m as [|[k0 v0] m IH]; cbn; [reflexivity|].
  destruct (String.eqb k0 k); [discriminate|]. intros H. now rewrite IH.
Qed.

Lemma Map_set_same m k v :
  Server.Map_get m k = Some v -> Server.Map_set m k v = m.
Proof.
  induction m as [|[k0 v0] m IH]; cbn; [discriminate|].
  destruct (String.eqb k0 k); [now intros [= ->]|]. intros H. now rewrite IH.
Qed.

Lemma Map_get_set m k v : Server.Map_get (Server.Map_set m k v) k = Some v.
Proof.
  induction m as [|[k0 v0] m IH]; cbn.
  - now rewrite String.eqb_refl.
  - destruct (String.eqb k0 k) eqn:E; cbn; now rewrite E.
Qed.

Lemma Map_get_delete m k : Server.Map_get (Server.Map_delete m k) k = None.
Proof.
  unfold Server.Map_delete.
  induction m as [|[k0 v0] m IH]; cbn; [reflexivity|].
  destruct (String.eqb k0 k) eqn:E; cbn; [assumption|]. now rewrite E.
Qed.

Lemma Map_get_delete_ne m k k' :
  k' <> k -> Server.Map_get (Server.Map_delete m k) k' = Server.Map_get m k'.
Proof.
  intros Hne. unfold Server.Map_delete.
  induction m as [|[k0 v0] m IH]; cbn; [reflexivity|].
  destruct (String.eqb k0 k) eqn:E; cbn.
  - apply String.eqb_eq in E. subst k0.
    destruct (String.eqb k k') eqn:E'; [|assumption].
    apply String.eqb_eq in E'. congruence.
  - now rewrite IH.
Qed.

Lemma Map_delete_In m k x : In x (Server.Map_delete m k) -> In x m.
Proof. unfold Server.Map_delete. intros H. now apply filter_In in H. Qed.

Lemma Map_delete_NoDup m k :
  NoDup (map fst m) -> NoDup (map fst (Server.Map_delete m k)).
Proof.
  unfold Server.Map_delete.
  induction m as [|[k0 v0] m IH]; cbn; [trivial|].
  intros Hnd. apply NoDup_cons in Hnd as [Hnotin Hnd].
  destruct (String.eqb k0 k); cbn; [now apply IH|].
  apply NoDup_cons. split; [|now apply IH].
  intros Hin. apply Hnotin.
  apply list_elem_of_In, in_map_iff in Hin as ([k1 v1] & Hk & Hin).
  apply filter_In in Hin as [Hin _].
  apply list_elem_of_In, in_map_iff. now exists (k1, v1).
Qed.

End MapLemmas.

(** ** The invariant of the server *)

Lemma constructor_returns (threadId_ : string) (a : addr) (p : Params)
    (m : BaseChatModel) (h : gmap addr Params) (out : list LogEntry) :
  h !! a = Some p ->
  InjectedModelAgent.constructor threadId_ (RefObject a) (Some m) h out =
  (Returned
     (mkAgent (ToolsObject []) threadId_ "" (Some m) None false None
        (Some threadId_) None (RefObject a) []),
   <[a := mkParams (params_name p) (instruction p) (Some [])]> h, out).
Proof. intros Hp. unfold InjectedModelAgent.constructor. now rewrite Hp. Qed.

(** The state the constructor and [initialize] leave for a new thread. *)
Lemma well_formed_new_thread (P : Platform) (args : InitializeArgs)
    (s : Server.State) (threadId_ : string) (m : BaseChatModel) (p : Params) :
  well_formed s ->
  Server.Map_has (Server.agents s) threadId_ = false ->
  let a := fresh (dom (Server.objects s)) in
  let st0 :=
    mkSt (mkAgent (ToolsObject []) threadId_ "" (Some m) None false None
            (Some threadId_) None (RefObject a) [])
         (<[a := p]> (Server.objects s)) (Server.stdout s) in
  let st := (InjectedModelAgent.initialize P args st0).2 in
  well_formed (Server.mkState (Server.agents s) (heap st) (console st))
  /\ well_formed
       (Server.mkState (Server.Map_set (Server.agents s) threadId_ (this st))
          (heap st) (console st))
  /\ threadId (this st) = threadId_
  /\ tools (this st) = ToolsObject []
  /\ params (this st) = RefObject a
  /\ heap st = <[a := p]> (Server.objects s).
Proof.
  intros [Hnd Hags] Hnew a st0 st.
  pose proof (keeps_identity_initialize P args st0) as Hid.
  fold st in Hid. unfold identity_of in Hid. cbn in Hid.
  injection Hid as Htid _ _ Hparams _ Hheap.
  assert (Htools : tools (this st) = ToolsObject [])
    by (apply initialize_object_tools; reflexivity).
  assert (Hfresh : Server.objects s !! a = None)
    by (apply not_elem_of_dom, is_fresh).
  assert (Hold : forall key agent_, In (key, agent_) (Server.agents s) ->
            threadId agent_ = key /\ tools agent_ = ToolsObject []
            /\ exists a' p', params agent_ = RefObject a'
                             /\ heap st !! a' = Some p').
  { intros key agent_ Hin.
    destruct (Hags key agent_ Hin) as (Hk & Ht & a' & p' & Hp & Hlook).
    split; [assumption|]. split; [assumption|]. exists a', p'.
    split; [assumption|]. rewrite Hheap.
    rewrite lookup_insert_ne; [assumption|]. intros <-. congruence. }
  assert (Habsent : Server.Map_get (Server.agents s) threadId_ = None).
  { unfold Server.Map_has in Hnew.
    destruct (Server.Map_get (Server.agents s) threadId_); [discriminate|
    reflexivity]. }
  split; [split; assumption|]. split; [|repeat split; assumption].
  split; cbn [Server.agents Server.objects].
  - rewrite Map_set_absent by assumption. rewrite map_app. cbn.
    apply NoDup_app. split; [assumption|]. split; [|apply NoDup_singleton].
    intros x Hx Hx'. apply list_elem_of_singleton in Hx'. subst x.
    now apply Map_get_None in Habsent.
  - rewrite Map_set_absent by assumption. intros key agent_ Hin.
    apply in_app_or in Hin as [Hin|[[= <- <-]|[]]]; [now apply Hold|].
    split; [assumption|]. split; [assumption|]. exists a, p.
    split; [assumption|]. rewrite Hheap. apply lookup_insert_eq.
Qed.

(** ** [POST /agent/create] *)


(** ** [POST /agent/create] *)

Lemma registry_of_settles (numbers : list Z) (clients_ all_ : option (list JSON))
    (st : St) :
  all_settle
    (Registry.effective_factories numbers (Server.registry_of clients_)
       (Server.registry_of all_)) st.
Proof.
  unfold Server.registry_of. rewrite effective_factories_map.
  apply Forall_forall. intros item Hin.
  apply list_elem_of_fmap in Hin as (j & -> & _). discriminate.
Qed.

Section Create.

Variables (E : Server.Externals) (request : Server.CreateAgentRequest).
Variable s : Server.State.

(** What the handler does with an accepted request whose model could be
    created. *)
Lemma create_agent_accepted (threadId_ : string) (config : Server.ModelConfig)
    (params_ : Server.RequestParams) (m : BaseChatModel) :
  accepted request s threadId_ config params_ ->
  Server.createModelFromConfig E config = inr m ->
  let r := InjectedModelAgent.initialize (Server.agent_platform E)
             (Server.initialize_args request)
             (constructed_for s threadId_ params_ m) in
  Server.create_agent E request s =
  match r.1 with
  | Returned _ =>
      (Returned
         (Server.mkResponse 201
            (Server.AgentCreated threadId_ (default "" (Server.name_ params_)))),
       Server.mkState (Server.Map_set (Server.agents s) threadId_ (this r.2))
         (heap r.2) (console r.2))
  | Threw error =>
      Server.failed "Error creating agent:" "Failed to create agent" error
        (Server.mkState (Server.agents s) (heap r.2) (console r.2))
  | Unsettled =>
      (Unsettled, Server.mkState (Server.agents s) (heap r.2) (console r.2))
  end.
Proof.
  intros (Htid & Hne & Hconfig & Hcomplete & Hparams & Hnamed & Hnew) Hmodel r.
  unfold Server.create_agent.
  rewrite Htid, Hne, Hconfig, Hcomplete, Hparams, Hnamed, Hnew, Hmodel.
  cbn [negb].
  rewrite (constructor_returns threadId_ _ _ m _ _ (lookup_insert_eq _ _ _)).
  cbn [params_name instruction]. rewrite insert_insert_eq.
  subst r. unfold constructed_for.
  destruct (InjectedModelAgent.initialize _ _ _) as [[v|e|] st]; reflexivity.
Qed.

(** Every other request is answered at once, and leaves the agents and the
    [params] objects alone. *)
Lemma create_agent_cases :
  (exists threadId_ config params_ m,
     accepted request s threadId_ config params_
     /\ Server.createModelFromConfig E config = inr m)
  \/ (exists code text out,
        Server.create_agent E request s =
          (Returned (Server.mkResponse code (Server.Failure text)),
           Server.mkState (Server.agents s) (Server.objects s) out)
        /\ (code = 400 \/ code = 409
            \/ (code = 500
                /\ exists config e,
                     Server.modelConfig request = Some config
                     /\ Server.createModelFromConfig E config = inl e))).
Proof.
  unfold Server.create_agent, accepted, Server.bad_request, Server.failed.
  destruct s as [ags objs out]. cbn [Server.agents Server.objects Server.stdout].
  destruct (Server.create_threadId request) as [threadId_|];
    [|right; do 3 eexists; split; [reflexivity | now left]].
  destruct (String.eqb threadId_ "") eqn:Hne;
    [right; do 3 eexists; split; [reflexivity | now left]|].
  destruct (Server.modelConfig request) as [config|];
    [|right; do 3 eexists; split; [reflexivity | now left]].
  destruct (truthy (Server.provider config) && truthy (Server.modelName config)
            && truthy (Server.apiKey config)) eqn:Hcomplete; cbn [negb];
    [|right; do 3 eexists; split; [reflexivity | now left]].
  destruct (Server.create_params request) as [params_|];
    [|right; do 3 eexists; split; [reflexivity | now left]].
  destruct (truthy (Server.name_ params_) && truthy (Server.instruction_ params_))
    eqn:Hnamed; cbn [negb];
    [|right; do 3 eexists; split; [reflexivity | now left]].
  destruct (Server.Map_has ags threadId_) eqn:Hnew;
    [right; do 3 eexists; split; [reflexivity | right; now left]|].
  destruct (Server.createModelFromConfig E config) as [e|m] eqn:Hmodel.
  - right. do 3 eexists. split; [reflexivity|]. right. right.
    split; [reflexivity|]. now exists config, e.
  - left. exists threadId_, config, params_, m. repeat split; assumption.
Qed.

End Create.

(** ** The other handlers *)

Lemma send_message_keeps (E : Server.Externals)
    (request : Server.SendMessageRequest) (s : Server.State) :
  exists out,
    (Server.send_message E request s).2 =
    Server.mkState (Server.agents s) (Server.objects s) out.
Proof.
  unfold Server.send_message, Server.bad_request, Server.failed.
  destruct s as [ags objs out]. cbn [Server.agents Server.objects Server.stdout].
  destruct (Server.send_threadId request) as [threadId_|]; [|now eexists].
  destruct (String.eqb threadId_ ""); [now eexists|].
  destruct (Server.message_ request) as [msg|]; [|now eexists].
  destruct (String.eqb msg ""); [now eexists|].
  destruct (Server.Map_get ags threadId_) as [agent_|] eqn:Hget; [|now eexists].
  destruct (only_logs_messageAgent (Server.agent_platform E) msg
              (mkSt agent_ objs out)) as (Hthis & Hheap & _).
  destruct (InjectedModelAgent.messageAgent _ _ _) as [answered st].
  cbn [snd this heap] in Hthis, Hheap. rewrite Hthis, Hheap.
  rewrite (Map_set_same _ _ _ Hget).
  destruct answered as [[ex|e]|e|]; cbn [snd Server.agents Server.objects];
    try (now eexists).
  destruct (Server.executor_stream E ex msg (config agent_)) as [chunks|e|];
    try (now eexists).
  destruct (Server.read_stream _ chunks) as [e|[finalResponse toolCalls]];
    now eexists.
Qed.

Lemma delete_agent_state (E : Server.Externals) (threadId_ : string)
    (s : Server.State) :
  (Server.delete_agent E threadId_ s).2 = s
  \/ exists out,
       (Server.delete_agent E threadId_ s).2 =
       Server.mkState (Server.Map_delete (Server.agents s) threadId_)
         (Server.objects s) out.
Proof.
  unfold Server.delete_agent.
  destruct (Server.Map_get (Server.agents s) threadId_) as [agent_|];
    [|now left].
  destruct (mongoClient agent_); [|right; now eexists].
  destruct (Server.mongoClient_close E); [right | right | left]; now eexists.
Qed.

Lemma handle_well_formed (E : Server.Externals) (request : Server.Request)
    (s : Server.State) :
  well_formed s -> well_formed (Server.handle E request s).2.
Proof.
  intros Hwf. destruct request as [r|r|threadId_| |threadId_|];
    cbn [Server.handle snd]; try assumption.
  - destruct (create_agent_cases E r s)
      as [(threadId_ & config & params_ & m & Hacc & Hmodel)
         |(code & text & out & -> & _)]; [|exact Hwf].
    rewrite (create_agent_accepted E r s threadId_ config params_ m Hacc Hmodel).
    destruct Hacc as (_ & _ & _ & _ & _ & _ & Hnew).
    destruct (well_formed_new_thread (Server.agent_platform E)
                (Server.initialize_args r) s threadId_ m
                (mkParams (default "" (Server.name_ params_))
                   (default "" (Server.instruction_ params_)) (Some []))
                Hwf Hnew) as (Hkept & Hadded & _).
    fold (constructed_for s threadId_ params_ m) in Hkept, Hadded.
    destruct (InjectedModelAgent.initialize _ _ _) as [[v|e|] st];
      cbn [fst snd] in *; [exact Hadded | exact Hkept | exact Hkept].
  - destruct (send_message_keeps E r s) as [out ->]. exact Hwf.
  - destruct (delete_agent_state E threadId_ s) as [->|[out ->]]; [exact Hwf|].
    destruct Hwf as [Hnd Hags]. split; cbn [Server.agents Server.objects].
    + now apply Map_delete_NoDup.
    + intros key agent_ Hin. apply Map_delete_In in Hin. now apply Hags.
Qed.

Lemma serve_well_formed (E : Server.Externals) (requests : list Server.Request)
    (s : Server.State) :
  well_formed s -> well_formed (Server.serve E requests s).
Proof.
  revert s. induction requests as [|request requests IH]; intros s Hwf;
    cbn [Server.serve fold_left]; [assumption|].
  apply IH, handle_well_formed, Hwf.
Qed.

Lemma started_well_formed : well_formed Server.started.
Proof. split; [constructor | intros key agent_ []]. Qed.

Lemma get_agent_well_formed (s : Server.State) (threadId_ : string) :
  well_formed s ->
  Server.get_agent threadId_ s =
    Returned (Server.mkResponse 404 (Server.Failure "Agent not found"))
  \/ exists agentName,
       Server.get_agent threadId_ s =
       Returned (Server.mkResponse 200 (Server.AgentInfo threadId_ agentName 0 [])).
Proof.
  intros [_ Hags]. unfold Server.get_agent.
  destruct (Server.Map_get (Server.agents s) threadId_) as [agent_|] eqn:Hget;
    [|now left].
  apply Map_get_Some_In in Hget.
  destruct (Hags _ _ Hget) as (Htid & Htools & a & p & Hp & Ha).
  right. exists (params_name p). unfold Server.agent_name.
  now rewrite Hp, Ha, Htid, Htools.
Qed.

Lemma agentList_well_formed (s : Server.State) (entries : list (string * Agent)) :
  (forall key agent_, In (key, agent_) entries ->
     tools agent_ = ToolsObject []
     /\ exists a p, params agent_ = RefObject a /\ Server.objects s !! a = Some p) ->
  exists listed,
    Server.agentList s entries = inr listed
    /\ map (fun entry => entry.1.1) listed = map fst entries
    /\ forall entry, In entry listed -> entry.2 = 0.
Proof.
  induction entries as [|[key agent_] entries IH]; intros Hags;
    cbn [Server.agentList].
  - exists []. repeat split. intros entry [].
  - destruct (Hags key agent_ (or_introl eq_refl)) as (Htools & a & p & Hp & Ha).
    destruct IH as (listed & -> & Hkeys & Hcounts);
      [intros k ag Hin; apply (Hags k ag); now right|].
    unfold Server.agent_name. rewrite Hp, Ha, Htools.
    eexists. split; [reflexivity|]. split; [cbn; now rewrite Hkeys|].
    intros entry [<-|Hin]; [reflexivity | now apply Hcounts].
Qed.

(** X18.  Whatever requests the server has handled since it started,
    [GET /agent/:threadId] answers 404 or reports the thread under its own
    id with [toolCount] 0 and no tool name: no agent created over HTTP
    ever has a tool, whatever registries and indices the create request
    carried, and the handler, which has no [try], never throws. *)
Theorem served_agents_have_no_tools (E : Server.Externals)
    (requests : list Server.Request) (threadId_ : string) :
  let s := Server.serve E requests Server.started in
  Server.get_agent threadId_ s =
    Returned (Server.mkResponse 404 (Server.Failure "Agent not found"))
  \/ exists agentName,
       Server.get_agent threadId_ s =
       Returned (Server.mkResponse 200 (Server.AgentInfo threadId_ agentName 0 [])).
Proof.
  intros s. apply get_agent_well_formed, serve_well_formed, started_well_formed.
Qed.

(** X19.  Whatever requests the server has handled since it started,
    [GET /agents] answers 200 with one entry per stored thread, in the
    order of the [agents] map; no thread is listed twice,
    [count] is the number of stored agents, which is also what
    [GET /health] reports, and every [toolCount] is 0. *)
Theorem served_agents_are_listed_once (E : Server.Externals)
    (requests : list Server.Request) :
  let s := Server.serve E requests Server.started in
  exists listed,
    Server.list_agents s =
      Returned (Server.mkResponse 200 (Server.AgentList (length listed) listed))
    /\ map (fun entry => entry.1.1) listed = map fst (Server.agents s)
    /\ NoDup (map (fun entry => entry.1.1) listed)
    /\ Server.health E s =
         Server.mkResponse 200
           (Server.Health (length listed) (Server.process_uptime E))
    /\ forall entry, In entry listed -> entry.2 = 0.
Proof.
  intros s.
  destruct (serve_well_formed E requests Server.started started_well_formed)
    as [Hnd Hags]. fold s in Hnd, Hags.
  destruct (agentList_well_formed s (Server.agents s))
    as (listed & Hlist & Hkeys & Hcounts).
  { intros key agent_ Hin. destruct (Hags key agent_ Hin) as (_ & Ht & Hp).
    now split. }
  exists listed. unfold Server.list_agents, Server.health. rewrite Hlist.
  split; [reflexivity|]. split; [assumption|]. split; [now rewrite Hkeys|].
  split; [|assumption].
  apply (f_equal (@length _)) in Hkeys. rewrite !length_map in Hkeys.
  now rewrite Hkeys.
Qed.

(** ** A created thread *)

Lemma initialized_for (P : Platform) (args : InitializeArgs) (s : Server.State)
    (threadId_ : string) (params_ : Server.RequestParams) (m : BaseChatModel) :
  let st0 := constructed_for s threadId_ params_ m in
  let st := (InjectedModelAgent.initialize P args st0).2 in
  threadId (this st) = threadId_
  /\ tools (this st) = ToolsObject []
  /\ params (this st) = params (this st0)
  /\ heap st = heap st0.
Proof.
  intros st0 st.
  pose proof (keeps_identity_initialize P args st0) as Hid.
  fold st in Hid. unfold identity_of in Hid.
  injection Hid as Htid _ _ Hparams _ Hheap.
  split; [exact Htid|]. split; [|now split].
  apply initialize_object_tools. reflexivity.
Qed.

(** X20.  When [POST /agent/create] answers 201, the thread was not stored
    before and is stored now: [GET /agent/:threadId] reports it under the
    name of the request, with no tool; its [params] object holds the name
    and the instruction of the request and an empty [toolKnowledge],
    whatever hints the request carried; and the same request sent again is
    answered 409 and changes nothing. *)
Theorem created_agent_is_served (E : Server.Externals)
    (request : Server.CreateAgentRequest) (s s' : Server.State)
    (answer : Server.Body) :
  Server.create_agent E request s =
    (Returned (Server.mkResponse 201 answer), s') ->
  exists threadId_ params_,
    Server.create_threadId request = Some threadId_
    /\ Server.create_params request = Some params_
    /\ answer = Server.AgentCreated threadId_ (default "" (Server.name_ params_))
    /\ Server.Map_get (Server.agents s) threadId_ = None
    /\ Server.get_agent threadId_ s' =
         Returned
           (Server.mkResponse 200
              (Server.AgentInfo threadId_ (default "" (Server.name_ params_)) 0 []))
    /\ (exists agent_ a,
          Server.Map_get (Server.agents s') threadId_ = Some agent_
          /\ params agent_ = RefObject a
          /\ Server.objects s' !! a =
               Some (mkParams (default "" (Server.name_ params_))
                       (default "" (Server.instruction_ params_)) (Some [])))
    /\ exists text,
         Server.create_agent E request s' =
           (Returned (Server.mkResponse 409 (Server.Failure text)), s').
Proof.
  intros Hcreate.
  destruct (create_agent_cases E request s)
    as [(threadId_ & config & params_ & m & Hacc & Hmodel)
       |(code & text & out & Hfail & Hcode)].
  2:{ rewrite Hfail in Hcreate. injection Hcreate as -> _ _.
      destruct Hcode as [[=]|[[=]|[[=] _]]]. }
  rewrite (create_agent_accepted E request s threadId_ config params_ m Hacc Hmodel)
    in Hcreate.
  destruct (initialized_for (Server.agent_platform E)
              (Server.initialize_args request) s threadId_ params_ m)
    as (Htid & Htools & Hparams & Hheap).
  destruct (InjectedModelAgent.initialize _ _ _) as [[v|e|] st];
    cbn [fst snd] in *; [|discriminate Hcreate|discriminate Hcreate].
  injection Hcreate as <- <-.
  destruct Hacc as (Hthread & Hne & Hconfig & Hcomplete & Hrequest & Hnamed & Hnew).
  assert (Habsent : Server.Map_get (Server.agents s) threadId_ = None).
  { unfold Server.Map_has in Hnew.
    destruct (Server.Map_get (Server.agents s) threadId_); [discriminate|
    reflexivity]. }
  assert (Hobject :
    heap st !! fresh (dom (Server.objects s)) =
    Some (mkParams (default "" (Server.name_ params_))
            (default "" (Server.instruction_ params_)) (Some []))).
  { rewrite Hheap. unfold constructed_for. cbn [heap]. apply lookup_insert_eq. }
  exists threadId_, params_.
  split; [assumption|]. split; [assumption|]. split; [reflexivity|].
  split; [assumption|]. split; [|split].
  - unfold Server.get_agent, Server.agent_name.
    cbn [Server.agents Server.objects]. rewrite Map_get_set, Hparams.
    unfold constructed_for at 1. cbn [this params].
    rewrite Hobject, Htid, Htools. reflexivity.
  - exists (this st), (fresh (dom (Server.objects s))).
    cbn [Server.agents Server.objects]. rewrite Map_get_set.
    split; [reflexivity|]. split; [exact Hparams | exact Hobject].
  - eexists. unfold Server.create_agent.
    rewrite Hthread, Hne, Hconfig, Hcomplete, Hrequest, Hnamed. cbn [negb].
    unfold Server.Map_has. cbn [Server.agents]. rewrite Map_get_set.
    reflexivity.
Qed.

(** X21.  An answer of [POST /agent/create] other than 201 is 400, 409 or
    500, and leaves the stored agents and the [params] objects as they
    were.  The 500 is sent only when the chat model could not be created
    from the configuration: neither a failing MongoDB connection nor a
    registry entry that throws makes the handler answer with an error. *)
Theorem create_failure_changes_nothing (E : Server.Externals)
    (request : Server.CreateAgentRequest) (s s' : Server.State)
    (response : Server.Response) :
  Server.create_agent E request s = (Returned response, s') ->
  Server.status response <> 201 ->
  Server.agents s' = Server.agents s
  /\ Server.objects s' = Server.objects s
  /\ (Server.status response = 400 \/ Server.status response = 409
      \/ (Server.status response = 500
          /\ exists config e,
               Server.modelConfig request = Some config
               /\ Server.createModelFromConfig E config = inl e)).
Proof.
  intros Hcreate Hstatus.
  destruct (create_agent_cases E request s)
    as [(threadId_ & config & params_ & m & Hacc & Hmodel)
       |(code & text & out & Hfail & Hcode)].
  - rewrite (create_agent_accepted E request s threadId_ config params_ m
               Hacc Hmodel) in Hcreate.
    pose proof (initialize_never_throws (Server.agent_platform E)
                  (Server.initialize_args request)
                  (constructed_for s threadId_ params_ m)) as Hnever.
    destruct (InjectedModelAgent.initialize _ _ _) as [[v|e|] st];
      cbn [fst snd] in *.
    + injection Hcreate as <- _. now contradiction Hstatus.
    + now contradiction (Hnever e).
    + discriminate Hcreate.
  - rewrite Hfail in Hcreate. injection Hcreate as <- <-.
    split; [reflexivity|]. split; [reflexivity|]. exact Hcode.
Qed.

Lemma created_agent_is_served_witness :
  Server.get_agent "thread-1" serving =
    Returned (Server.mkResponse 200 (Server.AgentInfo "thread-1" "Bot" 0 []))
  /\ exists text,
       Server.create_agent externals create_request serving =
         (Returned (Server.mkResponse 409 (Server.Failure text)), serving).
Proof.
  destruct (created_agent_is_served externals create_request Server.started
              serving (Server.AgentCreated "thread-1" "Bot"))
    as (threadId_ & params_ & Hthread & Hparams & _ & _ & Hget & _ & Hagain).
  - vm_compute. reflexivity.
  - injection Hthread as <-. injection Hparams as <-.
    split; [exact Hget | exact Hagain].
Defined.

Lemma create_failure_changes_nothing_witness :
  let request :=
    Server.mkCreateAgentRequest (Some "thread-2")
      (Some (Server.mkModelConfig (Some "gemini") (Some "gemini-pro") (Some "key")
               None))
      (Some (Server.mkRequestParams (Some "Bot") (Some "Answer briefly") None))
      None None None None None in
  Server.agents (Server.create_agent externals request serving).2 =
  Server.agents serving.
Proof.
  intros request.
  refine (proj1 (create_failure_changes_nothing externals request serving
                   (Server.create_agent externals request serving).2
                   (Server.mkResponse 500 (Server.Failure "API key not valid"))
                   _ _)).
  - vm_compute. reflexivity.
  - discriminate.
Defined.

Lemma initialize_mongo_failure (P : Platform) (numbers : list Z)
    (core all : list Factory) (settling : list nat) (st : St) (a : addr)
    (p : Params) (e : JSError) :
  settling ≡ₚ seq 0 (length (Registry.effective_factories numbers core all)) ->
  all_settle (Registry.effective_factories numbers core all) st ->
  params (this st) = RefObject a ->
  heap st !! a = Some p ->
  MongoClient_new P = Some e \/
    (MongoClient_new P = None /\ MongoClient_connect P = Threw e) ->
  let r := InjectedModelAgent.initialize P
             (mkInitializeArgs numbers (FactoryArray core) (FactoryArray all)
                mongo settling) st in
  r.1 = Returned tt
  /\ checkPointSaver (this r.2) = checkPointSaver (this st)
  /\ last (console r.2) =
       Some (ConsoleError "Agent initialization error:"
               (ErrorPayload (Error ("MongoDB connection failed: " +:+ message e)))).
Proof.
  intros Hperm Hsettle Hparams Hheap Hfail r. subst r.
  unfold InjectedModelAgent.initialize, load_tools, select_checkPointSaver,
    try_catch, bind, ret.
  cbn [toolNumbers clients allRegistry order checkPointer].
  rewrite exportToolsAndSetMetadata_settles by assumption.
  unfold this_params, state_after_run.
  cbn [this heap params with_toolMetadata with_tools].
  rewrite Hparams, Hheap. cbn.
  destruct Hfail as [Hnew|[Hnew Hconnect]]; rewrite Hnew; cbn;
    [|rewrite Hconnect; cbn]; (split; [reflexivity|]); (split; [reflexivity|]);
    rewrite !app_assoc; apply last_snoc.
Qed.

(** X22.  [POST /agent/create] with the [mongo] checkpointer answers 201
    also when the MongoDB client cannot be created or its connection is
    refused: the failure is caught inside [initialize], whose last console
    line reports it, and the agent is stored without a checkpoint saver. *)
Theorem create_answers_201_without_mongo (E : Server.Externals)
    (request : Server.CreateAgentRequest) (s : Server.State)
    (threadId_ : string) (config : Server.ModelConfig)
    (params_ : Server.RequestParams) (m : BaseChatModel) (e : JSError) :
  accepted request s threadId_ config params_ ->
  Server.createModelFromConfig E config = inr m ->
  Server.create_checkPointer request = Some "mongo" ->
  MongoClient_new (Server.agent_platform E) = Some e \/
    (MongoClient_new (Server.agent_platform E) = None
     /\ MongoClient_connect (Server.agent_platform E) = Threw e) ->
  exists s' agent_,
    Server.create_agent E request s =
      (Returned
         (Server.mkResponse 201
            (Server.AgentCreated threadId_ (default "" (Server.name_ params_)))),
       s')
    /\ Server.Map_get (Server.agents s') threadId_ = Some agent_
    /\ checkPointSaver agent_ = None
    /\ last (Server.stdout s') =
         Some (ConsoleError "Agent initialization error:"
                 (ErrorPayload
                    (Error ("MongoDB connection failed: " +:+ message e)))).
Proof.
  intros Hacc Hmodel Hmongo Hfail.
  rewrite (create_agent_accepted E request s threadId_ config params_ m Hacc Hmodel).
  unfold Server.initialize_args. rewrite Hmongo. cbn [Server.checkPointer_of].
  change (String.eqb "mongo" "mongo") with true. cbv iota.
  destruct (initialize_mongo_failure (Server.agent_platform E)
              (default [] (Server.create_toolNumbers request))
              (Server.registry_of (Server.create_clients request))
              (Server.registry_of (Server.create_allRegistry request))
              (seq 0 (length (Registry.effective_factories
                                (default [] (Server.create_toolNumbers request))
                                (Server.registry_of (Server.create_clients request))
                                (Server.registry_of (Server.create_allRegistry request)))))
              (constructed_for s threadId_ params_ m)
              (fresh (dom (Server.objects s)))
              (mkParams (default "" (Server.name_ params_))
                 (default "" (Server.instruction_ params_)) (Some []))
              e) as (Hret & Hsaver & Hlast);
    [reflexivity | apply registry_of_settles | reflexivity
    | apply lookup_insert_eq | assumption |].
  destruct (InjectedModelAgent.initialize _ _ _) as [o st].
  cbn [fst snd] in *. subst o.
  eexists. exists (this st). split; [reflexivity|].
  cbn [Server.agents Server.stdout]. rewrite Map_get_set.
  split; [reflexivity|]. split; [exact Hsaver | exact Hlast].
Qed.

Lemma create_answers_201_without_mongo_witness :
  exists agent_,
    Server.Map_get (Server.agents serving) "thread-1" = Some agent_
    /\ checkPointSaver agent_ = None.
Proof.
  destruct (create_answers_201_without_mongo externals create_request
              Server.started "thread-1"
              (Server.mkModelConfig (Some "anthropic")
                 (Some "claude-3-haiku-20240307") (Some "key") None)
              (Server.mkRequestParams (Some "Bot") (Some "Answer briefly")
                 (Some ["prices are in USD"]))
              7 (Error "connect ECONNREFUSED 127.0.0.1:27017"))
    as (s' & agent_ & Hcreate & Hget & Hsaver & _).
  - repeat split.
  - reflexivity.
  - reflexivity.
  - right. split; reflexivity.
  - exists agent_. unfold serving. rewrite Hcreate. now split.
Defined.

(** ** [DELETE /agent/:threadId] *)

(** X23.  When [DELETE /agent/:threadId] answers, either the thread was
    not stored, the answer is 404 and nothing changed, or the answer is 200
    and afterwards [GET /agent/:threadId] answers 404 for that thread and
    what it answered before for every other thread.  The [params] objects
    are left as they were. *)
Theorem delete_agent_removes_one (E : Server.Externals) (threadId_ : string)
    (s s' : Server.State) (response : Server.Response) :
  Server.delete_agent E threadId_ s = (Returned response, s') ->
  (response = Server.mkResponse 404 (Server.Failure "Agent not found")
   /\ s' = s /\ Server.Map_get (Server.agents s) threadId_ = None)
  \/ (response = Server.mkResponse 200 (Server.AgentDeleted threadId_)
      /\ Server.objects s' = Server.objects s
      /\ Server.get_agent threadId_ s' =
           Returned (Server.mkResponse 404 (Server.Failure "Agent not found"))
      /\ forall other, other <> threadId_ ->
           Server.get_agent other s' = Server.get_agent other s).
Proof.
  unfold Server.delete_agent.
  destruct (Server.Map_get (Server.agents s) threadId_) as [agent_|] eqn:Hget.
  2:{ intros [= <- <-]. left. repeat split. }
  assert (Hdeleted : forall out,
    let s1 := Server.mkState (Server.Map_delete (Server.agents s) threadId_)
                (Server.objects s) out in
    Server.get_agent threadId_ s1 =
      Returned (Server.mkResponse 404 (Server.Failure "Agent not found"))
    /\ forall other, other <> threadId_ ->
         Server.get_agent other s1 = Server.get_agent other s).
  { intros out s1. subst s1. unfold Server.get_agent, Server.agent_name.
    cbn [Server.agents Server.objects]. rewrite Map_get_delete.
    split; [reflexivity|]. intros other Hother.
    now rewrite Map_get_delete_ne. }
  destruct (mongoClient agent_);
    [destruct (Server.mongoClient_close E) as [[]|e|]|];
    intros [= <- <-]; right;
    (split; [reflexivity|]); (split; [reflexivity|]); apply Hdeleted.
Qed.

Lemma delete_agent_removes_one_witness :
  Server.get_agent "thread-1" (Server.delete_agent externals "thread-1" serving).2 =
  Returned (Server.mkResponse 404 (Server.Failure "Agent not found")).
Proof.
  destruct (delete_agent_removes_one externals "thread-1" serving
              (Server.delete_agent externals "thread-1" serving).2
              (Server.mkResponse 200 (Server.AgentDeleted "thread-1")))
    as [(Habsurd & _)|(_ & _ & Hget & _)].
  - vm_compute. reflexivity.
  - discriminate Habsurd.
  - exact Hget.
Defined.

(** ** [POST /send] *)

(** X24.  [POST /send] changes no stored agent and no [params] object,
    whatever it answers and also when it never answers.  It answers 200
    only when the request names a stored thread and carries a message,
    [messageAgent] returned an executor, and the stream of that executor
    was read to its end; the [response] and the [toolCalls] it sends are
    what the reading loop left in its two variables, the tool calls being
    omitted when there are none.  In particular the error object that
    [messageAgent] returns when it fails never leads to a 200. *)
Theorem send_message_answers (E : Server.Externals)
    (request : Server.SendMessageRequest) (s : Server.State) :
  let r := Server.send_message E request s in
  Server.agents r.2 = Server.agents s
  /\ Server.objects r.2 = Server.objects s
  /\ forall answer, r.1 = Returned (Server.mkResponse 200 answer) ->
       exists threadId_ msg agent_ agentExecutor chunks finalResponse toolCalls,
         Server.send_threadId request = Some threadId_
         /\ Server.message_ request = Some msg
         /\ Server.Map_get (Server.agents s) threadId_ = Some agent_
         /\ (InjectedModelAgent.messageAgent (Server.agent_platform E) msg
               (mkSt agent_ (Server.objects s) (Server.stdout s))).1 =
              Returned (InjectedModelAgent.Executor agentExecutor)
         /\ Server.executor_stream E agentExecutor msg (config agent_) =
              Returned chunks
         /\ Server.read_stream ("", []) chunks = inr (finalResponse, toolCalls)
         /\ answer =
              Server.MessageSent threadId_ finalResponse
                (match toolCalls with [] => None | _ => Some toolCalls end).
Proof.
  intros r. subst r.
  destruct (send_message_keeps E request s) as [out Hkeeps].
  split; [now rewrite Hkeeps|]. split; [now rewrite Hkeeps|]. clear Hkeeps.
  unfold Server.send_message, Server.bad_request, Server.failed.
  destruct (Server.send_threadId request) as [threadId_|]; [|discriminate].
  destruct (String.eqb threadId_ ""); [discriminate|].
  destruct (Server.message_ request) as [msg|]; [|discriminate].
  destruct (String.eqb msg ""); [discriminate|].
  destruct (Server.Map_get (Server.agents s) threadId_) as [agent_|] eqn:Hget;
    [|discriminate].
  destruct (only_logs_messageAgent (Server.agent_platform E) msg
              (mkSt agent_ (Server.objects s) (Server.stdout s))) as (Hthis & _).
  destruct (InjectedModelAgent.messageAgent (Server.agent_platform E) msg
              (mkSt agent_ (Server.objects s) (Server.stdout s)))
    as [answered st] eqn:Hm.
  cbn [fst snd this] in *. rewrite Hthis.
  destruct answered as [[ex|e]|e|]; cbn [fst]; try discriminate.
  destruct (Server.executor_stream E ex msg (config agent_)) as [chunks|e|] eqn:Hs;
    cbn [fst]; try discriminate.
  destruct (Server.read_stream _ chunks) as [e|[finalResponse toolCalls]] eqn:Hr;
    cbn [fst]; [discriminate|].
  intros answer [= <-].
  exists threadId_, msg, agent_, ex, chunks, finalResponse, toolCalls.
  rewrite Hm.
  do 6 (split; [first [assumption | reflexivity]|]). now destruct toolCalls.
Qed.

Lemma read_stream_app (acc : string * list string) (before after : list Server.Chunk) :
  Server.read_stream acc (before ++ after) =
  match Server.read_stream acc before with
  | inr acc' => Server.read_stream acc' after
  | inl error => inl error
  end.
Proof.
  revert acc. induction before as [|chunk before IH]; intros acc;
    cbn [app Server.read_stream]; [reflexivity|].
  destruct (Server.read_chunk acc chunk); [reflexivity | apply IH].
Qed.

(** X25.  The loop that reads the stream in [POST /send].  A chunk without
    agent messages changes nothing, wherever it occurs.  When the stream
    ends with a chunk whose last message has a non-empty string for its
    content, that string is the response, whatever came before.  A chunk
    whose [messages] array is empty makes the loop throw, whatever follows
    it, so that the request is answered 500. *)
Theorem read_stream_keeps_last_text (acc : string * list string)
    (before after : list Server.Chunk) :
  Server.read_stream acc (before ++ None :: after) =
    Server.read_stream acc (before ++ after)
  /\ (forall acc' messages text calls,
        Server.read_stream acc before = inr acc' ->
        text <> "" ->
        exists toolCalls,
          Server.read_stream acc
            (before ++
             [Some (messages ++
                    [Server.mkChunkMessage (Server.StringContent text) calls])]) =
          inr (text, toolCalls))
  /\ (forall acc',
        Server.read_stream acc before = inr acc' ->
        Server.read_stream acc (before ++ Some [] :: after) =
        inl (TypeError "Cannot read properties of undefined")).
Proof.
  split; [|split].
  - rewrite !read_stream_app.
    destruct (Server.read_stream acc before); reflexivity.
  - intros acc' messages text calls Hbefore Htext.
    rewrite read_stream_app, Hbefore.
    cbn [Server.read_stream Server.read_chunk]. rewrite last_snoc.
    cbn [Server.content Server.tool_calls].
    apply String.eqb_neq in Htext. rewrite Htext. now eexists.
  - intros acc' Hbefore. now rewrite read_stream_app, Hbefore.
Qed.

(** ** The constructors that read the environment *)

Lemma construct_from_env_precedence (empty : ToolsField) (env : Env)
    (providers : ModelProviders) (threadId_ : string) (params_ : Ref)
    (out : list LogEntry) :
  (truthy (ANTHROPIC_API_KEY env) = true ->
   forall gemini_key gemini_new,
     construct_from_env empty (mkEnv (ANTHROPIC_API_KEY env) gemini_key)
       (mkModelProviders (ChatAnthropic_new providers) gemini_new)
       threadId_ params_ out =
     construct_from_env empty env providers threadId_ params_ out)
  /\ (truthy (ANTHROPIC_API_KEY env) = false ->
      truthy (GEMINI_API_KEY env) = false ->
      construct_from_env empty env providers threadId_ params_ out =
      (Threw (Error "Failed to initialize model: No valid API key found for AI models"),
       out ++ [ConsoleError "Error initializing model:"
                 (ErrorPayload (Error "No valid API key found for AI models"))]))
  /\ (forall agent_ out',
        construct_from_env empty env providers threadId_ params_ out =
          (Returned agent_, out') ->
        tools agent_ = empty /\ params agent_ = params_
        /\ threadId agent_ = threadId_ /\ config agent_ = Some threadId_
        /\ toolMetadata agent_ = "" /\ systemPrompt agent_ = None
        /\ checkPointSaver agent_ = None).
Proof.
  split; [|split].
  - intros Hkey gemini_key gemini_new. unfold construct_from_env.
    cbn [ANTHROPIC_API_KEY ChatAnthropic_new]. now rewrite Hkey.
  - intros Hanthropic Hgemini. unfold construct_from_env.
    now rewrite Hanthropic, Hgemini.
  - intros agent_ out' Hnew.
    apply construct_from_env_returns in Hnew as [m ->]. repeat split.
Qed.

(** X26.  The constructors of the two classes that read the environment.
    With a non-empty Anthropic key the Gemini key and the Gemini
    constructor play no part, also when the Anthropic model cannot be
    created.  With neither key (unset or empty) the constructor logs the
    error and throws [Failed to initialize model: No valid API key found
    for AI models].  An agent it returns has the empty collection of its
    class, the [params] it was given (unchecked and untouched), the thread
    of the call in its configuration, and neither metadata, prompt nor
    checkpoint saver. *)
Theorem env_constructors_prefer_anthropic (env : Env) (providers : ModelProviders)
    (threadId_ : string) (params_ : Ref) (out : list LogEntry) :
  let outcome (new : Env -> ModelProviders -> string -> Ref -> list LogEntry ->
                     Outcome Agent * list LogEntry) (empty : ToolsField) :=
    (truthy (ANTHROPIC_API_KEY env) = true ->
     forall gemini_key gemini_new,
       new (mkEnv (ANTHROPIC_API_KEY env) gemini_key)
         (mkModelProviders (ChatAnthropic_new providers) gemini_new)
         threadId_ params_ out =
       new env providers threadId_ params_ out)
    /\ (truthy (ANTHROPIC_API_KEY env) = false ->
        truthy (GEMINI_API_KEY env) = false ->
        new env providers threadId_ params_ out =
        (Threw (Error "Failed to initialize model: No valid API key found for AI models"),
         out ++ [ConsoleError "Error initializing model:"
                   (ErrorPayload (Error "No valid API key found for AI models"))]))
    /\ (forall agent_ out',
          new env providers threadId_ params_ out = (Returned agent_, out') ->
          tools agent_ = empty /\ params agent_ = params_
          /\ threadId agent_ = threadId_ /\ config agent_ = Some threadId_
          /\ toolMetadata agent_ = "" /\ systemPrompt agent_ = None
          /\ checkPointSaver agent_ = None) in
  outcome EnvKeyAgent.constructor (ToolsObject [])
  /\ outcome ArrayToolsAgent.constructor (ToolsArray []).
Proof.
  intros outcome. subst outcome. cbv beta.
  split; apply construct_from_env_precedence.
Qed.

(** * What the resolver logs *)

Lemma loading_line_resolver_line (entry : LogEntry) :
  loading_line entry = true -> resolver_line entry = true.
Proof.
  destruct entry as [text|text payload]; cbn; [trivial|].
  intros ->. reflexivity.
Qed.

Lemma settle_console (settlements : list (Outcome ToolItem))
    (l : Registry.Loading) (i : nat) :
  exists entries,
    console (Registry.loading_st (Registry.settle settlements l i)) =
      console (Registry.loading_st l) ++ entries
    /\ forallb loading_line entries = true.
Proof.
  unfold Registry.settle.
  destruct (Registry.toolPromises l !! i) as [[r|]|];
    try (exists []; split; [now rewrite app_nil_r | reflexivity]).
  destruct (settlements !! i) as [[toolItem|e|]|];
    try (exists []; split; [now rewrite app_nil_r | reflexivity]).
  - unfold Registry.load_tool_item.
    assert (Hnames : forallb loading_line
              (map (fun tool => ConsoleLog (tool_name tool)) (item_tools toolItem))
            = true).
    { induction (item_tools toolItem) as [|tool rest IH]; [reflexivity|].
      exact IH. }
    destruct (push _ _) as [error|t]; cbn.
    + eexists. rewrite <- app_assoc. split; [reflexivity|].
      rewrite forallb_app, Hnames. reflexivity.
    + eexists. split; [reflexivity | exact Hnames].
  - cbn. eexists. split; reflexivity.
Qed.

Lemma fold_settle_console (settlements : list (Outcome ToolItem))
    (idxs : list nat) (l : Registry.Loading) :
  exists entries,
    console (Registry.loading_st (fold_left (Registry.settle settlements) idxs l)) =
      console (Registry.loading_st l) ++ entries
    /\ forallb loading_line entries = true.
Proof.
  revert l. induction idxs as [|i idxs IH]; intros l; cbn [fold_left].
  - exists []. split; [now rewrite app_nil_r | reflexivity].
  - destruct (IH (Registry.settle settlements l i)) as (later & -> & Hlater).
    destruct (settle_console settlements l i) as (first & -> & Hfirst).
    exists (first ++ later). rewrite <- app_assoc. split; [reflexivity|].
    now rewrite forallb_app, Hfirst, Hlater.
Qed.

(** X27.  The branch of the resolver for rejected results is dead code.
    Whatever the index set, the registries and the schedule, every line the
    call adds to the console is the name of a loaded tool, the line [Error
    loading tool:] of the inner handler, the line of the outer handler, or
    the line for an empty collection: neither [Tool at index ... failed to
    load:] nor the summary [Failed to initialize one or more tools] is
    ever written, because the mapped function catches every error of a
    factory and its promise is always fulfilled. *)
Theorem resolver_never_reports_rejections (numbers : list Z)
    (coreRegistry allRegistry : AnyRegistry) (settling : list nat) (st : St) :
  exists entries,
    console (Registry.exportToolsAndSetMetadata numbers coreRegistry allRegistry
               settling st).2 = console st ++ entries
    /\ forallb resolver_line entries = true.
Proof.
  destruct allRegistry as [|all], coreRegistry as [|core];
    try (cbn; eexists; split; reflexivity).
  destruct (Registry.exportToolsAndSetMetadata numbers (FactoryArray core)
              (FactoryArray all) settling st) as [o st'] eqn:Hrun.
  cbn [snd].
  unfold Registry.exportToolsAndSetMetadata in Hrun. cbv zeta in Hrun.
  match type of Hrun with
  | context [fold_left (Registry.settle ?S) settling ?l] =>
      destruct (fold_settle_console S settling l) as (loading & Hconsole & Hlines);
      set (resumed := fold_left (Registry.settle S) settling l) in *
  end.
  cbn [Registry.loading_st console] in Hconsole.
  assert (Hloading : forallb resolver_line loading = true).
  { rewrite forallb_forall in Hlines |- *. intros entry Hin.
    now apply loading_line_resolver_line, Hlines. }
  destruct (Registry.Promise_allSettled (Registry.toolPromises resumed))
    as [results|] eqn:Hall.
  - assert (Hret : (Registry.exportToolsAndSetMetadata numbers (FactoryArray core)
                      (FactoryArray all) settling st).1 = Returned results).
    { unfold Registry.exportToolsAndSetMetadata. cbv zeta.
      fold resumed. now rewrite Hall. }
    apply export_returned_results in Hret as (Hres & _).
    injection Hrun as _ <-.
    rewrite finish_fulfilled.
    2:{ intros r Hr. rewrite Hres in Hr. unfold outcome_list in Hr.
        apply in_map_iff in Hr as (item & <- & _). reflexivity. }
    cbn [console]. rewrite Hconsole, <- app_assoc. eexists.
    split; [reflexivity|]. rewrite forallb_app, Hloading.
    destruct (length_is_zero _); reflexivity.
  - injection Hrun as _ <-. exists loading. now split.
Qed.

(** * The prompt of an agent created over HTTP *)

Lemma metadata_by_run_object (numbers : list Z) (core all : list Factory)
    (settling : list nat) (st : St) (props : list (string * toolType)) :
  tools (this st) = ToolsObject props ->
  metadata_by_run numbers core all settling st = [].
Proof.
  intros Ht. unfold metadata_by_run. apply flat_map_nil.
  intros i. destruct (_ !! i); [|reflexivity].
  unfold loaded_metadata. now rewrite Ht, wrapper_value_object.
Qed.

(** X28.  The agent that [POST /agent/create] stores for an accepted
    request, when the model can be created and the checkpoint saver can be
    installed.  Its system prompt is the template filled with the name and
    the instruction of the request, with no tool metadata, and with
    [false] where the knowledge from tools is rendered: the hints of the
    request are gone, the constructor having emptied [toolKnowledge], and an
    empty array renders as [false].  Its checkpoint saver is the one the
    request asked for. *)
Theorem created_agent_prompt (E : Server.Externals)
    (request : Server.CreateAgentRequest) (s : Server.State)
    (threadId_ : string) (config : Server.ModelConfig)
    (params_ : Server.RequestParams) (m : BaseChatModel) :
  accepted request s threadId_ config params_ ->
  Server.createModelFromConfig E config = inr m ->
  (Server.checkPointer_of (Server.create_checkPointer request) = mongo ->
   MongoClient_new (Server.agent_platform E) = None
   /\ MongoClient_connect (Server.agent_platform E) = Returned tt) ->
  let stored := mkParams (default "" (Server.name_ params_))
                  (default "" (Server.instruction_ params_)) (Some []) in
  exists s' agent_,
    Server.create_agent E request s =
      (Returned
         (Server.mkResponse 201
            (Server.AgentCreated threadId_ (default "" (Server.name_ params_)))),
       s')
    /\ Server.Map_get (Server.agents s') threadId_ = Some agent_
    /\ systemPrompt agent_ =
         Some (InjectedModelAgent.systemPrompt_text stored
                 (Date_toISOString (Server.agent_platform E)) "")
    /\ render_toolKnowledge (toolKnowledge stored) = "false"
    /\ toolMetadata agent_ = ""
    /\ checkPointSaver agent_ =
         Some (match Server.checkPointer_of (Server.create_checkPointer request) with
               | local => MemorySaver
               | mongo => MongoDBSaver
               end).
Proof.
  intros Hacc Hmodel Hmongo stored.
  rewrite (create_agent_accepted E request s threadId_ config params_ m Hacc Hmodel).
  unfold Server.initialize_args.
  rewrite (initialize_succeeds (Server.agent_platform E) _ _ _ _ _
             (constructed_for s threadId_ params_ m)
             (fresh (dom (Server.objects s))) stored);
    [|reflexivity | apply registry_of_settles | reflexivity
     | apply lookup_insert_eq | exact Hmongo].
  cbn [fst snd this heap console].
  eexists. eexists. split; [reflexivity|].
  cbn [Server.agents]. rewrite Map_get_set. split; [reflexivity|].
  unfold state_after_run. cbn [this toolMetadata with_toolMetadata systemPrompt
                              checkPointSaver].
  rewrite (metadata_by_run_object _ _ _ _ _ []) by reflexivity.
  repeat split.
Qed.

Lemma created_agent_prompt_witness :
  let request :=
    Server.mkCreateAgentRequest (Some "thread-2")
      (Some (Server.mkModelConfig (Some "anthropic")
               (Some "claude-3-haiku-20240307") (Some "key") None))
      (Some (Server.mkRequestParams (Some "Bot") (Some "Answer briefly")
               (Some ["prices are in USD"])))
      (Some [0%Z]) (Some [JString "swap"]) None None None in
  exists agent_,
    Server.Map_get
      (Server.agents (Server.create_agent externals request serving).2)
      "thread-2" = Some agent_
    /\ checkPointSaver agent_ = Some MemorySaver
    /\ toolMetadata agent_ = "".
Proof.
  intros request.
  destruct (created_agent_prompt externals request serving "thread-2"
              (Server.mkModelConfig (Some "anthropic")
                 (Some "claude-3-haiku-20240307") (Some "key") None)
              (Server.mkRequestParams (Some "Bot") (Some "Answer briefly")
                 (Some ["prices are in USD"]))
              7)
    as (s' & agent_ & Hcreate & Hget & _ & _ & Hmetadata & Hsaver).
  - repeat split.
  - reflexivity.
  - discriminate.
  - exists agent_. rewrite Hcreate. repeat split; assumption.
Defined.

(** * What reaches the executor *)

Lemma tools_get_empty_object (key : string) (tool : toolType) :
  tools_get (ToolsObject []) key <> ToolValue tool.
Proof.
  unfold tools_get. cbn [own_property].
  destruct (mem key Object_prototype_members); discriminate.
Qed.

(** Every element [orchestrate] returns is a lookup in the collection. *)
Lemma orchestrate_elements (P : Platform) (msg : string) (st : St)
    (result : list JSValue) :
  (InjectedModelAgent.orchestrate P msg st).1 = Returned result ->
  forall v, In v result -> exists key, v = tools_get (tools (this st)) key.
Proof.
  unfold InjectedModelAgent.orchestrate, try_catch, bind, this_params, get_this,
    invoke_model, parse, map_tool_names, await, throw, ret, console_error.
  destruct (params (this st)) as [|a]; cbn; [intros [= <-] v []|].
  destruct (heap st !! a) as [p|]; cbn; [|intros [= <-] v []].
  destruct (model (this st)) as [m|]; cbn; [|intros [= <-] v []].
  destruct (model_invoke P m _) as [content|e|]; cbn;
    [|intros [= <-] v []|discriminate].
  destruct (JSON_parse P content) as [e|parsed]; cbn; [intros [= <-] v []|].
  destruct parsed as [|b|repr|s|names|members]; cbn;
    try (intros [= <-] v []).
  intros [= <-] v Hin. apply in_map_iff in Hin as (name & <- & _).
  now exists (ToString name).
Qed.

(** The executor [messageAgent] returns was built over what [orchestrate]
    returned. *)
Lemma messageAgent_executor (P : Platform) (msg : string) (st : St)
    (ex : ReactAgent) :
  (InjectedModelAgent.messageAgent P msg st).1 =
    Returned (InjectedModelAgent.Executor ex) ->
  exists tools_,
    (InjectedModelAgent.orchestrate P msg st).1 = Returned tools_
    /\ createReactAgent P
         (mkReactAgentParams (model (this st)) tools_ (checkPointSaver (this st))
            (systemPrompt (this st))) = inr ex.
Proof.
  unfold InjectedModelAgent.messageAgent, try_catch, bind, get_this, ret, throw,
    console_error.
  destruct (only_logs_orchestrate P msg st) as (Hthis & _).
  destruct (InjectedModelAgent.orchestrate P msg st) as [[tools_|e|] st'];
    cbn [fst snd] in *; try discriminate.
  rewrite Hthis.
  destruct (createReactAgent P _) as [e|ex'] eqn:Hbuilt; cbn; [discriminate|].
  intros [= <-]. now exists tools_.
Qed.

Lemma initialize_all_object_tools (P : Platform) (calls : list InitializeArgs)
    (st : St) (props : list (string * toolType)) :
  tools (this st) = ToolsObject props ->
  tools (this (fold_left
                 (fun st args => (InjectedModelAgent.initialize P args st).2)
                 calls st)) = ToolsObject props.
Proof.
  revert st. induction calls as [|args calls IH]; intros st Ht; cbn [fold_left];
    [assumption|].
  apply IH. now apply initialize_object_tools.
Qed.

(** X29.  An agent of the model-receiving class never hands a tool to its
    executor.  Take the agent its constructor returns, call [initialize]
    any number of times with any arguments, then ask for an answer:
    whatever names the model returns, no element of the list [orchestrate]
    returns is a tool (each is [undefined] or a member inherited from
    [Object.prototype]), and the executor [messageAgent] returns was built
    by [createReactAgent] over such a list. *)
Theorem constructed_agent_never_resolves_a_tool (P : Platform)
    (threadId_ : string) (params_ : Ref) (model_ : option BaseChatModel)
    (h h' : gmap addr Params) (out out' : list LogEntry) (agent_ : Agent)
    (calls : list InitializeArgs) (msg : string) :
  InjectedModelAgent.constructor threadId_ params_ model_ h out =
    (Returned agent_, h', out') ->
  let st := fold_left
              (fun st args => (InjectedModelAgent.initialize P args st).2)
              calls (mkSt agent_ h' out') in
  (forall result,
     (InjectedModelAgent.orchestrate P msg st).1 = Returned result ->
     forall v tool, In v result -> v <> ToolValue tool)
  /\ (forall ex,
        (InjectedModelAgent.messageAgent P msg st).1 =
          Returned (InjectedModelAgent.Executor ex) ->
        exists tools_,
          createReactAgent P
            (mkReactAgentParams (model (this st)) tools_
               (checkPointSaver (this st)) (systemPrompt (this st))) = inr ex
          /\ forall v tool, In v tools_ -> v <> ToolValue tool).
Proof.
  intros Hnew st.
  assert (Hempty : tools agent_ = ToolsObject []).
  { unfold InjectedModelAgent.constructor in Hnew.
    destruct params_ as [|a]; [discriminate|].
    destruct (h !! a); [|discriminate].
    destruct model_; [|discriminate]. now injection Hnew as <- _ _. }
  assert (Ht : tools (this st) = ToolsObject [])
    by (apply initialize_all_object_tools; exact Hempty).
  assert (Hnone : forall result,
            (InjectedModelAgent.orchestrate P msg st).1 = Returned result ->
            forall v tool, In v result -> v <> ToolValue tool).
  { intros result Hres v tool Hin.
    destruct (orchestrate_elements P msg st result Hres v Hin) as [key ->].
    rewrite Ht. apply tools_get_empty_object. }
  split; [exact Hnone|].
  intros ex Hex.
  apply messageAgent_executor in Hex as (tools_ & Horch & Hbuilt).
  exists tools_. split; [exact Hbuilt | now apply Hnone].
Qed.

Lemma constructed_agent_never_resolves_a_tool_witness :
  let P := platform_replying naming_reply in
  let st := (InjectedModelAgent.initialize P
               (mkInitializeArgs [0%Z] (FactoryArray []) (FactoryArray [factory_X1])
                  local [0]) constructed_st).2 in
  (InjectedModelAgent.orchestrate P "swap my coins" st).1 =
    Returned [undefined; undefined; undefined]
  /\ undefined <> ToolValue tool_X1.
Proof.
  intros P st. split; [vm_compute; reflexivity|].
  refine (proj1 (constructed_agent_never_resolves_a_tool P "thread-1"
                   (RefObject 0) (Some 7) caller_heap _ [] _ _
                   [mkInitializeArgs [0%Z] (FactoryArray [])
                      (FactoryArray [factory_X1]) local [0]]
                   "swap my coins" _)
                [undefined; undefined; undefined] _ undefined tool_X1 _).
  - vm_compute. reflexivity.
  - vm_compute. reflexivity.
  - left. reflexivity.
Defined.

Lemma env_orchestrate_executor (P : Platform) (msg : string) (st : St)
    (ex : ReactAgent) :
  (EnvKeyAgent.orchestrate P msg st).1 = Returned (EnvKeyAgent.Agent_ ex) ->
  exists names,
    createReactAgent P
      (mkReactAgentParams (model (this st))
         (map (fun name => tools_get (tools (this st)) (ToString name)) names)
         (checkPointSaver (this st)) None) = inr ex.
Proof.
  unfold EnvKeyAgent.orchestrate, try_catch, bind, get_this, invoke_model, parse,
    map_tool_names, await, throw, ret, console_error, console_log.
  cbn.
  destruct (model (this st)) as [m|] eqn:Hmodel; cbn; [|discriminate].
  destruct (model_invoke P m _) as [content|e|]; cbn; try discriminate.
  destruct (JSON_parse P content) as [e|parsed]; cbn; [discriminate|].
  destruct parsed as [|b|repr|s|names|members]; cbn; try discriminate.
  destruct (createReactAgent P _) as [e|ex'] eqn:Hbuilt; cbn; [discriminate|].
  intros [= <-]. exists names. rewrite <- Hmodel. exact Hbuilt.
Qed.

Lemma env_initialize_all_object_tools (P : Platform)
    (calls : list InitializeArgs) (st : St) (props : list (string * toolType)) :
  tools (this st) = ToolsObject props ->
  tools (this (fold_left (fun st args => (EnvKeyAgent.initialize P args st).2)
                 calls st)) = ToolsObject props.
Proof.
  revert st. induction calls as [|args calls IH]; intros st Ht; cbn [fold_left];
    [assumption|].
  apply IH. rewrite env_initialize_tools. now apply export_object_tools.
Qed.

(** X30.  The same for the class configured from the environment: on the
    agent its constructor returns, after any number of [initialize] calls
    with any arguments, an executor that [orchestrate] returns was built by
    [createReactAgent] over a list in which no element is a tool, whatever
    names the model returned. *)
Theorem env_agent_never_resolves_a_tool (P : Platform) (env : Env)
    (providers : ModelProviders) (threadId_ : string) (params_ : Ref)
    (out out' : list LogEntry) (agent_ : Agent) (h : gmap addr Params)
    (calls : list InitializeArgs) (msg : string) (ex : ReactAgent) :
  EnvKeyAgent.constructor env providers threadId_ params_ out =
    (Returned agent_, out') ->
  let st := fold_left (fun st args => (EnvKeyAgent.initialize P args st).2)
              calls (mkSt agent_ h out') in
  (EnvKeyAgent.orchestrate P msg st).1 = Returned (EnvKeyAgent.Agent_ ex) ->
  exists tools_,
    createReactAgent P
      (mkReactAgentParams (model (this st)) tools_ (checkPointSaver (this st))
         None) = inr ex
    /\ forall v tool, In v tools_ -> v <> ToolValue tool.
Proof.
  intros Hnew st Hex.
  apply construct_from_env_returns in Hnew as [m ->].
  assert (Ht : tools (this st) = ToolsObject [])
    by (apply env_initialize_all_object_tools; reflexivity).
  apply env_orchestrate_executor in Hex as [names Hbuilt].
  eexists. split; [exact Hbuilt|].
  intros v tool Hin. apply in_map_iff in Hin as (name & <- & _).
  rewrite Ht. apply tools_get_empty_object.
Qed.

Lemma env_agent_never_resolves_a_tool_witness :
  let P := platform_replying naming_reply in
  let agent_ := mkAgent (ToolsObject []) "thread-1" "" (Some 7) None false None
                  (Some "thread-1") None (RefObject 0) [] in
  let st := (EnvKeyAgent.initialize P
               (mkInitializeArgs [0%Z] (FactoryArray []) (FactoryArray [factory_X1])
                  local [0])
               (mkSt agent_ caller_heap [ConsoleLog "Model Initilaized"])).2 in
  exists tools_,
    createReactAgent P
      (mkReactAgentParams (model (this st)) tools_ (checkPointSaver (this st))
         None) = inr 1
    /\ forall v tool, In v tools_ -> v <> ToolValue tool.
Proof.
  intros P agent_ st.
  refine (env_agent_never_resolves_a_tool P (mkEnv (Some "key") None)
            (mkModelProviders (fun _ => inr 7) (fun _ => inr 8))
            "thread-1" (RefObject 0) [] [ConsoleLog "Model Initilaized"] agent_
            caller_heap
            [mkInitializeArgs [0%Z] (FactoryArray []) (FactoryArray [factory_X1])
               local [0]]
            "swap my coins" 1 _ _).
  - reflexivity.
  - vm_compute. reflexivity.
Defined.

(** * Registration on the agent the constructor returns *)

(** What a run contributes is what it registers on an array, and is lost on
    an object. *)
Lemma contributed_on_array (numbers : list Z) (core all : list Factory)
    (settling : list nat) (st : St) (elems : list toolType) :
  tools (this st) = ToolsArray elems ->
  loaded_by_run numbers core all settling st =
  contributed_by_run numbers core all settling st.
Proof.
  intros Ht. unfold loaded_by_run, contributed_by_run.
  apply flat_map_ext. intros i. rewrite Ht.
  destruct (_ !! i) as [item|]; [|reflexivity]. apply loaded_tools_array.
Qed.

Lemma contributed_by_run_In (numbers : list Z) (core all : list Factory)
    (settling : list nat) (st : St) (i : nat) (item : Factory)
    (toolItem : ToolItem) (tool : toolType) :
  In i settling ->
  Registry.effective_factories numbers core all !! i = Some item ->
  item st = Returned toolItem ->
  In tool (item_tools toolItem) ->
  In tool (contributed_by_run numbers core all settling st).
Proof.
  intros Hi Hitem Hret Hin. unfold contributed_by_run.
  apply in_flat_map. exists i. split; [assumption|].
  cbv beta. unfold Factory in *. now rewrite Hitem, Hret.
Qed.

(** C4.  Two factories of one run return, and each declares a tool named
    [n].  On the agent the constructor of the model-receiving class
    returns, whose tool mapping is the object [{}], the call returns with
    [null] for both factories, and afterwards the mapping holds no entry
    for [n] at all, neither that of the factory that settled last nor any
    other: a read of [n] yields no tool.  The same holds after
    [initialize].  Both tools were contributed; neither was registered. *)
Theorem same_name_registers_no_entry (P : Platform) (numbers : list Z)
    (core all : list Factory) (cp : CheckPointer) (settling : list nat)
    (st : St) (i j : nat) (first second : Factory)
    (firstItem secondItem : ToolItem) (firstTool secondTool : toolType)
    (n : string) :
  tools (this st) = ToolsObject [] ->
  settling ≡ₚ seq 0 (length (Registry.effective_factories numbers core all)) ->
  all_settle (Registry.effective_factories numbers core all) st ->
  i <> j ->
  Registry.effective_factories numbers core all !! i = Some first ->
  Registry.effective_factories numbers core all !! j = Some second ->
  first st = Returned firstItem ->
  second st = Returned secondItem ->
  In firstTool (item_tools firstItem) -> tool_name firstTool = n ->
  In secondTool (item_tools secondItem) -> tool_name secondTool = n ->
  let r := Registry.exportToolsAndSetMetadata numbers (FactoryArray core)
             (FactoryArray all) settling st in
  let initialized :=
    InjectedModelAgent.initialize P
      (mkInitializeArgs numbers (FactoryArray core) (FactoryArray all) cp settling)
      st in
  (exists results,
     r.1 = Returned results
     /\ results !! i = Some (Registry.Fulfilled None)
     /\ results !! j = Some (Registry.Fulfilled None))
  /\ In firstTool (contributed_by_run numbers core all settling st)
  /\ In secondTool (contributed_by_run numbers core all settling st)
  /\ entries_named n (tools (this r.2)) = []
  /\ (forall tool, tools_get (tools (this r.2)) n <> ToolValue tool)
  /\ entries_named n (tools (this initialized.2)) = []
  /\ (forall tool, tools_get (tools (this initialized.2)) n <> ToolValue tool).
Proof.
  intros Ht Hperm Hsettle Hij Hi Hj Hfirst Hsecond Hin1 Hn1 Hin2 Hn2 r initialized.
  assert (Hrange : forall k, k < length (Registry.effective_factories numbers core all)
                    -> In k settling).
  { intros k Hk. apply list_elem_of_In. rewrite Hperm. apply elem_of_seq. lia. }
  assert (Hr : tools (this r.2) = ToolsObject [])
    by (subst r; now apply export_object_tools).
  assert (Hinit : tools (this initialized.2) = ToolsObject [])
    by (subst initialized; now apply initialize_object_tools).
  split; [|split; [|split; [|split; [|split; [|split]]]]].
  - destruct (export_on_object numbers core all settling st [] Ht Hperm Hsettle)
      as (Hres & _). fold r in Hres.
    eexists. split; [exact Hres|].
    rewrite !list_lookup_fmap. unfold Factory in *. rewrite Hi, Hj.
    split; reflexivity.
  - apply (contributed_by_run_In numbers core all settling st i first firstItem);
      try assumption.
    apply Hrange. eapply lookup_lt_Some; eassumption.
  - apply (contributed_by_run_In numbers core all settling st j second secondItem);
      try assumption.
    apply Hrange. eapply lookup_lt_Some; eassumption.
  - now rewrite Hr.
  - intros tool. rewrite Hr. apply tools_get_empty_object.
  - now rewrite Hinit.
  - intros tool. rewrite Hinit. apply tools_get_empty_object.
Qed.

Lemma same_name_registers_no_entry_witness :
  let r := Registry.exportToolsAndSetMetadata [0%Z; 1%Z] (FactoryArray [])
             (FactoryArray [factory_X1; factory_X2]) [1; 0] constructed_st in
  r.1 = Returned [Registry.Fulfilled None; Registry.Fulfilled None]
  /\ contributed_by_run [0%Z; 1%Z] [] [factory_X1; factory_X2] [1; 0]
       constructed_st = [tool_X2; tool_X1]
  /\ tools_get (tools (this r.2)) "X" = undefined
  /\ entries_named "X" (tools (this r.2)) = [].
Proof.
  intros r.
  destruct (same_name_registers_no_entry (platform_replying "[]")
              [0%Z; 1%Z] [] [factory_X1; factory_X2] local [1; 0] constructed_st
              0 1 factory_X1 factory_X2 item_X1 item_X2 tool_X1 tool_X2 "X")
    as (_ & _ & _ & Hentries & _).
  - reflexivity.
  - vm_compute. apply perm_swap.
  - vm_compute. repeat constructor; discriminate.
  - discriminate.
  - reflexivity.
  - reflexivity.
  - reflexivity.
  - reflexivity.
  - left. reflexivity.
  - reflexivity.
  - left. reflexivity.
  - reflexivity.
  - split; [vm_compute; reflexivity|]. split; [vm_compute; reflexivity|].
    split; [vm_compute; reflexivity | exact Hentries].
Defined.

(** C9.  [initialize] called twice on the agent the constructor of the
    model-receiving class returns.  Neither call throws.  But the tool
    mapping after the second call is not the union of what the successful
    factories of the two runs contributed: it is still the empty object,
    and no contributed tool is in it, because no registration of either run
    went through.  Nothing accumulates, and nothing is reset either. *)
Theorem initialize_twice_registers_nothing (P : Platform)
    (numbers1 : list Z) (core1 all1 : list Factory) (cp1 : CheckPointer)
    (settling1 : list nat)
    (numbers2 : list Z) (core2 all2 : list Factory) (cp2 : CheckPointer)
    (settling2 : list nat) (st : St) :
  tools (this st) = ToolsObject [] ->
  let args1 := mkInitializeArgs numbers1 (FactoryArray core1)
                 (FactoryArray all1) cp1 settling1 in
  let args2 := mkInitializeArgs numbers2 (FactoryArray core2)
                 (FactoryArray all2) cp2 settling2 in
  let st1 := (InjectedModelAgent.initialize P args1 st).2 in
  let st2 := (InjectedModelAgent.initialize P args2 st1).2 in
  let contributed :=
    contributed_by_run numbers1 core1 all1 settling1 st ++
    contributed_by_run numbers2 core2 all2 settling2 st1 in
  (forall e, (InjectedModelAgent.initialize P args1 st).1 <> Threw e)
  /\ (forall e, (InjectedModelAgent.initialize P args2 st1).1 <> Threw e)
  /\ tools (this st2) = ToolsObject []
  /\ (forall tool, In tool contributed -> ~ In tool (tool_list (tools (this st2))))
  /\ (contributed <> [] -> tool_list (tools (this st2)) <> contributed).
Proof.
  intros Ht args1 args2 st1 st2 contributed.
  assert (Ht2 : tools (this st2) = ToolsObject []).
  { subst st2 st1. apply initialize_object_tools.
    now apply initialize_object_tools. }
  split; [intros e; apply initialize_never_throws|].
  split; [intros e; apply initialize_never_throws|].
  split; [exact Ht2|]. rewrite Ht2. cbn [tool_list Object_values map].
  split; [intros tool _ []|]. intros Hne Heq. now apply Hne.
Qed.

Lemma initialize_twice_registers_nothing_witness :
  let P := platform_replying "[]" in
  let args1 := mkInitializeArgs [0%Z] (FactoryArray [])
                 (FactoryArray [factory_X1; factory_X2]) local [0] in
  let args2 := mkInitializeArgs [1%Z] (FactoryArray [factory_throws])
                 (FactoryArray [factory_X1; factory_X2]) mongo [1; 0] in
  let st1 := (InjectedModelAgent.initialize P args1 constructed_st).2 in
  let st2 := (InjectedModelAgent.initialize P args2 st1).2 in
  contributed_by_run [0%Z] [] [factory_X1; factory_X2] [0] constructed_st ++
    contributed_by_run [1%Z] [factory_throws] [factory_X1; factory_X2] [1; 0] st1
    = [tool_X1; tool_X2]
  /\ (InjectedModelAgent.initialize P args1 constructed_st).1 = Returned tt
  /\ (InjectedModelAgent.initialize P args2 st1).1 = Returned tt
  /\ tools (this st2) = ToolsObject [].
Proof.
  intros P args1 args2 st1 st2.
  split; [vm_compute; reflexivity|]. split; [vm_compute; reflexivity|].
  split; [vm_compute; reflexivity|].
  exact (proj1 (proj2 (proj2
    (initialize_twice_registers_nothing P
       [0%Z] [] [factory_X1; factory_X2] local [0]
       [1%Z] [factory_throws] [factory_X1; factory_X2] mongo [1; 0]
       constructed_st eq_refl)))).
Defined.
